(** * DAC8571: a shallow embedding of the STM32 HAL driver [dac8571.c]

    The driver is a thin layer over the blocking I2C primitives of the
    STM32 HAL.  Integers of the C code are modelled as [Z] with the
    conversions to [uint8_t] / [uint16_t] written out, the handle structure
    as a record, a possibly null pointer as an [option], and the HAL as an
    interface (a type class over an abstract bus state).  Every I2C
    transaction the driver asks for is also appended to a trace, together
    with its status, so that statements about the transactions issued can be
    expressed.  The debug output ([DEBUG_PRINT], [printf]) is left
    out; of the self-test routine, which only calls the functions below and
    prints a report, the calls and the two counters are modelled.

    The [float] and [double] arithmetic of [DAC8571_SetVoltage] is modelled
    with the executable IEEE-754 specification of the standard library
    ([SpecFloat]), binary32 for [float] and binary64 for [double]. *)

From Stdlib Require Import ZArith List Bool Lia QArith Qround Qpower Lqa.
From Stdlib Require Import Floats.SpecFloat.
Import ListNotations.
Local Open Scope Z_scope.

(** ** Machine integers *)

Definition uint8 (x : Z) : Z := x mod 256.
Definition uint16 (x : Z) : Z := x mod 65536.

(** ** Constants of [dac8571.h] *)

Definition DAC8571_PD_LOW_POWER : Z := 0x00.
Definition DAC8571_PD_FAST      : Z := 0x01.
Definition DAC8571_PD_1_KOHM    : Z := 0x02.
Definition DAC8571_PD_100_KOHM  : Z := 0x03.
Definition DAC8571_PD_HI_Z      : Z := 0x04.

Definition DAC8571_OK            : Z := 0x00.
Definition DAC8571_I2C_ERROR     : Z := 0x81.
Definition DAC8571_ADDRESS_ERROR : Z := 0x82.
Definition DAC8571_BUFFER_ERROR  : Z := 0x83.

Definition DAC8571_CMD_WRITE_TMP              : Z := 0x00.
Definition DAC8571_CMD_WRITE_TMP_PWDN         : Z := 0x01.
Definition DAC8571_CMD_WRITE_AND_UPDATE_DAC   : Z := 0x10.
Definition DAC8571_CMD_WRITE_UPDATE_PWDN      : Z := 0x11.
Definition DAC8571_CMD_UPDATE_FROM_TMP        : Z := 0x20.
Definition DAC8571_CMD_BROADCAST_WRITE_TMP    : Z := 0x30.
Definition DAC8571_CMD_BROADCAST_WRITE_UPDATE : Z := 0x31.
Definition DAC8571_CMD_BROADCAST_PWDN_ALL     : Z := 0x33.

(** ** The HAL as seen by the driver *)

(** The status type of the HAL, as [HAL_StatusToString] enumerates it. *)
Inductive HAL_StatusTypeDef := HAL_OK | HAL_ERROR | HAL_BUSY | HAL_TIMEOUT.

Definition status_is_ok (s : HAL_StatusTypeDef) : bool :=
  match s with HAL_OK => true | _ => false end.

Definition HAL_MAX_DELAY : Z := 0xFFFFFFFF.

(** An I2C peripheral handle; the driver only stores and forwards a pointer
    to it, [None] being the null pointer. *)
Inductive I2C_HandleTypeDef := I2C_Peripheral (n : nat).

Definition I2C_ptr := option I2C_HandleTypeDef.

(** The HAL entry points used by [dac8571.c].  [Bus] is the state of
    everything behind the HAL (peripheral, wires, device). *)
Class I2C_HAL (Bus : Type) := {
  HAL_I2C_Master_Transmit :
    Bus -> I2C_ptr -> Z -> list Z -> Z -> HAL_StatusTypeDef * Bus;
  HAL_I2C_Master_Receive :
    Bus -> I2C_ptr -> Z -> Z -> Z -> HAL_StatusTypeDef * list Z * Bus;
  HAL_I2C_IsDeviceReady :
    Bus -> I2C_ptr -> Z -> Z -> Z -> HAL_StatusTypeDef * Bus;
  HAL_I2C_GET_FLAG_BUSY : Bus -> I2C_ptr -> bool;
  HAL_I2C_CLEAR_FLAG_BUSY : Bus -> I2C_ptr -> Bus;
  HAL_Delay : Bus -> Z -> Bus
}.

(** The I2C transactions recorded in the trace, each with the status the
    HAL returned for it. *)
Inductive I2C_Call :=
| Transmit (hi2c : I2C_ptr) (DevAddress : Z) (pData : list Z) (Timeout : Z)
| Receive (hi2c : I2C_ptr) (DevAddress : Z) (Size : Z) (Timeout : Z)
| DeviceReady (hi2c : I2C_ptr) (DevAddress : Z) (Trials : Z) (Timeout : Z).

Definition BusEvent : Type := (I2C_Call * HAL_StatusTypeDef)%type.

Record World (Bus : Type) := mkWorld { bus : Bus; trace : list BusEvent }.
Arguments mkWorld {Bus} _ _.
Arguments bus {Bus} _.
Arguments trace {Bus} _.

(** ** The device handle *)

Record DAC8571_HandleTypeDef := mkHandle {
  hi2c      : I2C_ptr;  (* I2C_HandleTypeDef *hi2c *)
  address   : Z;        (* uint16_t *)
  lastValue : Z;        (* uint16_t *)
  writeMode : Z;        (* uint8_t  *)
  lastError : Z         (* int      *)
}.

Definition set_lastValue (h : DAC8571_HandleTypeDef) (v : Z) :=
  mkHandle (hi2c h) (address h) v (writeMode h) (lastError h).
Definition set_writeMode (h : DAC8571_HandleTypeDef) (m : Z) :=
  mkHandle (hi2c h) (address h) (lastValue h) m (lastError h).
Definition set_lastError (h : DAC8571_HandleTypeDef) (e : Z) :=
  mkHandle (hi2c h) (address h) (lastValue h) (writeMode h) e.

(** A handle as the README asks the caller to create it: zero-initialized. *)
Definition zero_handle : DAC8571_HandleTypeDef := mkHandle None 0 0 0 0.

(** ** IEEE-754 arithmetic of [DAC8571_SetVoltage] *)

Module Fp.

(** [float] is binary32, [double] is binary64. *)
Definition prec32 : Z := 24.
Definition emax32 : Z := 128.
Definition prec64 : Z := 53.
Definition emax64 : Z := 1024.

(** The conversion [(double) f] of a [float]: exact. *)
Definition double_of_float (f : spec_float) : spec_float :=
  match f with
  | S754_finite s m e => binary_round prec64 emax64 s m e
  | _ => f
  end.

(** The conversion of an [int] constant to [double]. *)
Definition double_of_int (n : Z) : spec_float :=
  binary_normalize prec64 emax64 n 0 false.

(** The literal [0.0f]. *)
Definition float_zero : spec_float := S754_zero false.

(** [#define DAC8571_REF_VOLTAGE 2.5], a [double] constant: 5 * 2^-1. *)
Definition DAC8571_REF_VOLTAGE : spec_float :=
  binary_normalize prec64 emax64 5 (-1) false.

(** Truncation toward zero of a [double], the value part of the cast
    [(uint16_t) x].  The C standard leaves the cast of a NaN, of an
    infinity and of a value outside the range of the target undefined;
    the model yields 0 for the first two and reduces the third modulo
    2^16. *)
Definition trunc (x : spec_float) : Z :=
  match x with
  | S754_finite s m e =>
      let a := match e with
               | Zneg p => Z.shiftr (Zpos m) (Zpos p)
               | _ => Z.shiftl (Zpos m) e
               end in
      if s then - a else a
  | _ => 0
  end.

Definition uint16_of_double (x : spec_float) : Z := uint16 (trunc x).

(** [(uint16_t)((voltage / DAC8571_REF_VOLTAGE) * 65535)] *)
Definition voltage_code (voltage : spec_float) : Z :=
  uint16_of_double
    (SFmul prec64 emax64
       (SFdiv prec64 emax64 (double_of_float voltage) DAC8571_REF_VOLTAGE)
       (double_of_int 65535)).

(** [voltage < 0.0f || voltage > DAC8571_REF_VOLTAGE] *)
Definition voltage_out_of_range (voltage : spec_float) : bool :=
  SFltb voltage float_zero
  || SFltb DAC8571_REF_VOLTAGE (double_of_float voltage).

(** The rational number denoted by a float (0 for NaN and infinities,
    which the statements below exclude). *)
Definition F2Q (m e : Z) : Q := inject_Z m * (2 # 1) ^ e.

Definition SF2Q (x : spec_float) : Q :=
  match x with
  | S754_finite s m e => if s then - F2Q (Zpos m) e else F2Q (Zpos m) e
  | _ => 0
  end.

Definition is_finite (x : spec_float) : bool :=
  match x with
  | S754_zero _ | S754_finite _ _ _ => true
  | _ => false
  end.

(** A well-formed binary32 datum. *)
Definition is_float (x : spec_float) : bool := valid_binary prec32 emax32 x.

(** The reference voltage as a rational. *)
Definition REF_VOLTAGE_Q : Q := 5 # 2.

(** The relative error of one rounding to binary64, 2^-52. *)
Definition eps : Q := 1 # 4503599627370496.

End Fp.

(** ** The driver *)

Section Driver.

Context {Bus : Type} `{I2C_HAL Bus}.

(** HAL calls; the I2C transactions are recorded in the trace. *)

Definition i2c_transmit (w : World Bus) (p : I2C_ptr) (dev : Z)
           (data : list Z) (timeout : Z) : HAL_StatusTypeDef * World Bus :=
  let '(st, b) := HAL_I2C_Master_Transmit (bus w) p dev data timeout in
  (st, mkWorld b (trace w ++ [(Transmit p dev data timeout, st)])).

Definition i2c_receive (w : World Bus) (p : I2C_ptr) (dev : Z)
           (size : Z) (timeout : Z)
  : HAL_StatusTypeDef * list Z * World Bus :=
  let '(st, data, b) := HAL_I2C_Master_Receive (bus w) p dev size timeout in
  (st, data, mkWorld b (trace w ++ [(Receive p dev size timeout, st)])).

Definition i2c_is_device_ready (w : World Bus) (p : I2C_ptr) (dev : Z)
           (trials : Z) (timeout : Z) : HAL_StatusTypeDef * World Bus :=
  let '(st, b) := HAL_I2C_IsDeviceReady (bus w) p dev trials timeout in
  (st, mkWorld b (trace w ++ [(DeviceReady p dev trials timeout, st)])).

Definition i2c_clear_busy (w : World Bus) (p : I2C_ptr) : World Bus :=
  mkWorld (HAL_I2C_CLEAR_FLAG_BUSY (bus w) p) (trace w).

Definition hal_delay (w : World Bus) (ms : Z) : World Bus :=
  mkWorld (HAL_Delay (bus w) ms) (trace w).

(** The result of a driver call: the returned value, the handle object
    afterwards ([None] when the pointer was null) and the world. *)
Definition Ret (A : Type) : Type :=
  (A * option DAC8571_HandleTypeDef * World Bus)%type.

Definition DAC8571_Write (hdac8571 : option DAC8571_HandleTypeDef)
           (value : Z) (w : World Bus) : Ret HAL_StatusTypeDef :=
  match hdac8571 with
  | None => (HAL_ERROR, None, w)
  | Some h =>
      let value := uint16 value in
      let buffer :=
        [writeMode h; uint8 (Z.shiftr value 8); uint8 (Z.land value 0xFF)] in
      let '(status, w') :=
        i2c_transmit w (hi2c h) (uint16 (Z.shiftl (address h) 1)) buffer 100 in
      if status_is_ok status
      then (HAL_OK,
            Some (set_lastError (set_lastValue h value) DAC8571_OK), w')
      else (status, Some (set_lastError h DAC8571_I2C_ERROR), w')
  end.

Definition DAC8571_IsConnected (hdac8571 : option DAC8571_HandleTypeDef)
           (w : World Bus) : Ret HAL_StatusTypeDef :=
  match hdac8571 with
  | None => (HAL_ERROR, None, w)
  | Some h =>
      let '(status, w') :=
        i2c_is_device_ready w (hi2c h) (uint16 (Z.shiftl (address h) 1)) 1 10 in
      if status_is_ok status
      then (status, Some h, w')
      else (status, Some (set_lastError h DAC8571_I2C_ERROR), w')
  end.

(** The probe loop of [DAC8571_Init]; [attempts] is the number of
    iterations left, the result says whether the device answered. *)
Fixpoint Init_probe (attempts : nat)
         (hdac8571 : option DAC8571_HandleTypeDef) (w : World Bus)
  : Ret bool :=
  match attempts with
  | O => (false, hdac8571, w)
  | S k =>
      let '(status, h', w') := DAC8571_IsConnected hdac8571 w in
      if status_is_ok status then (true, h', w')
      else Init_probe k h' (hal_delay w' 25)
  end.

Definition DAC8571_Init (hdac8571 : option DAC8571_HandleTypeDef)
           (hi2c_arg : I2C_ptr) (address_arg : Z) (w : World Bus)
  : Ret unit :=
  let address_arg := uint8 address_arg in
  match hdac8571, hi2c_arg with
  | Some _, Some _ =>
      if negb (address_arg =? 0x4C) && negb (address_arg =? 0x4E)
      then (tt, hdac8571, w)
      else
        let h := mkHandle hi2c_arg (uint16 address_arg) 0
                          DAC8571_CMD_WRITE_AND_UPDATE_DAC DAC8571_OK in
        let w1 := if HAL_I2C_GET_FLAG_BUSY (bus w) (hi2c h)
                  then i2c_clear_busy w (hi2c h) else w in
        let '(_, h', w') := Init_probe 5 (Some h) w1 in
        (tt, h', w')
  | _, _ => (tt, hdac8571, w)
  end.

(** The loop of [DAC8571_WriteArray]: [n] iterations are left, [i] is the
    loop index.  [arr[i]] is read with [nth]; reading past the end of the
    caller's array is undefined in C and the statements below assume
    [length] elements are there. *)
Fixpoint WriteArray_loop (n : nat) (i : nat)
         (hdac8571 : option DAC8571_HandleTypeDef) (arr : list Z)
         (w : World Bus) : Ret HAL_StatusTypeDef :=
  match n with
  | O => (HAL_OK, hdac8571, w)
  | S k =>
      let '(status, h', w') := DAC8571_Write hdac8571 (nth i arr 0) w in
      if status_is_ok status
      then WriteArray_loop k (S i) h' arr w'
      else (status, h', w')
  end.

Definition DAC8571_WriteArray (hdac8571 : option DAC8571_HandleTypeDef)
           (arr : option (list Z)) (length : Z) (w : World Bus)
  : Ret HAL_StatusTypeDef :=
  let length := uint8 length in
  match hdac8571, arr with
  | Some h, Some a =>
      if length =? 0 then (HAL_ERROR, hdac8571, w)
      else if 14 <? length
      then (HAL_ERROR, Some (set_lastError h DAC8571_BUFFER_ERROR), w)
      else WriteArray_loop (Z.to_nat length) 0 hdac8571 a w
  | _, _ => (HAL_ERROR, hdac8571, w)
  end.

(** The three-byte receive buffer: zero-initialized, then filled by the
    HAL with the bytes it received. *)
Definition received_data (data : list Z) : list Z :=
  map uint8 (firstn 3 (data ++ [0; 0; 0])).

Definition DAC8571_Read (hdac8571 : option DAC8571_HandleTypeDef)
           (w : World Bus) : Ret Z :=
  match hdac8571 with
  | None => (0, None, w)
  | Some h =>
      let '(status, data, w') :=
        i2c_receive w (hi2c h)
                    (uint16 (Z.lor (Z.shiftl (address h) 1) 0x01))
                    3 HAL_MAX_DELAY in
      if status_is_ok status
      then
        let buf := received_data data in
        let value :=
          uint16 (Z.lor (Z.shiftl (nth 0 buf 0) 8) (nth 1 buf 0)) in
        (value, Some (set_lastError h DAC8571_OK), w')
      else (0, Some (set_lastError h DAC8571_I2C_ERROR), w')
  end.

Definition DAC8571_SetVoltage (hdac8571 : option DAC8571_HandleTypeDef)
           (voltage : spec_float) (w : World Bus) : Ret HAL_StatusTypeDef :=
  match hdac8571 with
  | None => (HAL_ERROR, None, w)
  | Some _ =>
      if Fp.voltage_out_of_range voltage then (HAL_ERROR, hdac8571, w)
      else DAC8571_Write hdac8571 (Fp.voltage_code voltage) w
  end.

Definition is_write_mode (mode : Z) : bool :=
  (mode =? DAC8571_CMD_WRITE_TMP)
  || (mode =? DAC8571_CMD_WRITE_TMP_PWDN)
  || (mode =? DAC8571_CMD_WRITE_AND_UPDATE_DAC)
  || (mode =? DAC8571_CMD_WRITE_UPDATE_PWDN)
  || (mode =? DAC8571_CMD_UPDATE_FROM_TMP)
  || (mode =? DAC8571_CMD_BROADCAST_WRITE_TMP)
  || (mode =? DAC8571_CMD_BROADCAST_WRITE_UPDATE)
  || (mode =? DAC8571_CMD_BROADCAST_PWDN_ALL).

Definition DAC8571_SetWriteMode (hdac8571 : option DAC8571_HandleTypeDef)
           (mode : Z) (w : World Bus) : Ret HAL_StatusTypeDef :=
  let mode := uint8 mode in
  match hdac8571 with
  | None => (HAL_ERROR, None, w)
  | Some h =>
      if is_write_mode mode
      then (HAL_OK, Some (set_writeMode h mode), w)
      else (HAL_ERROR, hdac8571, w)
  end.

Definition DAC8571_GetWriteMode (hdac8571 : option DAC8571_HandleTypeDef)
           (w : World Bus) : Ret Z :=
  match hdac8571 with
  | None => (0, None, w)
  | Some h => (writeMode h, hdac8571, w)
  end.

(** The [switch] of [DAC8571_PowerMode]; [None] is the [default] branch. *)
Definition pdValue_of (pdMode : Z) : option Z :=
  if pdMode =? DAC8571_PD_LOW_POWER then Some (Z.shiftl 0 13)
  else if pdMode =? DAC8571_PD_FAST then Some (Z.shiftl 1 13)
  else if pdMode =? DAC8571_PD_1_KOHM then Some (Z.shiftl 2 13)
  else if pdMode =? DAC8571_PD_100_KOHM then Some (Z.shiftl 6 13)
  else if pdMode =? DAC8571_PD_HI_Z then Some (Z.shiftl 7 13)
  else None.

Definition DAC8571_PowerMode (hdac8571 : option DAC8571_HandleTypeDef)
           (pdMode : Z) (w : World Bus) : Ret HAL_StatusTypeDef :=
  let pdMode := uint8 pdMode in
  match hdac8571 with
  | None => (HAL_ERROR, None, w)
  | Some h =>
      let h1 := set_writeMode h DAC8571_CMD_WRITE_TMP_PWDN in
      match pdValue_of pdMode with
      | Some pdValue => DAC8571_Write (Some h1) pdValue w
      | None => (HAL_ERROR, Some h1, w)
      end
  end.

Definition DAC8571_WakeUp (hdac8571 : option DAC8571_HandleTypeDef)
           (value : Z) (w : World Bus) : Ret HAL_StatusTypeDef :=
  match hdac8571 with
  | None => (HAL_ERROR, None, w)
  | Some _ => DAC8571_Write hdac8571 value w
  end.

Definition DAC8571_Reset (hdac8571 : option DAC8571_HandleTypeDef)
           (w : World Bus) : Ret HAL_StatusTypeDef :=
  match hdac8571 with
  | None => (HAL_ERROR, None, w)
  | Some _ => DAC8571_Write hdac8571 0 w
  end.

Definition DAC8571_GetLastError (hdac8571 : option DAC8571_HandleTypeDef)
           (w : World Bus) : Ret Z :=
  match hdac8571 with
  | None => (DAC8571_ADDRESS_ERROR, None, w)
  | Some h => (lastError h, Some (set_lastError h DAC8571_OK), w)
  end.

Definition DAC8571_GetAddress (hdac8571 : option DAC8571_HandleTypeDef)
           (w : World Bus) : Ret Z :=
  match hdac8571 with
  | None => (0, None, w)
  | Some h => (uint8 (address h), hdac8571, w)
  end.

End Driver.

(** ** Sequences of driver calls on one handle *)

Inductive Op :=
| OpInit (hi2c_arg : I2C_ptr) (address_arg : Z)
| OpWrite (value : Z)
| OpWriteArray (arr : option (list Z)) (length : Z)
| OpRead
| OpIsConnected
| OpSetVoltage (voltage : spec_float)
| OpSetWriteMode (mode : Z)
| OpGetWriteMode
| OpPowerMode (pdMode : Z)
| OpWakeUp (value : Z)
| OpReset
| OpGetLastError
| OpGetAddress.

(** What a call hands back to its caller. *)
Inductive Outcome :=
| Status (s : HAL_StatusTypeDef)
| Value (v : Z)
| Nothing.

Section Run.

Context {Bus : Type} `{I2C_HAL Bus}.

Definition St : Type := (option DAC8571_HandleTypeDef * World Bus)%type.

Definition run_op (op : Op) (s : St) : Outcome * St :=
  let '(hdac8571, w) := s in
  match op with
  | OpInit p a =>
      let '(_, h, w') := DAC8571_Init hdac8571 p a w in (Nothing, (h, w'))
  | OpWrite v =>
      let '(r, h, w') := DAC8571_Write hdac8571 v w in (Status r, (h, w'))
  | OpWriteArray arr n =>
      let '(r, h, w') := DAC8571_WriteArray hdac8571 arr n w in
      (Status r, (h, w'))
  | OpRead =>
      let '(r, h, w') := DAC8571_Read hdac8571 w in (Value r, (h, w'))
  | OpIsConnected =>
      let '(r, h, w') := DAC8571_IsConnected hdac8571 w in
      (Status r, (h, w'))
  | OpSetVoltage v =>
      let '(r, h, w') := DAC8571_SetVoltage hdac8571 v w in
      (Status r, (h, w'))
  | OpSetWriteMode m =>
      let '(r, h, w') := DAC8571_SetWriteMode hdac8571 m w in
      (Status r, (h, w'))
  | OpGetWriteMode =>
      let '(r, h, w') := DAC8571_GetWriteMode hdac8571 w in
      (Value r, (h, w'))
  | OpPowerMode m =>
      let '(r, h, w') := DAC8571_PowerMode hdac8571 m w in
      (Status r, (h, w'))
  | OpWakeUp v =>
      let '(r, h, w') := DAC8571_WakeUp hdac8571 v w in (Status r, (h, w'))
  | OpReset =>
      let '(r, h, w') := DAC8571_Reset hdac8571 w in (Status r, (h, w'))
  | OpGetLastError =>
      let '(r, h, w') := DAC8571_GetLastError hdac8571 w in
      (Value r, (h, w'))
  | OpGetAddress =>
      let '(r, h, w') := DAC8571_GetAddress hdac8571 w in
      (Value r, (h, w'))
  end.

Fixpoint run_ops (ops : list Op) (s : St) : St :=
  match ops with
  | [] => s
  | op :: rest => run_ops rest (snd (run_op op s))
  end.

(** [n] consecutive calls of [DAC8571_GetLastError]; the values returned,
    in order. *)
Fixpoint poll_errors (n : nat) (s : St) : list Z :=
  match n with
  | O => []
  | S k =>
      let '(e, h, w) := DAC8571_GetLastError (fst s) (snd s) in
      e :: poll_errors k (h, w)
  end.

(** The last transaction of a list of events, if any. *)
Definition last_event (evs : list BusEvent) : option BusEvent :=
match rev evs with
| [] => None
| e :: _ => Some e
end.

(** Transmit and receive move data; the presence probe does not. *)
Definition is_transfer (c : I2C_Call) : bool :=
match c with
| Transmit _ _ _ _ | Receive _ _ _ _ => true
| DeviceReady _ _ _ _ => false
end.

(** What the last transaction of a call tells about [lastError]. *)
Definition settled (evs : list BusEvent) (h' : DAC8571_HandleTypeDef) : Prop :=
match last_event evs with
| None => True
| Some (c, st) =>
    if status_is_ok st
    then is_transfer c = true -> lastError h' = DAC8571_OK
    else lastError h' = DAC8571_I2C_ERROR
end.

(** The calls that may store into [address] or [writeMode]. *)
Definition touches_config (op : Op) : bool :=
match op with
| OpInit _ _ | OpSetWriteMode _ | OpPowerMode _ => true
| _ => false
end.

(** What a call other than those may do to a handle. *)
Definition same_config (h h' : DAC8571_HandleTypeDef) : Prop :=
hi2c h' = hi2c h /\ address h' = address h /\ writeMode h' = writeMode h.

Definition error_stored (h h' : DAC8571_HandleTypeDef) : Prop :=
lastError h' = lastError h \/ lastError h' = DAC8571_OK
\/ lastError h' = DAC8571_I2C_ERROR \/ lastError h' = DAC8571_BUFFER_ERROR.

(** The write-array behaviour in the words of the specification: write
    the elements one after the other and stop at the first failure. *)
Fixpoint write_each (hdac8571 : option DAC8571_HandleTypeDef)
         (values : list Z) (w : World Bus) : Ret HAL_StatusTypeDef :=
  match values with
  | [] => (HAL_OK, hdac8571, w)
  | v :: rest =>
      let '(status, h', w') := DAC8571_Write hdac8571 v w in
      if status_is_ok status then write_each h' rest w'
      else (status, h', w')
  end.

(** The frame the driver sends for a 16-bit value. *)
Definition frame (mode value : Z) : list Z :=
  [mode; value / 256; value mod 256].

Definition transmit_of (h : DAC8571_HandleTypeDef) (value : Z) : I2C_Call :=
  Transmit (hi2c h) (uint16 (Z.shiftl (address h) 1))
           (frame (writeMode h) value) 100.

(** The invariant of the data model. *)
Definition valid_address (a : Z) : Prop := a = 0x4C \/ a = 0x4E.

Definition handle_inv (h : DAC8571_HandleTypeDef) : Prop :=
  valid_address (address h) /\ is_write_mode (writeMode h) = true.

(** A transport that behaves as the device register: a successful
    transmit of a three-byte frame stores its two value bytes, and a
    receive returns them first, high byte first. *)
Definition faithful_loopback : Prop :=
  forall b p dev c hi lo t b',
    HAL_I2C_Master_Transmit b p dev [c; hi; lo] t = (HAL_OK, b') ->
    forall p' dev' size t',
    exists rest b'',
      HAL_I2C_Master_Receive b' p' dev' size t'
      = (HAL_OK, hi :: lo :: rest, b'').

End Run.

(** ** A concrete transport: the device register as a loopback

    [nack] is the number of upcoming transactions the device will not
    acknowledge. *)

Record LoopBus := mkLoop { nack : nat; reg_hi : Z; reg_lo : Z }.

Definition loop_transmit (b : LoopBus) (p : I2C_ptr) (dev : Z)
           (data : list Z) (t : Z) : HAL_StatusTypeDef * LoopBus :=
  match nack b with
  | S k => (HAL_ERROR, mkLoop k (reg_hi b) (reg_lo b))
  | O =>
      match data with
      | [_; hi; lo] => (HAL_OK, mkLoop O hi lo)
      | _ => (HAL_OK, b)
      end
  end.

Definition loop_receive (b : LoopBus) (p : I2C_ptr) (dev : Z)
           (size : Z) (t : Z) : HAL_StatusTypeDef * list Z * LoopBus :=
  match nack b with
  | S k => (HAL_ERROR, [], mkLoop k (reg_hi b) (reg_lo b))
  | O => (HAL_OK, [reg_hi b; reg_lo b; 0], b)
  end.

Definition loop_ready (b : LoopBus) (p : I2C_ptr) (dev : Z)
           (trials : Z) (t : Z) : HAL_StatusTypeDef * LoopBus :=
  match nack b with
  | S k => (HAL_ERROR, mkLoop k (reg_hi b) (reg_lo b))
  | O => (HAL_OK, b)
  end.

#[export] Instance LoopHAL : I2C_HAL LoopBus := {
  HAL_I2C_Master_Transmit := loop_transmit;
  HAL_I2C_Master_Receive := loop_receive;
  HAL_I2C_IsDeviceReady := loop_ready;
  HAL_I2C_GET_FLAG_BUSY := fun _ _ => false;
  HAL_I2C_CLEAR_FLAG_BUSY := fun b _ => b;
  HAL_Delay := fun b _ => b
}.

(** A bus on which every transaction succeeds, with an empty trace. *)
Definition quiet_world : World LoopBus := mkWorld (mkLoop O 0 0) [].

(** A bus whose next [n] transactions fail. *)
Definition flaky_world (n : nat) : World LoopBus := mkWorld (mkLoop n 0 0) [].

(** A handle as [DAC8571_Init] leaves it for peripheral 1 and address 0x4C. *)
Definition ready_handle : DAC8571_HandleTypeDef :=
  mkHandle (Some (I2C_Peripheral 1)) 0x4C 0 DAC8571_CMD_WRITE_AND_UPDATE_DAC
           DAC8571_OK.

(** The float 1.25. *)
Definition volt_1_25 : spec_float := S754_finite false 10485760 (-23).

(** The array of the self-test. *)
Definition testArray : list Z := [0x0000; 0x8000; 0xFFFF].

(** The command bytes and the power-down fields as the interface section
    of the specification lists them. *)
Definition command_bytes : list Z := [0x00; 0x01; 0x10; 0x11; 0x20; 0x30; 0x31; 0x33].

Definition pd_field (pdMode : Z) : Z :=
  if pdMode =? 0 then 0      (* low power : 000 *)
  else if pdMode =? 1 then 1 (* fast      : 001 *)
  else if pdMode =? 2 then 2 (* 1 kOhm    : 010 *)
  else if pdMode =? 3 then 6 (* 100 kOhm  : 110 *)
  else 7.                    (* hi-Z      : 111 *)

(** ** Transactions seen from the handle *)

(** The value carried by the last successful transmit of a list of events,
    [d] when there is none. *)
Definition last_ok_value (evs : list BusEvent) (d : Z) : Z :=
fold_left
  (fun acc e =>
     match e with
     | (Transmit _ _ [_; hi; lo] _, HAL_OK) => hi * 256 + lo
     | _ => acc
     end)
  evs d.

(** A transaction as the driver issues it for the transport [p], the device
    address [a] and a command byte satisfying [ok_mode]. *)
Definition event_on (p : I2C_ptr) (a : Z) (ok_mode : Z -> Prop)
           (e : BusEvent) : Prop :=
match fst e with
| Transmit p' dev data t =>
    p' = p /\ dev = uint16 (Z.shiftl a 1) /\ t = 100
    /\ exists c v, data = frame c v /\ ok_mode c /\ 0 <= v < 65536
| Receive p' dev size t =>
    p' = p /\ dev = uint16 (Z.lor (Z.shiftl a 1) 1) /\ size = 3
    /\ t = HAL_MAX_DELAY
| DeviceReady p' dev trials t =>
    p' = p /\ dev = uint16 (Z.shiftl a 1) /\ trials = 1 /\ t = 10
end.

(** The same with the numbers on the wire written out. *)
Definition wire_ok (p : I2C_HandleTypeDef) (a : Z) (e : BusEvent) : Prop :=
match fst e with
| Transmit p' dev data t =>
    p' = Some p /\ dev = 2 * a /\ t = 100
    /\ exists c hi lo,
        data = [c; hi; lo] /\ In c command_bytes
        /\ 0 <= hi < 256 /\ 0 <= lo < 256
| Receive p' dev size t =>
    p' = Some p /\ dev = 2 * a + 1 /\ size = 3 /\ t = 0xFFFFFFFF
| DeviceReady p' dev trials t =>
    p' = Some p /\ dev = 2 * a /\ trials = 1 /\ t = 10
end.

(** What a call that stores neither transport, address nor write mode does:
    [lastValue] follows the successful transmits, at most [n] transactions
    are issued, all of them for the handle's transport, address and mode. *)
Definition tracked (h : DAC8571_HandleTypeDef) (evs : list BusEvent)
           (h' : DAC8571_HandleTypeDef) (n : nat) : Prop :=
same_config h h'
/\ lastValue h' = last_ok_value evs (lastValue h)
/\ Forall (event_on (hi2c h) (address h) (eq (writeMode h))) evs
/\ (length evs <= n)%nat.

Definition is_init (op : Op) : bool :=
match op with OpInit _ _ => true | _ => false end.

(** The largest number of bus transactions a call can issue. *)
Definition budget (op : Op) : nat :=
match op with
| OpInit _ _ => 5
| OpWriteArray _ n => if 14 <? uint8 n then 0 else Z.to_nat (uint8 n)
| OpSetVoltage v => if Fp.voltage_out_of_range v then 0 else 1
| OpPowerMode m => match pdValue_of (uint8 m) with Some _ => 1 | None => 0 end
| OpWrite _ | OpRead | OpIsConnected | OpWakeUp _ | OpReset => 1
| OpSetWriteMode _ | OpGetWriteMode | OpGetLastError | OpGetAddress => 0
end.

(** What each function hands back for a null handle. *)
Definition null_result (op : Op) : Outcome :=
match op with
| OpInit _ _ => Nothing
| OpRead | OpGetWriteMode | OpGetAddress => Value 0
| OpGetLastError => Value DAC8571_ADDRESS_ERROR
| _ => Status HAL_ERROR
end.

(** The presence probe issued for a handle. *)
Definition probe_of (h : DAC8571_HandleTypeDef) (st : HAL_StatusTypeDef)
  : BusEvent :=
(DeviceReady (hi2c h) (uint16 (Z.shiftl (address h) 1)) 1 10, st).

Definition failed (st : HAL_StatusTypeDef) : Prop := st <> HAL_OK.

Definition no_init (ops : list Op) : bool :=
forallb (fun op => negb (is_init op)) ops.

(** ** The self-test

    [DAC8571_SelfTest] calls the driver with valid and invalid arguments
    and counts the calls whose status is the expected one.  The model
    returns the two counters the routine prints, [passedTests] and
    [failedTests]; the printed text itself is left out. *)

Definition voltages : list spec_float :=
[S754_finite true 8388608 (-22);    (* -2.0f *)
 S754_zero false;                   (* 0.0f  *)
 S754_finite false 10485760 (-23);  (* 1.25f *)
 S754_finite false 8388608 (-22);   (* 2.0f  *)
 S754_finite false 13841203 (-22)]. (* 3.3f  *)

Definition allWriteModes : list Z :=
[DAC8571_CMD_WRITE_TMP; DAC8571_CMD_WRITE_TMP_PWDN;
 DAC8571_CMD_WRITE_AND_UPDATE_DAC; DAC8571_CMD_WRITE_UPDATE_PWDN;
 DAC8571_CMD_UPDATE_FROM_TMP; DAC8571_CMD_BROADCAST_WRITE_TMP;
 DAC8571_CMD_BROADCAST_WRITE_UPDATE; DAC8571_CMD_BROADCAST_PWDN_ALL;
 0xFF].

Definition powerModes : list Z :=
[DAC8571_PD_LOW_POWER; DAC8571_PD_FAST; DAC8571_PD_1_KOHM;
 DAC8571_PD_100_KOHM; DAC8571_PD_HI_Z; 0xFF].

(** [passedTests++] or [failedTests++]. *)
Definition tally (passed : bool) (c : Z * Z) : Z * Z :=
if passed then (fst c + 1, snd c) else (fst c, snd c + 1).

Definition total (c : Z * Z) : Z := fst c + snd c.

Section SelfTest.

Context {Bus : Type} `{I2C_HAL Bus}.

(** The counters, the handle and the world. *)
Definition TestState : Type :=
(Z * Z * option DAC8571_HandleTypeDef * World Bus)%type.

(** The body of the loop over [voltages]. *)
Definition voltage_step (s : TestState) (v : spec_float) : TestState :=
let '(c, hdac8571, w) := s in
let '(status, h', w') := DAC8571_SetVoltage hdac8571 v w in
let valid :=
  SFleb Fp.float_zero v
  && SFleb (Fp.double_of_float v) Fp.DAC8571_REF_VOLTAGE in
let invalid :=
  SFltb v Fp.float_zero
  || SFltb Fp.DAC8571_REF_VOLTAGE (Fp.double_of_float v) in
(tally ((valid && status_is_ok status)
        || (invalid && negb (status_is_ok status))) c, h', w').

(** The body of the loop over [allWriteModes]. *)
Definition mode_step (s : TestState) (mode : Z) : TestState :=
let '(c, hdac8571, w) := s in
let '(status, h', w') := DAC8571_SetWriteMode hdac8571 mode w in
(tally (((mode <=? DAC8571_CMD_BROADCAST_PWDN_ALL) && status_is_ok status)
        || ((DAC8571_CMD_BROADCAST_PWDN_ALL <? mode)
            && negb (status_is_ok status))) c, h', w').

(** The body of the loop over [powerModes]. *)
Definition power_step (s : TestState) (pdMode : Z) : TestState :=
let '(c, hdac8571, w) := s in
let '(status, h', w') := DAC8571_PowerMode hdac8571 pdMode w in
(tally (((pdMode <=? DAC8571_PD_HI_Z) && status_is_ok status)
        || ((DAC8571_PD_HI_Z <? pdMode) && negb (status_is_ok status)))
       c, h', w').

(** The straight-line part after the loops. *)
Definition SelfTest_tail (s : TestState) : TestState :=
let '(c, hdac8571, w) := s in
let '(status, h1, w1) := DAC8571_WriteArray hdac8571 (Some testArray) 3 w in
let c1 := tally (status_is_ok status) c in
let '(status, h2, w2) := DAC8571_WriteArray h1 (Some testArray) 20 w1 in
let c2 := tally (negb (status_is_ok status)) c1 in
let '(status, h3, w3) := DAC8571_Write h2 0x8000 w2 in
let c3 := tally (status_is_ok status) c2 in
let '(readVal, h4, w4) := DAC8571_Read h3 w3 in
let '(status, h5, w5) := DAC8571_Reset h4 w4 in
let c5 := tally (status_is_ok status) c3 in
let '(status, h6, w6) := DAC8571_WakeUp h5 0x8000 w5 in
let c6 := tally (status_is_ok status) c5 in
let '(_, h7, w7) := DAC8571_GetAddress h6 w6 in
let '(_, h8, w8) := DAC8571_GetWriteMode h7 w7 in
let '(_, h9, w9) := DAC8571_GetLastError h8 w8 in
let '(_, h10, w10) := DAC8571_SetVoltage h9 Fp.float_zero w9 in
(c6, h10, w10).

Definition DAC8571_SelfTest (hdac8571 : option DAC8571_HandleTypeDef)
           (w : World Bus) : TestState :=
let s0 : TestState := ((0, 0), hdac8571, w) in
let s1 := fold_left voltage_step voltages s0 in
let s2 := fold_left mode_step allWriteModes s1 in
let s3 := fold_left power_step powerModes s2 in
SelfTest_tail s3.

Definition counters (s : TestState) : Z * Z := fst (fst s).

(** The handle and the world of a test state. *)
Definition state_of (s : TestState) : St := (snd (fst s), snd s).

(** The calls of the self-test, in order. *)
Definition SelfTest_ops : list Op :=
map OpSetVoltage voltages ++ map OpSetWriteMode allWriteModes
++ map OpPowerMode powerModes
++ [OpWriteArray (Some testArray) 3; OpWriteArray (Some testArray) 20;
    OpWrite 0x8000; OpRead; OpReset; OpWakeUp 0x8000;
    OpGetAddress; OpGetWriteMode; OpGetLastError;
    OpSetVoltage Fp.float_zero].

(** A transport on which every transmit is acknowledged. *)
Definition always_acks : Prop :=
forall b p dev data t, fst (HAL_I2C_Master_Transmit b p dev data t) = HAL_OK.

End SelfTest.

(** A transport without failures. *)
#[export] Instance SteadyHAL : I2C_HAL unit := {
  HAL_I2C_Master_Transmit := fun b _ _ _ _ => (HAL_OK, b);
  HAL_I2C_Master_Receive := fun b _ _ _ _ => (HAL_OK, [0; 0; 0], b);
  HAL_I2C_IsDeviceReady := fun b _ _ _ _ => (HAL_OK, b);
  HAL_I2C_GET_FLAG_BUSY := fun _ _ => false;
  HAL_I2C_CLEAR_FLAG_BUSY := fun b _ => b;
  HAL_Delay := fun b _ => b
}.

Definition steady_world : World unit := mkWorld tt [].

(** The floats 2.0 and 3.3 of the self-test. *)
Definition volt_2_0 : spec_float := S754_finite false 8388608 (-22).
Definition volt_3_3 : spec_float := S754_finite false 13841203 (-22).

(** A short session after [DAC8571_Init]. *)
Definition session : list Op :=
[OpSetWriteMode DAC8571_CMD_UPDATE_FROM_TMP; OpWrite 0x1234; OpRead;
 OpPowerMode DAC8571_PD_1_KOHM; OpWakeUp 0x8000].

(** * Properties *)

(** ** Bytes of a 16-bit value *)

Lemma uint16_small (v : Z) : 0 <= v < 65536 -> uint16 v = v.
Proof. intros Hv. unfold uint16. now apply Z.mod_small. Qed.

Lemma uint8_small (v : Z) : 0 <= v < 256 -> uint8 v = v.
Proof. intros Hv. unfold uint8. now apply Z.mod_small. Qed.

Lemma high_byte (v : Z) : 0 <= v < 65536 -> uint8 (Z.shiftr v 8) = v / 256.
Proof.
  intros Hv. rewrite Z.shiftr_div_pow2 by lia. change (2 ^ 8) with 256.
  apply uint8_small. split.
  - apply Z.div_pos; lia.
  - apply Z.div_lt_upper_bound; lia.
Qed.

Lemma low_byte (v : Z) : uint8 (Z.land v 0xFF) = v mod 256.
Proof.
  change 0xFF with (Z.ones 8). rewrite Z.land_ones by lia.
  change (2 ^ 8) with 256. unfold uint8. apply Z.mod_mod. lia.
Qed.

Lemma bytes_join (v : Z) :
  0 <= v < 65536 ->
  uint16 (Z.lor (Z.shiftl (uint8 (v / 256)) 8) (uint8 (v mod 256))) = v.
Proof.
  intros Hv.
  assert (Hhi : 0 <= v / 256 < 256).
  { split; [apply Z.div_pos; lia | apply Z.div_lt_upper_bound; lia]. }
  assert (Hlo : 0 <= v mod 256 < 256) by (apply Z.mod_pos_bound; lia).
  rewrite !uint8_small by assumption.
  rewrite Z.shiftl_mul_pow2 by lia. change (2 ^ 8) with 256.
  assert (Hdisj : Z.land (v / 256 * 256) (v mod 256) = 0).
  { apply Z.bits_inj'. intros n Hn. rewrite Z.land_spec, Z.bits_0.
    destruct (Z.lt_ge_cases n 8) as [Hlt | Hge].
    - replace (v / 256 * 256) with (Z.shiftl (v / 256) 8)
        by (rewrite Z.shiftl_mul_pow2 by lia; reflexivity).
      rewrite Z.shiftl_spec_low by assumption. reflexivity.
    - replace (Z.testbit (v mod 256) n) with false;
        [apply andb_false_r | ].
      symmetry. change 256 with (2 ^ 8).
      apply Z.mod_pow2_bits_high. lia. }
  rewrite <- (Z.lxor_lor _ _ Hdisj), <- (Z.add_nocarry_lxor _ _ Hdisj).
  rewrite uint16_small; [ | lia ].
  rewrite (Z.div_mod v 256) at 3 by lia. lia.
Qed.

Section WriteProperties.

Context {Bus : Type} `{I2C_HAL Bus}.

(** ** Write *)

Lemma Write_unfold (h : DAC8571_HandleTypeDef) (value : Z) (w : World Bus) :
  0 <= value < 65536 ->
  DAC8571_Write (Some h) value w =
  let '(st, b) :=
    HAL_I2C_Master_Transmit (bus w) (hi2c h) (uint16 (Z.shiftl (address h) 1))
                            (frame (writeMode h) value) 100 in
  let w' := mkWorld b (trace w ++ [(transmit_of h value, st)]) in
  if status_is_ok st
  then (HAL_OK, Some (set_lastError (set_lastValue h value) DAC8571_OK), w')
  else (st, Some (set_lastError h DAC8571_I2C_ERROR), w').
Proof.
  intros Hv. unfold DAC8571_Write, i2c_transmit, transmit_of, frame.
  rewrite (uint16_small value Hv), (high_byte value Hv), (low_byte value).
  destruct (HAL_I2C_Master_Transmit _ _ _ _ _) as [st b]. reflexivity.
Qed.

(** C1: for a non-null handle and a 16-bit value, [DAC8571_Write] hands the
    HAL exactly one transmit of the frame [writeMode; value / 256;
    value mod 256]; when the transmit returns HAL_OK the handle gets
    lastValue = value and lastError = OK and HAL_OK is returned; when it
    returns another status, that status is returned, lastError becomes
    I2C_ERROR and nothing else of the handle (lastValue included)
    changes. *)
Theorem Write_spec (h : DAC8571_HandleTypeDef) (value : Z) (w : World Bus) :
  0 <= value < 65536 ->
  exists st b,
    HAL_I2C_Master_Transmit (bus w) (hi2c h) (uint16 (Z.shiftl (address h) 1))
                            [writeMode h; value / 256; value mod 256] 100
    = (st, b)
    /\ let w' := mkWorld b (trace w ++ [(transmit_of h value, st)]) in
       (st = HAL_OK ->
        DAC8571_Write (Some h) value w
        = (HAL_OK,
           Some (mkHandle (hi2c h) (address h) value (writeMode h) DAC8571_OK),
           w'))
       /\ (st <> HAL_OK ->
           DAC8571_Write (Some h) value w
           = (st,
              Some (mkHandle (hi2c h) (address h) (lastValue h) (writeMode h)
                             DAC8571_I2C_ERROR),
              w')).
Proof.
  intros Hv. rewrite (Write_unfold h value w Hv). unfold frame.
  destruct (HAL_I2C_Master_Transmit _ _ _ _ _) as [st b].
  exists st, b. split; [reflexivity | ]. cbv zeta. split.
  - intros ->. reflexivity.
  - intros Hst. destruct st; try reflexivity. now elim Hst.
Qed.

End WriteProperties.

Lemma Write_spec_witness :
  0 <= 0xBEEF < 65536 /\
  exists st b,
    HAL_I2C_Master_Transmit (bus quiet_world) (hi2c ready_handle)
                            (uint16 (Z.shiftl (address ready_handle) 1))
                            [writeMode ready_handle; 0xBEEF / 256; 0xBEEF mod 256]
                            100
    = (st, b)
    /\ let w' := mkWorld b (trace quiet_world
                             ++ [(transmit_of ready_handle 0xBEEF, st)]) in
       (st = HAL_OK ->
        DAC8571_Write (Some ready_handle) 0xBEEF quiet_world
        = (HAL_OK,
           Some (mkHandle (hi2c ready_handle) (address ready_handle) 0xBEEF
                          (writeMode ready_handle) DAC8571_OK),
           w'))
       /\ (st <> HAL_OK ->
           DAC8571_Write (Some ready_handle) 0xBEEF quiet_world
           = (st,
              Some (mkHandle (hi2c ready_handle) (address ready_handle)
                             (lastValue ready_handle) (writeMode ready_handle)
                             DAC8571_I2C_ERROR),
              w')).
Proof.
  split; [lia | apply (Write_spec ready_handle 0xBEEF quiet_world); lia].
Defined.

(** ** Write mode and power-down mode *)

Lemma is_write_mode_iff (mode : Z) :
  is_write_mode mode = true <-> In mode command_bytes.
Proof.
  unfold is_write_mode, command_bytes,
    DAC8571_CMD_WRITE_TMP, DAC8571_CMD_WRITE_TMP_PWDN,
    DAC8571_CMD_WRITE_AND_UPDATE_DAC, DAC8571_CMD_WRITE_UPDATE_PWDN,
    DAC8571_CMD_UPDATE_FROM_TMP, DAC8571_CMD_BROADCAST_WRITE_TMP,
    DAC8571_CMD_BROADCAST_WRITE_UPDATE, DAC8571_CMD_BROADCAST_PWDN_ALL.
  rewrite !orb_true_iff, !Z.eqb_eq. simpl. intuition congruence.
Qed.

Lemma pdValue_of_valid (pdMode : Z) :
  0 <= pdMode <= 4 -> pdValue_of pdMode = Some (Z.shiftl (pd_field pdMode) 13).
Proof.
  intros Hm.
  assert (Hc : pdMode = 0 \/ pdMode = 1 \/ pdMode = 2 \/ pdMode = 3 \/ pdMode = 4)
    by lia.
  destruct Hc as [-> | [-> | [-> | [-> | ->]]]]; reflexivity.
Qed.

Lemma pdValue_of_invalid (pdMode : Z) :
  ~ 0 <= pdMode <= 4 -> pdValue_of pdMode = None.
Proof.
  intros Hm. unfold pdValue_of, DAC8571_PD_LOW_POWER, DAC8571_PD_FAST,
    DAC8571_PD_1_KOHM, DAC8571_PD_100_KOHM, DAC8571_PD_HI_Z.
  repeat match goal with
         | |- context [?a =? ?b] => destruct (Z.eqb_spec a b); [lia | ]
         end.
  reflexivity.
Qed.

Lemma pd_field_bits (pdMode : Z) :
  0 <= pdMode <= 4 ->
  let v := Z.shiftl (pd_field pdMode) 13 in
  0 <= v < 65536
  /\ Z.shiftr v 13 = pd_field pdMode
  /\ Z.land v (Z.ones 13) = 0.
Proof.
  intros Hm.
  assert (Hc : pdMode = 0 \/ pdMode = 1 \/ pdMode = 2 \/ pdMode = 3 \/ pdMode = 4)
    by lia.
  destruct Hc as [-> | [-> | [-> | [-> | ->]]]]; vm_compute; intuition congruence.
Qed.

Section ModeProperties.

Context {Bus : Type} `{I2C_HAL Bus}.

(** C7: on a non-null handle [DAC8571_SetWriteMode] stores the mode and
    returns HAL_OK exactly for the eight command bytes 0x00, 0x01, 0x10,
    0x11, 0x20, 0x30, 0x31, 0x33; for every other byte it returns
    HAL_ERROR and leaves the handle, writeMode included, as it was.  No
    bus transaction is issued in either case. *)
Theorem SetWriteMode_spec (h : DAC8571_HandleTypeDef) (mode : Z) (w : World Bus) :
  0 <= mode < 256 ->
  (In mode command_bytes ->
   DAC8571_SetWriteMode (Some h) mode w
   = (HAL_OK,
      Some (mkHandle (hi2c h) (address h) (lastValue h) mode (lastError h)),
      w))
  /\ (~ In mode command_bytes ->
      DAC8571_SetWriteMode (Some h) mode w = (HAL_ERROR, Some h, w)).
Proof.
  intros Hm. unfold DAC8571_SetWriteMode. rewrite (uint8_small mode Hm).
  split; intros Hin.
  - apply is_write_mode_iff in Hin. rewrite Hin. reflexivity.
  - destruct (is_write_mode mode) eqn:E; [ | reflexivity].
    apply is_write_mode_iff in E. contradiction.
Qed.

(** C4: for each of the five power-down modes [DAC8571_PowerMode] sends
    one frame whose command byte is 0x01 and whose 16-bit value has the
    documented field (000, 001, 010, 110, 111) in bits 15-13 and zeros
    elsewhere; afterwards writeMode is 0x01 whatever it was before and
    whether or not the transmit succeeded. *)
Theorem PowerMode_spec (h : DAC8571_HandleTypeDef) (pdMode : Z) (w : World Bus) :
  0 <= pdMode <= 4 ->
  exists v st h' w',
    DAC8571_PowerMode (Some h) pdMode w = (st, Some h', w')
    /\ 0 <= v < 65536
    /\ Z.shiftr v 13 = pd_field pdMode
    /\ Z.land v (Z.ones 13) = 0
    /\ (exists st_tx,
           trace w' = trace w
                      ++ [(Transmit (hi2c h) (uint16 (Z.shiftl (address h) 1))
                                    [0x01; v / 256; v mod 256] 100, st_tx)])
    /\ writeMode h' = 0x01.
Proof.
  intros Hm. destruct (pd_field_bits pdMode Hm) as (Hv & Hhi & Hlo).
  exists (Z.shiftl (pd_field pdMode) 13).
  unfold DAC8571_PowerMode.
  rewrite (uint8_small pdMode) by lia.
  rewrite (pdValue_of_valid pdMode Hm).
  rewrite (Write_unfold _ _ w Hv). unfold transmit_of, frame.
  cbn [hi2c address writeMode set_writeMode].
  destruct (HAL_I2C_Master_Transmit _ _ _ _ _) as [st b]. cbv zeta.
  destruct (status_is_ok st);
    eexists _, _, _; (split; [reflexivity | ]);
    (split; [exact Hv | ]); (split; [exact Hhi | ]); (split; [exact Hlo | ]);
    (split; [eexists; reflexivity | reflexivity]).
Qed.

(** Rejections that leave everything as it was. *)

Lemma SetVoltage_rejects (h : DAC8571_HandleTypeDef) (voltage : spec_float) (w : World Bus) :
  Fp.voltage_out_of_range voltage = true ->
  DAC8571_SetVoltage (Some h) voltage w = (HAL_ERROR, Some h, w).
Proof. intros E. unfold DAC8571_SetVoltage. now rewrite E. Qed.

Lemma Init_rejects_address (h : DAC8571_HandleTypeDef) (p : I2C_ptr) (a : Z) (w : World Bus) :
  uint8 a <> 0x4C -> uint8 a <> 0x4E ->
  DAC8571_Init (Some h) p a w = (tt, Some h, w).
Proof.
  intros H1 H2. unfold DAC8571_Init. destruct p; [ | reflexivity].
  destruct (Z.eqb_spec (uint8 a) 0x4C); [contradiction | ].
  destruct (Z.eqb_spec (uint8 a) 0x4E); [contradiction | ].
  reflexivity.
Qed.

Lemma Init_rejects_null_transport (h : DAC8571_HandleTypeDef) (a : Z) (w : World Bus) :
  DAC8571_Init (Some h) None a w = (tt, Some h, w).
Proof. reflexivity. Qed.

Lemma PowerMode_rejects (h : DAC8571_HandleTypeDef) (pdMode : Z) (w : World Bus) :
  0 <= pdMode < 256 -> ~ pdMode <= 4 ->
  DAC8571_PowerMode (Some h) pdMode w
  = (HAL_ERROR, Some (set_writeMode h DAC8571_CMD_WRITE_TMP_PWDN), w).
Proof.
  intros Hm Hbad. unfold DAC8571_PowerMode.
  rewrite (uint8_small pdMode Hm), pdValue_of_invalid by lia. reflexivity.
Qed.

End ModeProperties.

(** ** Arrays of values *)

Section ArrayProperties.

Context {Bus : Type} `{I2C_HAL Bus}.

Lemma Write_some (h : DAC8571_HandleTypeDef) (value : Z) (w : World Bus) :
  exists st h' w',
    DAC8571_Write (Some h) value w = (st, Some h', w')
    /\ same_config h h' /\ error_stored h h'
    /\ exists e, trace w' = trace w ++ [e] /\ settled [e] h'
                 /\ (st = HAL_OK <-> snd e = HAL_OK).
Proof.
  unfold DAC8571_Write, i2c_transmit.
  destruct (HAL_I2C_Master_Transmit _ _ _ _ _) as [st b].
  destruct st; cbn [status_is_ok]; eexists _, _, _;
    (split; [reflexivity | ]);
    (split; [repeat split | ]);
    (split; [unfold error_stored; cbn; tauto | ]);
    eexists; (split; [reflexivity | ]);
    (split; [unfold settled; cbn; tauto | cbn; split; congruence]).
Qed.

Lemma WriteArray_loop_write_each (n i : nat) (a : list Z)
      (hdac8571 : option DAC8571_HandleTypeDef) (w : World Bus) :
  (i + n <= length a)%nat ->
  WriteArray_loop n i hdac8571 a w
  = write_each hdac8571 (firstn n (skipn i a)) w.
Proof.
  revert i hdac8571 w. induction n as [ | n IH]; intros i hdac8571 w Hlen.
  - reflexivity.
  - assert (Hi : (i < length a)%nat) by lia.
    destruct (skipn i a) as [ | x rest] eqn:Hskip.
    + apply (f_equal (@length Z)) in Hskip. rewrite length_skipn in Hskip.
      simpl in Hskip. lia.
    + assert (Hx : nth i a 0 = x).
      { rewrite <- (firstn_skipn i a) at 1. rewrite app_nth2, Hskip.
        - rewrite length_firstn, Nat.min_l by lia.
          now rewrite Nat.sub_diag.
        - rewrite length_firstn. lia. }
      assert (Hrest : skipn (S i) a = rest).
      { replace (S i) with (1 + i)%nat by lia.
        rewrite <- skipn_skipn, Hskip. reflexivity. }
      cbn [WriteArray_loop firstn write_each]. rewrite Hx.
      destruct (DAC8571_Write hdac8571 x w) as [[st h'] w'].
      destruct (status_is_ok st); [ | reflexivity].
      rewrite IH by lia. now rewrite Hrest.
Qed.

Lemma transmit_of_same (h h' : DAC8571_HandleTypeDef) (v : Z) :
  same_config h h' -> transmit_of h' v = transmit_of h v.
Proof.
  intros (E1 & E2 & E3). unfold transmit_of. now rewrite E1, E2, E3.
Qed.

Lemma write_each_trace (vals : list Z) (h : DAC8571_HandleTypeDef) (w : World Bus) :
  Forall (fun v => 0 <= v < 65536) vals ->
  exists st h' w' k sts,
    write_each (Some h) vals w = (st, Some h', w')
    /\ (k <= length vals)%nat
    /\ trace w' = trace w ++ combine (map (transmit_of h) (firstn k vals)) sts
    /\ (st = HAL_OK -> k = length vals /\ sts = repeat HAL_OK k)
    /\ (st <> HAL_OK -> (1 <= k)%nat /\ sts = repeat HAL_OK (k - 1) ++ [st]).
Proof.
  intros Hvals. revert h w.
  induction Hvals as [ | v vals Hv Hvals IH]; intros h w.
  - exists HAL_OK, h, w, 0%nat, []. cbn.
    rewrite app_nil_r. split; [reflexivity | ]. split; [lia | ].
    split; [reflexivity | ]. split.
    + intros _. split; reflexivity.
    + intros E. now elim E.
  - cbn [write_each]. rewrite (Write_unfold h v w Hv).
    destruct (HAL_I2C_Master_Transmit _ _ _ _ _) as [st b].
    destruct (status_is_ok st) eqn:Est; cbv beta iota zeta;
      [cbn [status_is_ok] | rewrite Est].
    + destruct st; try discriminate.
      set (h1 := set_lastError (set_lastValue h v) DAC8571_OK).
      set (w1 := mkWorld b _).
      destruct (IH h1 w1) as (st' & h' & w' & k & sts & E & Hk & Htr & Hok & Hko).
      exists st', h', w', (S k), (HAL_OK :: sts).
      split; [exact E | ]. split; [cbn; lia | ].
      split.
      { rewrite Htr. subst w1. cbn [trace firstn map combine].
        rewrite <- app_assoc. cbn [app]. do 3 f_equal. }
      split.
      * intros E'. destruct (Hok E') as [-> ->]. split; reflexivity.
      * intros E'. destruct (Hko E') as [Hk1 ->]. split; [lia | ].
        replace (S k - 1)%nat with (S (k - 1)) by lia. reflexivity.
    + eexists st, (set_lastError h DAC8571_I2C_ERROR), _, 1%nat, [st].
      split; [reflexivity | ]. split; [cbn; lia | ].
      split; [reflexivity | ]. split.
      * intros ->. discriminate.
      * intros _. split; [lia | reflexivity].
Qed.

(** C3 (amended): [DAC8571_WriteArray] called with a null handle, a null
    sequence or length 0 returns HAL_ERROR and changes nothing; called with
    a sequence and a length above 14 it returns HAL_ERROR, issues no bus
    transaction and stores BUFFER_ERROR in lastError.  For a length in
    [1, 14] it behaves as writing the first [length] elements one after the
    other: the trace grows by the transmits of the elements in order, all
    of them when every transmit succeeds (HAL_OK is returned), and
    otherwise up to and including the first one that fails, whose status is
    returned. *)
Theorem WriteArray_spec (hdac8571 : option DAC8571_HandleTypeDef) (arr : option (list Z))
        (len : Z) (w : World Bus) :
  0 <= len < 256 ->
  ((hdac8571 = None \/ arr = None \/ len = 0) ->
   DAC8571_WriteArray hdac8571 arr len w = (HAL_ERROR, hdac8571, w))
  /\ (forall h a,
         hdac8571 = Some h -> arr = Some a -> 14 < len ->
         DAC8571_WriteArray hdac8571 arr len w
         = (HAL_ERROR,
            Some (mkHandle (hi2c h) (address h) (lastValue h) (writeMode h)
                           DAC8571_BUFFER_ERROR),
            w))
  /\ (forall h a,
         hdac8571 = Some h -> arr = Some a -> 1 <= len <= 14 ->
         len <= Z.of_nat (length a) ->
         Forall (fun v => 0 <= v < 65536) a ->
         DAC8571_WriteArray hdac8571 arr len w
         = write_each hdac8571 (firstn (Z.to_nat len) a) w
         /\ exists st h' w' k sts,
             DAC8571_WriteArray hdac8571 arr len w = (st, Some h', w')
             /\ (k <= Z.to_nat len)%nat
             /\ trace w' = trace w
                           ++ combine (map (transmit_of h) (firstn k a)) sts
             /\ (st = HAL_OK -> k = Z.to_nat len /\ sts = repeat HAL_OK k)
             /\ (st <> HAL_OK ->
                 (1 <= k)%nat /\ sts = repeat HAL_OK (k - 1) ++ [st])).
Proof.
  intros Hlen. unfold DAC8571_WriteArray. rewrite (uint8_small len Hlen).
  split; [ | split].
  - intros [-> | [-> | ->]]; try reflexivity.
    + now destruct hdac8571.
    + now destruct hdac8571, arr.
  - intros h a -> -> Hgt.
    destruct (Z.eqb_spec len 0); [lia | ].
    destruct (Z.ltb_spec 14 len); [reflexivity | lia].
  - intros h a -> -> Hrange Ha Hvals.
    destruct (Z.eqb_spec len 0); [lia | ].
    destruct (Z.ltb_spec 14 len); [lia | ].
    rewrite WriteArray_loop_write_each by lia. cbn [skipn].
    split; [reflexivity | ].
    assert (Hfirst : Forall (fun v => 0 <= v < 65536) (firstn (Z.to_nat len) a)).
    { apply Forall_forall. intros x Hx.
      apply (proj1 (Forall_forall _ a) Hvals).
      rewrite <- (firstn_skipn (Z.to_nat len) a). apply in_or_app. now left. }
    destruct (write_each_trace _ h w Hfirst)
      as (st & h' & w' & k & sts & E & Hk & Htr & Hok & Hko).
    rewrite length_firstn, Nat.min_l in Hk, Hok by lia.
    exists st, h', w', k, sts. split; [exact E | ]. split; [exact Hk | ].
    split; [ | split; assumption].
    rewrite Htr. rewrite firstn_firstn, Nat.min_l by lia. reflexivity.
Qed.

End ArrayProperties.

(** ** What a call does to the handle and to the trace *)

Lemma last_event_app (evs1 evs2 : list BusEvent) :
  evs2 <> [] -> last_event (evs1 ++ evs2) = last_event evs2.
Proof.
  intros Hne. unfold last_event. rewrite rev_app_distr.
  destruct (rev evs2) as [ | e r] eqn:E; [ | reflexivity].
  apply (f_equal (@rev BusEvent)) in E. rewrite rev_involutive in E.
  contradiction.
Qed.

Lemma settled_app (evs1 evs2 : list BusEvent) (h : DAC8571_HandleTypeDef) :
  evs2 <> [] -> settled evs2 h -> settled (evs1 ++ evs2) h.
Proof. intros Hne Hs. unfold settled. now rewrite last_event_app. Qed.

Lemma settled_nil (h : DAC8571_HandleTypeDef) : settled [] h.
Proof. exact I. Qed.

Lemma same_config_refl (h : DAC8571_HandleTypeDef) : same_config h h.
Proof. repeat split. Qed.

Lemma same_config_trans (h1 h2 h3 : DAC8571_HandleTypeDef) :
  same_config h1 h2 -> same_config h2 h3 -> same_config h1 h3.
Proof. unfold same_config. intuition congruence. Qed.

Lemma error_stored_refl (h : DAC8571_HandleTypeDef) : error_stored h h.
Proof. now left. Qed.

Lemma error_stored_trans (h1 h2 h3 : DAC8571_HandleTypeDef) :
  error_stored h1 h2 -> error_stored h2 h3 -> error_stored h1 h3.
Proof. unfold error_stored. intuition congruence. Qed.

Lemma handle_inv_same (h h' : DAC8571_HandleTypeDef) :
  same_config h h' -> handle_inv h -> handle_inv h'.
Proof.
  intros (_ & Ea & Em) [Ha Hm]. unfold handle_inv. now rewrite Ea, Em.
Qed.

Create HintDb dac.

#[local] Hint Resolve same_config_refl error_stored_refl settled_nil : dac.

Section CallEffects.

Context {Bus : Type} `{I2C_HAL Bus}.

Lemma IsConnected_some (h : DAC8571_HandleTypeDef) (w : World Bus) :
  exists st h' w',
    DAC8571_IsConnected (Some h) w = (st, Some h', w')
    /\ same_config h h' /\ error_stored h h'
    /\ exists e, trace w' = trace w ++ [e] /\ settled [e] h'.
Proof.
  unfold DAC8571_IsConnected, i2c_is_device_ready.
  destruct (HAL_I2C_IsDeviceReady _ _ _ _ _) as [st b].
  destruct st; cbn [status_is_ok]; eexists _, _, _;
    (split; [reflexivity | ]);
    (split; [repeat split | ]);
    (split; [unfold error_stored; cbn; tauto | ]);
    eexists; (split; [reflexivity | ]);
    unfold settled; cbn; try tauto; discriminate.
Qed.

Lemma Read_some (h : DAC8571_HandleTypeDef) (w : World Bus) :
  exists v h' w',
    DAC8571_Read (Some h) w = (v, Some h', w')
    /\ same_config h h' /\ error_stored h h'
    /\ exists e, trace w' = trace w ++ [e] /\ settled [e] h'.
Proof.
  unfold DAC8571_Read, i2c_receive.
  destruct (HAL_I2C_Master_Receive _ _ _ _ _) as [[st data] b].
  destruct st; cbn [status_is_ok]; eexists _, _, _;
    (split; [reflexivity | ]);
    (split; [repeat split | ]);
    (split; [unfold error_stored; cbn; tauto | ]);
    eexists; (split; [reflexivity | ]);
    unfold settled; cbn; tauto.
Qed.

Lemma write_each_effect (vals : list Z) (h : DAC8571_HandleTypeDef) (w : World Bus) :
  exists st h' w' evs,
    write_each (Some h) vals w = (st, Some h', w')
    /\ trace w' = trace w ++ evs
    /\ same_config h h' /\ error_stored h h' /\ settled evs h'
    /\ (evs = [] -> h' = h).
Proof.
  revert h w. induction vals as [ | v vals IH]; intros h w.
  - exists HAL_OK, h, w, []. cbn. rewrite app_nil_r. auto 7 with dac.
  - cbn [write_each].
    destruct (Write_some h v w)
      as (st & h1 & w1 & E & Hc & He & e & Htr & Hs & _).
    rewrite E. destruct (status_is_ok st).
    + destruct (IH h1 w1) as (st' & h' & w' & evs & E' & Htr' & Hc' & He' & Hs' & Hq).
      exists st', h', w', (e :: evs). split; [exact E' | ].
      split; [rewrite Htr', Htr, <- app_assoc; reflexivity | ].
      split; [eapply same_config_trans; eassumption | ].
      split; [eapply error_stored_trans; eassumption | ].
      split; [ | discriminate].
      destruct evs as [ | e' evs].
      * now rewrite (Hq eq_refl).
      * apply (settled_app [e]); [discriminate | exact Hs'].
    + exists st, h1, w1, [e]. repeat split; try assumption; try apply Hc.
      discriminate.
Qed.

Lemma Init_probe_effect (n : nat) (h : DAC8571_HandleTypeDef) (w : World Bus) :
  exists r h' w' evs,
    Init_probe n (Some h) w = (r, Some h', w')
    /\ trace w' = trace w ++ evs
    /\ same_config h h' /\ error_stored h h' /\ settled evs h'
    /\ (evs = [] -> h' = h).
Proof.
  revert h w. induction n as [ | n IH]; intros h w.
  - exists false, h, w, []. cbn. rewrite app_nil_r. auto 7 with dac.
  - cbn [Init_probe].
    destruct (IsConnected_some h w)
      as (st & h1 & w1 & E & Hc & He & e & Htr & Hs).
    rewrite E. destruct (status_is_ok st).
    + exists true, h1, w1, [e]. repeat split; try assumption; try apply Hc.
      discriminate.
    + destruct (IH h1 (hal_delay w1 25))
        as (r & h' & w' & evs & E' & Htr' & Hc' & He' & Hs' & Hq).
      exists r, h', w', (e :: evs). split; [exact E' | ].
      split.
      { rewrite Htr'. cbn [hal_delay trace]. rewrite Htr, <- app_assoc.
        reflexivity. }
      split; [eapply same_config_trans; eassumption | ].
      split; [eapply error_stored_trans; eassumption | ].
      split; [ | discriminate].
      destruct evs as [ | e' evs].
      * now rewrite (Hq eq_refl).
      * apply (settled_app [e]); [discriminate | exact Hs'].
Qed.

Lemma WriteArray_loop_effect (n i : nat) (a : list Z) (h : DAC8571_HandleTypeDef)
      (w : World Bus) :
  exists st h' w' evs,
    WriteArray_loop n i (Some h) a w = (st, Some h', w')
    /\ trace w' = trace w ++ evs
    /\ same_config h h' /\ error_stored h h' /\ settled evs h'
    /\ (evs = [] -> h' = h).
Proof.
  revert i h w. induction n as [ | n IH]; intros i h w.
  - exists HAL_OK, h, w, []. cbn. rewrite app_nil_r. auto 7 with dac.
  - cbn [WriteArray_loop].
    destruct (Write_some h (nth i a 0) w)
      as (st & h1 & w1 & E & Hc & He & e & Htr & Hs & _).
    rewrite E. destruct (status_is_ok st).
    + destruct (IH (S i) h1 w1)
        as (st' & h' & w' & evs & E' & Htr' & Hc' & He' & Hs' & Hq).
      exists st', h', w', (e :: evs). split; [exact E' | ].
      split; [rewrite Htr', Htr, <- app_assoc; reflexivity | ].
      split; [eapply same_config_trans; eassumption | ].
      split; [eapply error_stored_trans; eassumption | ].
      split; [ | discriminate].
      destruct evs as [ | e' evs].
      * now rewrite (Hq eq_refl).
      * apply (settled_app [e]); [discriminate | exact Hs'].
    + exists st, h1, w1, [e]. repeat split; try assumption; try apply Hc.
      discriminate.
Qed.

End CallEffects.

Section OpProperties.

Context {Bus : Type} `{I2C_HAL Bus}.

Lemma run_op_effect (op : Op) (h : DAC8571_HandleTypeDef) (w : World Bus) :
  exists o h' w' evs,
    run_op op (Some h, w) = (o, (Some h', w'))
    /\ trace w' = trace w ++ evs
    /\ error_stored h h'
    /\ settled evs h'
    /\ (touches_config op = false -> same_config h h')
    /\ (handle_inv h -> handle_inv h')
    /\ ((forall p a, op <> OpInit p a) -> address h' = address h).
Proof.
  assert (Hnone : forall o, exists (o' : Outcome) h' w' evs,
             (o, (Some h, w)) = (o', (Some h', w'))
             /\ trace w' = trace w ++ evs
             /\ error_stored h h' /\ settled evs h'
             /\ (touches_config op = false -> same_config h h')
             /\ (handle_inv h -> handle_inv h')
             /\ ((forall p a, op <> OpInit p a) -> address h' = address h)).
  { intros o. exists o, h, w, []. rewrite app_nil_r. auto 8 with dac. }
  assert (Hquiet : forall o h' (w' : World Bus) evs,
             trace w' = trace w ++ evs -> same_config h h' ->
             error_stored h h' -> settled evs h' ->
             exists (o' : Outcome) h'' w'' evs',
               (o, (Some h', w')) = (o', (Some h'', w''))
               /\ trace w'' = trace w ++ evs'
               /\ error_stored h h'' /\ settled evs' h''
               /\ (touches_config op = false -> same_config h h'')
               /\ (handle_inv h -> handle_inv h'')
               /\ ((forall p a, op <> OpInit p a) -> address h'' = address h)).
  { intros o h' w' evs Htr Hc He Hs. exists o, h', w', evs.
    split; [reflexivity | ]. split; [exact Htr | ].
    split; [exact He | ]. split; [exact Hs | ].
    split; [auto | ]. split; [apply handle_inv_same; exact Hc | ].
    intros _. apply Hc. }
  destruct op; cbn [run_op].
  - (* Init *)
    unfold DAC8571_Init. destruct hi2c_arg as [p | ]; [ | apply Hnone].
    cbv zeta. generalize (uint8 address_arg). intros a.
    destruct (negb (a =? 76) && negb (a =? 78)) eqn:Ea; [apply Hnone | ].
    assert (Hvalid : valid_address (uint16 a)).
    { unfold valid_address.
      destruct (Z.eqb_spec a 76) as [E1 | N1]; [rewrite E1; now left | ].
      destruct (Z.eqb_spec a 78) as [E2 | N2]; [rewrite E2; now right | ].
      discriminate. }
    set (h0 := mkHandle _ _ _ _ _).
    set (w1 := if HAL_I2C_GET_FLAG_BUSY _ _ then _ else _).
    assert (Hw1 : trace w1 = trace w) by (subst w1; now destruct HAL_I2C_GET_FLAG_BUSY).
    destruct (Init_probe_effect 5 h0 w1)
      as (r & h' & w' & evs & E & Htr & Hc & He & Hs & _).
    rewrite E. exists Nothing, h', w', evs. split; [reflexivity | ].
    split; [now rewrite Htr, Hw1 | ].
    split.
    { unfold error_stored in *. cbn [lastError h0] in He. tauto. }
    split; [exact Hs | ]. split; [discriminate | ].
    split.
    + intros _. apply (handle_inv_same h0 h' Hc). split; [exact Hvalid | reflexivity].
    + intros Hno. now elim (Hno (Some p) address_arg).
  - (* Write *)
    destruct (Write_some h value w)
      as (st & h' & w' & E & Hc & He & e & Htr & Hs & _).
    rewrite E. now apply (Hquiet _ h' w' [e]).
  - (* WriteArray *)
    unfold DAC8571_WriteArray. destruct arr as [a | ]; [ | apply Hnone].
    destruct (uint8 length =? 0); [apply Hnone | ].
    destruct (14 <? uint8 length).
    + apply (Hquiet _ _ w []); auto with dac.
      * now rewrite app_nil_r.
      * repeat split.
      * unfold error_stored. cbn. tauto.
    + destruct (WriteArray_loop_effect (Z.to_nat (uint8 length)) 0 a h w)
        as (st & h' & w' & evs & E & Htr & Hc & He & Hs & _).
      rewrite E. now apply (Hquiet _ h' w' evs).
  - (* Read *)
    destruct (Read_some h w) as (v & h' & w' & E & Hc & He & e & Htr & Hs).
    rewrite E. now apply (Hquiet _ h' w' [e]).
  - (* IsConnected *)
    destruct (IsConnected_some h w)
      as (st & h' & w' & E & Hc & He & e & Htr & Hs).
    rewrite E. now apply (Hquiet _ h' w' [e]).
  - (* SetVoltage *)
    unfold DAC8571_SetVoltage.
    destruct (Fp.voltage_out_of_range voltage); [apply Hnone | ].
    destruct (Write_some h (Fp.voltage_code voltage) w)
      as (st & h' & w' & E & Hc & He & e & Htr & Hs & _).
    rewrite E. now apply (Hquiet _ h' w' [e]).
  - (* SetWriteMode *)
    unfold DAC8571_SetWriteMode.
    destruct (is_write_mode (uint8 mode)) eqn:Em; [ | apply Hnone].
    exists (Status HAL_OK), (set_writeMode h (uint8 mode)), w, [].
    rewrite app_nil_r. split; [reflexivity | ]. split; [reflexivity | ].
    split; [now left | ]. split; [exact I | ]. split; [discriminate | ].
    split; [ | reflexivity].
    intros [Ha _]. split; [exact Ha | exact Em].
  - (* GetWriteMode *)
    apply Hnone.
  - (* PowerMode *)
    unfold DAC8571_PowerMode.
    set (h1 := set_writeMode h DAC8571_CMD_WRITE_TMP_PWDN).
    assert (Hinv1 : handle_inv h -> handle_inv h1).
    { intros [Ha _]. split; [exact Ha | reflexivity]. }
    destruct (pdValue_of (uint8 pdMode)) as [pdValue | ].
    + destruct (Write_some h1 pdValue w)
        as (st & h' & w' & E & Hc & He & e & Htr & Hs & _).
      rewrite E. exists (Status st), h', w', [e].
      split; [reflexivity | ]. split; [exact Htr | ].
      split; [exact He | ]. split; [exact Hs | ]. split; [discriminate | ].
      split.
      * intros Hi. apply (handle_inv_same h1 h' Hc). auto.
      * intros _. destruct Hc as (_ & Ea & _). exact Ea.
    + exists (Status HAL_ERROR), h1, w, []. rewrite app_nil_r.
      split; [reflexivity | ]. split; [reflexivity | ].
      split; [now left | ]. split; [exact I | ]. split; [discriminate | ].
      split; [exact Hinv1 | reflexivity].
  - (* WakeUp *)
    unfold DAC8571_WakeUp.
    destruct (Write_some h value w)
      as (st & h' & w' & E & Hc & He & e & Htr & Hs & _).
    rewrite E. now apply (Hquiet _ h' w' [e]).
  - (* Reset *)
    unfold DAC8571_Reset.
    destruct (Write_some h 0 w)
      as (st & h' & w' & E & Hc & He & e & Htr & Hs & _).
    rewrite E. now apply (Hquiet _ h' w' [e]).
  - (* GetLastError *)
    cbn [DAC8571_GetLastError].
    apply (Hquiet _ _ w []); auto with dac.
    + now rewrite app_nil_r.
    + repeat split.
    + unfold error_stored. cbn. tauto.
  - (* GetAddress *)
    apply Hnone.
Qed.

Lemma poll_errors_ok (n : nat) (h : DAC8571_HandleTypeDef) (w : World Bus) :
  lastError h = DAC8571_OK ->
  poll_errors n (Some h, w) = repeat DAC8571_OK n.
Proof.
  revert h. induction n as [ | n IH]; intros h Hh; [reflexivity | ].
  cbn [poll_errors DAC8571_GetLastError fst snd repeat].
  rewrite Hh. f_equal. now apply IH.
Qed.

Lemma poll_errors_once (n : nat) (h : DAC8571_HandleTypeDef) (w : World Bus) :
  poll_errors (S n) (Some h, w) = lastError h :: repeat DAC8571_OK n.
Proof.
  cbn [poll_errors DAC8571_GetLastError fst snd]. f_equal.
  now apply poll_errors_ok.
Qed.

End OpProperties.

(** ** Error reporting, invariant, round trip *)

Section DriverTheorems.

Context {Bus : Type} `{I2C_HAL Bus}.


Lemma run_ops_error (ops : list Op) (h : DAC8571_HandleTypeDef) (w : World Bus) :
  lastError h <> DAC8571_ADDRESS_ERROR ->
  exists h' w',
    run_ops ops (Some h, w) = (Some h', w')
    /\ lastError h' <> DAC8571_ADDRESS_ERROR.
Proof.
  revert h w. induction ops as [ | op ops IH]; intros h w Hne.
  - exists h, w. split; [reflexivity | exact Hne].
  - cbn [run_ops].
    destruct (run_op_effect op h w)
      as (o & h1 & w1 & evs & E & _ & He & _).
    rewrite E. cbn [snd]. apply IH.
    destruct He as [E1 | [E1 | [E1 | E1]]]; rewrite E1;
      [exact Hne | discriminate | discriminate | discriminate].
Qed.



(** C10: [DAC8571_GetLastError] on a null handle returns ADDRESS_ERROR
    (0x82, not OK); no driver call stores ADDRESS_ERROR in lastError: a
    call leaves lastError as it was or stores OK, I2C_ERROR or
    BUFFER_ERROR, [DAC8571_Init] with an address outside the whitelist
    stores nothing at all, and on a handle whose lastError is not
    ADDRESS_ERROR no sequence of calls makes GetLastError return it. *)
Theorem ADDRESS_ERROR_only_for_null :
  (forall w : World Bus,
      DAC8571_GetLastError None w = (0x82, None, w))
  /\ DAC8571_ADDRESS_ERROR = 0x82
  /\ DAC8571_ADDRESS_ERROR <> DAC8571_OK
  /\ (forall op h (w : World Bus), exists o h' w',
         run_op op (Some h, w) = (o, (Some h', w'))
         /\ (lastError h' = lastError h
             \/ lastError h' = DAC8571_OK
             \/ lastError h' = DAC8571_I2C_ERROR
             \/ lastError h' = DAC8571_BUFFER_ERROR))
  /\ (forall h p a (w : World Bus),
         uint8 a <> 0x4C -> uint8 a <> 0x4E ->
         DAC8571_Init (Some h) p a w = (tt, Some h, w))
  /\ (forall ops h (w : World Bus),
         lastError h <> DAC8571_ADDRESS_ERROR ->
         exists h' w',
           run_ops ops (Some h, w) = (Some h', w')
           /\ lastError h' <> DAC8571_ADDRESS_ERROR
           /\ forall n,
               ~ In DAC8571_ADDRESS_ERROR (poll_errors n (Some h', w'))).
Proof.
  split; [reflexivity | ]. split; [reflexivity | ].
  split; [discriminate | ]. split; [ | split].
  - intros op h w.
    destruct (run_op_effect op h w) as (o & h' & w' & evs & E & _ & He & _).
    exists o, h', w'. split; [exact E | exact He].
  - intros h p a w. apply Init_rejects_address.
  - intros ops h w Hne.
    destruct (run_ops_error ops h w Hne) as (h' & w' & E & Hne').
    exists h', w'. split; [exact E | ]. split; [exact Hne' | ].
    intros [ | n]; [intros [] | ].
    rewrite poll_errors_once. intros [Hin | Hin]; [congruence | ].
    apply repeat_spec in Hin. discriminate.
Qed.

(** C9: on a transport that behaves as the device register, for every
    16-bit value x a [DAC8571_Write] of x that returns HAL_OK followed by
    [DAC8571_Read] returns x. *)
Theorem Write_Read_roundtrip (h : DAC8571_HandleTypeDef) (x : Z)
        (w : World Bus) (h' : option DAC8571_HandleTypeDef) (w' : World Bus) :
  faithful_loopback ->
  0 <= x < 65536 ->
  DAC8571_Write (Some h) x w = (HAL_OK, h', w') ->
  fst (fst (DAC8571_Read h' w')) = x.
Proof.
  intros Hloop Hx. rewrite (Write_unfold h x w Hx). unfold frame.
  destruct (HAL_I2C_Master_Transmit _ _ _ _ _) as [st b] eqn:Etx. cbv zeta.
  destruct st; cbn [status_is_ok]; try discriminate.
  intros E. injection E as <- <-.
  unfold DAC8571_Read, i2c_receive. cbn [bus hi2c address set_lastError set_lastValue].
  destruct (Hloop _ _ _ _ _ _ _ _ Etx (hi2c h)
                  (uint16 (Z.lor (Z.shiftl (address h) 1) 1)) 3 HAL_MAX_DELAY)
    as (rest & b'' & Erx).
  rewrite Erx. cbn [status_is_ok fst].
  unfold received_data. cbn [app firstn map nth].
  apply bytes_join. exact Hx.
Qed.

End DriverTheorems.

(** * The voltage computation

    The C expression is evaluated in [double]: the [float] argument is
    converted, divided by 2.5, multiplied by 65535 (two roundings to
    nearest) and truncated by the cast. *)

(** ** Binary digits and shifts *)

Lemma digits2_pos_bounds (p : positive) :
  2 ^ (Zpos (digits2_pos p) - 1) <= Zpos p < 2 ^ Zpos (digits2_pos p).
Proof.
  induction p as [p IH | p IH | ]; cbn [digits2_pos].
  - rewrite Pos2Z.inj_succ. change (Zpos p~1) with (2 * Zpos p + 1).
    replace (Z.succ (Zpos (digits2_pos p)) - 1)
      with (Z.succ (Zpos (digits2_pos p) - 1)) by lia.
    rewrite !Z.pow_succ_r by lia. lia.
  - rewrite Pos2Z.inj_succ. change (Zpos p~0) with (2 * Zpos p).
    replace (Z.succ (Zpos (digits2_pos p)) - 1)
      with (Z.succ (Zpos (digits2_pos p) - 1)) by lia.
    rewrite !Z.pow_succ_r by lia. lia.
  - cbn. lia.
Qed.

Lemma Zdigits2_bounds (m : Z) :
  0 < m -> 2 ^ (Zdigits2 m - 1) <= m < 2 ^ Zdigits2 m.
Proof.
  destruct m as [ | p | p]; try lia. intros _. apply digits2_pos_bounds.
Qed.

Lemma Zdigits2_unique (m d : Z) :
  0 < m -> 2 ^ (d - 1) <= m < 2 ^ d -> Zdigits2 m = d.
Proof.
  intros Hm [Hlo Hhi]. pose proof (Zdigits2_bounds m Hm) as [Hlo' Hhi'].
  assert (Hd : 0 < d).
  { destruct (Z.lt_ge_cases 0 d) as [ | Hle]; [assumption | ].
    destruct (Z.eq_dec d 0) as [-> | ]; [cbn in Hhi; lia | ].
    rewrite Z.pow_neg_r in Hhi by lia. lia. }
  assert (HD : 0 < Zdigits2 m) by (destruct m; cbn; lia).
  assert (H1 : Zdigits2 m - 1 < d).
  { apply (Z.pow_lt_mono_r_iff 2); lia. }
  assert (H2 : d - 1 < Zdigits2 m).
  { apply (Z.pow_lt_mono_r_iff 2); lia. }
  lia.
Qed.

Lemma shr_1_m (mrs : shr_record) :
  0 <= shr_m mrs -> shr_m (shr_1 mrs) = shr_m mrs / 2.
Proof.
  destruct mrs as [m r s]. cbn [shr_m]. intros Hm.
  destruct m as [ | [p | p | ] | p]; cbn [shr_1 shr_m]; try lia.
  - reflexivity.
  - change (Zpos p~1) with (2 * Zpos p + 1).
    apply (Z.div_unique _ _ _ 1); lia.
  - change (Zpos p~0) with (2 * Zpos p).
    apply (Z.div_unique _ _ _ 0); lia.
  - reflexivity.
Qed.

Lemma iter_shr_m (p : positive) (mrs : shr_record) :
  0 <= shr_m mrs ->
  shr_m (iter_pos shr_1 p mrs) = shr_m mrs / 2 ^ Zpos p.
Proof.
  revert mrs. induction p as [p IH | p IH | ]; intros mrs Hm; cbn [iter_pos].
  - assert (H1 : 0 <= shr_m (shr_1 mrs)).
    { rewrite shr_1_m by assumption. apply Z.div_pos; lia. }
    assert (H2 : 0 <= shr_m (iter_pos shr_1 p (shr_1 mrs))).
    { rewrite IH by assumption. apply Z.div_pos; [assumption | ].
      apply Z.pow_pos_nonneg; lia. }
    rewrite IH, IH, shr_1_m by assumption.
    assert (Hp : 0 < 2 ^ Zpos p) by (apply Z.pow_pos_nonneg; lia).
    rewrite !Z.div_div by lia. f_equal.
    replace (Zpos p~1) with (1 + Zpos p + Zpos p) by lia.
    rewrite !Z.pow_add_r by lia. change (2 ^ 1) with 2. lia.
  - assert (H2 : 0 <= shr_m (iter_pos shr_1 p mrs)).
    { rewrite IH by assumption. apply Z.div_pos; [assumption | ].
      apply Z.pow_pos_nonneg; lia. }
    rewrite IH, IH by assumption.
    assert (Hp : 0 < 2 ^ Zpos p) by (apply Z.pow_pos_nonneg; lia).
    rewrite !Z.div_div by lia. f_equal.
    replace (Zpos p~0) with (Zpos p + Zpos p) by lia.
    rewrite !Z.pow_add_r by lia. lia.
  - now apply shr_1_m.
Qed.

Lemma shr_fst (mrs : shr_record) (e n : Z) :
  0 <= n -> 0 <= shr_m mrs ->
  shr_m (fst (shr mrs e n)) = shr_m mrs / 2 ^ n.
Proof.
  intros Hn Hm. destruct n as [ | p | p]; cbn [shr fst]; try lia.
  - now rewrite Z.div_1_r.
  - now apply iter_shr_m.
Qed.

Lemma shr_snd (mrs : shr_record) (e n : Z) :
  0 <= n -> snd (shr mrs e n) = e + n.
Proof.
  intros Hn. destruct n as [ | p | p]; cbn [shr snd]; lia.
Qed.

Lemma shr_record_of_loc_m (m : Z) (l : location) :
  shr_m (shr_record_of_loc m l) = m.
Proof. now destruct l as [ | [ | | ]]. Qed.

(** The first step of rounding to binary64: a mantissa of at least 53
    digits is cut down to its 53 leading digits. *)
Lemma shr_fexp_cut (m e : Z) (l : location) :
  0 < m -> 53 <= Zdigits2 m -> -1074 <= Zdigits2 m + e - 53 ->
  shr_m (fst (shr_fexp 53 1024 m e l)) = m / 2 ^ (Zdigits2 m - 53)
  /\ snd (shr_fexp 53 1024 m e l) = e + (Zdigits2 m - 53).
Proof.
  intros Hm Hd He. unfold shr_fexp, fexp, emin.
  replace (Z.max (Zdigits2 m + e - 53) (3 - 1024 - 53) - e)
    with (Zdigits2 m - 53) by lia.
  split.
  - rewrite shr_fst; rewrite ?shr_record_of_loc_m; lia.
  - apply shr_snd. lia.
Qed.

Lemma round_nearest_even_bounds (q : Z) (l : location) :
  q <= round_nearest_even q l <= q + 1.
Proof.
  destruct l as [ | [ | | ]]; cbn [round_nearest_even]; try lia.
  destruct (Z.even q); lia.
Qed.

Lemma cut_bounds (m : Z) :
  0 < m -> 53 <= Zdigits2 m ->
  2 ^ 52 <= m / 2 ^ (Zdigits2 m - 53) < 2 ^ 53.
Proof.
  intros Hm Hd. pose proof (Zdigits2_bounds m Hm) as [Hlo Hhi].
  set (n := Zdigits2 m - 53) in *.
  assert (Hn : 0 < 2 ^ n) by (apply Z.pow_pos_nonneg; lia).
  replace (Zdigits2 m - 1) with (52 + n) in Hlo by lia.
  replace (Zdigits2 m) with (53 + n) in Hhi by lia.
  rewrite Z.pow_add_r in Hlo, Hhi by lia.
  split.
  - apply Z.div_le_lower_bound; lia.
  - apply Z.div_lt_upper_bound; lia.
Qed.

(** Rounding to binary64 a mantissa of at least 53 digits, away from the
    subnormal range and from overflow: the result is the cut mantissa or
    its successor, at the exponent of the cut. *)
Lemma binary_round_aux_cut (m e : Z) (l : location) :
  0 < m -> 53 <= Zdigits2 m ->
  -1074 <= Zdigits2 m + e - 53 -> Zdigits2 m + e - 53 < 971 ->
  let n := Zdigits2 m - 53 in
  let q := m / 2 ^ n in
  exists m' e',
    binary_round_aux 53 1024 false m e l = S754_finite false m' e'
    /\ 2 ^ 52 <= Zpos m' < 2 ^ 53
    /\ ((Zpos m' = q /\ e' = e + n)
        \/ (Zpos m' = q + 1 /\ e' = e + n)
        \/ (q + 1 = 2 ^ 53 /\ Zpos m' = 2 ^ 52 /\ e' = e + n + 1)).
Proof.
  intros Hm Hd Hlo Hhi n q. unfold binary_round_aux.
  destruct (shr_fexp_cut m e l Hm Hd Hlo) as [E1 E2].
  destruct (shr_fexp 53 1024 m e l) as [mrs' e1]. cbn [fst snd] in E1, E2.
  fold n in E1, E2. fold q in E1.
  pose proof (cut_bounds m Hm Hd) as Hq. fold n in Hq. fold q in Hq.
  pose proof (round_nearest_even_bounds (shr_m mrs') (loc_of_shr_record mrs'))
    as Hr.
  set (m1 := round_nearest_even (shr_m mrs') (loc_of_shr_record mrs')) in *.
  rewrite E1 in Hr.
  assert (Hm1 : 0 < m1) by lia.
  destruct (Z.eq_dec m1 (2 ^ 53)) as [Etop | Ntop].
  - assert (Hd1 : Zdigits2 m1 = 54).
    { apply Zdigits2_unique; [lia | ]. rewrite Etop. cbn. lia. }
    destruct (shr_fexp_cut m1 e1 loc_Exact Hm1) as [E3 E4]; try lia.
    destruct (shr_fexp 53 1024 m1 e1 loc_Exact) as [mrs'' e2].
    cbn [fst snd] in E3, E4. rewrite Hd1 in E3, E4.
    rewrite E3, Etop. change (2 ^ 53 / 2 ^ (54 - 53)) with (Zpos (2 ^ 52)).
    destruct (Z.leb_spec e2 (1024 - 53)); [ | lia].
    exists (2 ^ 52)%positive, e2. split; [reflexivity | ].
    split; [cbn; lia | ]. right. right. cbn. lia.
  - assert (Hd1 : Zdigits2 m1 = 53).
    { apply Zdigits2_unique; [lia | ]. change (53 - 1) with 52. lia. }
    destruct (shr_fexp_cut m1 e1 loc_Exact Hm1) as [E3 E4]; try lia.
    destruct (shr_fexp 53 1024 m1 e1 loc_Exact) as [mrs'' e2].
    cbn [fst snd] in E3, E4. rewrite Hd1 in E3, E4.
    rewrite E3. change (2 ^ (53 - 53)) with 1. rewrite Z.div_1_r.
    destruct m1 as [ | p1 | p1]; try lia.
    destruct (Z.leb_spec e2 (1024 - 53)); [ | lia].
    exists p1, e2. split; [reflexivity | ]. split; [lia | ].
    destruct (Z.eq_dec (Zpos p1) q); [left | right; left]; lia.
Qed.

(** ** Values as rationals *)

Local Open Scope Q_scope.

Lemma pow2_pos (e : Z) : 0 < (2 # 1) ^ e.
Proof. apply Qpower_0_lt. reflexivity. Qed.

Lemma pow2_add (a b : Z) : (2 # 1) ^ (a + b) == (2 # 1) ^ a * (2 # 1) ^ b.
Proof. apply Qpower_plus. discriminate. Qed.

Lemma pow2_inject (n : Z) : (0 <= n)%Z -> (2 # 1) ^ n == inject_Z (2 ^ n).
Proof. intros Hn. rewrite Zpower_Qpower by assumption. reflexivity. Qed.

Lemma F2Q_scale (m e n : Z) :
  (0 <= n)%Z -> Fp.F2Q (m * 2 ^ n) e == Fp.F2Q m (e + n).
Proof.
  intros Hn. unfold Fp.F2Q.
  rewrite inject_Z_mult, pow2_add, <- (pow2_inject n Hn). ring.
Qed.

Lemma F2Q_le (m1 m2 e : Z) : (m1 <= m2)%Z -> Fp.F2Q m1 e <= Fp.F2Q m2 e.
Proof.
  intros Hm. unfold Fp.F2Q. apply Qmult_le_compat_r.
  - now rewrite <- Zle_Qle.
  - apply Qlt_le_weak, pow2_pos.
Qed.

Lemma F2Q_succ (m e : Z) : Fp.F2Q (m + 1) e == Fp.F2Q m e + (2 # 1) ^ e.
Proof. unfold Fp.F2Q. rewrite inject_Z_plus. ring. Qed.

(** Rounding to binary64 moves a positive real by at most [Fp.eps] times
    itself (mantissa of at least 53 digits, no underflow, no overflow). *)
Lemma binary_round_aux_rel (m e : Z) (l : location) (x : Q) :
  (0 < m)%Z -> (53 <= Zdigits2 m)%Z ->
  (-1074 <= Zdigits2 m + e - 53)%Z -> (Zdigits2 m + e - 53 < 971)%Z ->
  Fp.F2Q m e <= x -> x <= Fp.F2Q (m + 1) e ->
  exists m' e',
    binary_round_aux 53 1024 false m e l = S754_finite false m' e'
    /\ (2 ^ 52 <= Zpos m' < 2 ^ 53)%Z
    /\ (e + Zdigits2 m - 53 <= e' <= e + Zdigits2 m - 52)%Z
    /\ x * (1 - Fp.eps) <= Fp.F2Q (Zpos m') e'
    /\ Fp.F2Q (Zpos m') e' <= x * (1 + Fp.eps).
Proof.
  intros Hm Hd Hlo Hhi Hx1 Hx2.
  destruct (binary_round_aux_cut m e l Hm Hd Hlo Hhi)
    as (m' & e' & E & Hm' & Hcases).
  exists m', e'. split; [exact E | ]. split; [exact Hm' | ].
  pose proof (cut_bounds m Hm Hd) as Hq.
  set (n := (Zdigits2 m - 53)%Z) in *. set (q := (m / 2 ^ n)%Z) in *.
  assert (Hn : (0 < 2 ^ n)%Z) by (apply Z.pow_pos_nonneg; lia).
  assert (Hqm : (q * 2 ^ n <= m)%Z).
  { unfold q. pose proof (Z.mul_div_le m (2 ^ n) Hn). lia. }
  assert (Hmq : (m + 1 <= (q + 1) * 2 ^ n)%Z).
  { unfold q. pose proof (Z.mod_pos_bound m (2 ^ n) Hn).
    pose proof (Z.div_mod m (2 ^ n)). lia. }
  pose proof (pow2_pos (e + n)) as Hu.
  set (u := (2 # 1) ^ (e + n)) in *.
  set (a := Fp.F2Q q (e + n)).
  assert (Ha1 : a <= x).
  { apply Qle_trans with (Fp.F2Q m e); [ | exact Hx1].
    unfold a. rewrite <- F2Q_scale by lia. now apply F2Q_le. }
  assert (Ha2 : x <= a + u).
  { apply Qle_trans with (Fp.F2Q (m + 1) e); [exact Hx2 | ].
    unfold a, u. rewrite <- F2Q_succ, <- F2Q_scale by lia. now apply F2Q_le. }
  assert (Ha3 : 4503599627370496 * u <= a).
  { unfold a, Fp.F2Q. fold u. apply Qmult_le_compat_r.
    - change 4503599627370496 with (inject_Z (2 ^ 52)).
      rewrite <- Zle_Qle. lia.
    - now apply Qlt_le_weak. }
  assert (Hr : Fp.F2Q (Zpos m') e' == a \/ Fp.F2Q (Zpos m') e' == a + u).
  { destruct Hcases as [[-> ->] | [[-> ->] | (Hq1 & -> & ->)]].
    - now left.
    - right. unfold a, u. now rewrite F2Q_succ.
    - right. unfold a, u. rewrite <- F2Q_succ, Hq1.
      change (2 ^ 53)%Z with (2 ^ 52 * 2 ^ 1)%Z.
      rewrite F2Q_scale by lia. reflexivity. }
  split; [destruct Hcases as [[_ ->] | [[_ ->] | (_ & _ & ->)]]; lia | ].
  unfold Fp.eps. destruct Hr as [-> | ->]; split; lra.
Qed.

Local Open Scope Z_scope.

Lemma Zdigits2_ge (m d : Z) : 0 < m -> 2 ^ (d - 1) <= m -> d <= Zdigits2 m.
Proof.
  intros Hm Hd. pose proof (Zdigits2_bounds m Hm) as [_ Hhi].
  assert (HD : 0 < Zdigits2 m) by (destruct m; cbn; lia).
  destruct (Z.le_gt_cases d (Zdigits2 m)) as [ | Hgt]; [assumption | ].
  assert (2 ^ Zdigits2 m <= 2 ^ (d - 1)) by (apply Z.pow_le_mono_r; lia).
  lia.
Qed.

Lemma Zdigits2_le (m d : Z) : 0 < m -> 0 <= d -> m < 2 ^ d -> Zdigits2 m <= d.
Proof.
  intros Hm H0 Hd. pose proof (Zdigits2_bounds m Hm) as [Hlo _].
  destruct (Z.le_gt_cases (Zdigits2 m) d) as [ | Hgt]; [assumption | ].
  assert (2 ^ d <= 2 ^ (Zdigits2 m - 1)) by (apply Z.pow_le_mono_r; lia).
  lia.
Qed.

Lemma iter_xO (m d : positive) :
  Zpos (Pos.iter xO m d) = Zpos m * 2 ^ Zpos d.
Proof.
  induction d as [ | d IH] using Pos.peano_ind.
  - cbn. lia.
  - rewrite Pos.iter_succ. change (Zpos (Pos.iter xO m d)~0)
      with (2 * Zpos (Pos.iter xO m d)).
    rewrite IH, Pos2Z.inj_succ, Z.pow_succ_r by lia. lia.
Qed.

(** Rounding an exact 53-digit mantissa changes nothing. *)
Lemma binary_round_aux_exact (m : positive) (e : Z) :
  Zdigits2 (Zpos m) = 53 -> -1074 <= e <= 971 ->
  binary_round_aux 53 1024 false (Zpos m) e loc_Exact = S754_finite false m e.
Proof.
  intros Hd He. unfold binary_round_aux.
  assert (Hs : shr_fexp 53 1024 (Zpos m) e loc_Exact
               = (Build_shr_record (Zpos m) false false, e)).
  { unfold shr_fexp, fexp, emin. rewrite Hd.
    replace (Z.max (53 + e - 53) (3 - 1024 - 53) - e) with 0 by lia.
    reflexivity. }
  rewrite Hs. cbn [shr_m loc_of_shr_record round_nearest_even]. rewrite Hs.
  cbn [shr_m]. destruct (Z.leb_spec e (1024 - 53)); [reflexivity | lia].
Qed.

(** A well-formed positive binary32 datum. *)
Lemma float_bounded (m : positive) (e : Z) :
  bounded 24 128 m e = true ->
  -149 <= e <= 104
  /\ Zdigits2 (Zpos m) <= 24
  /\ (Zdigits2 (Zpos m) = 24 \/ e = -149).
Proof.
  unfold bounded, canonical_mantissa, fexp, emin. intros Hb.
  apply andb_true_iff in Hb. destruct Hb as [Hc He].
  apply Z.eqb_eq in Hc. apply Z.leb_le in He. cbn [Zdigits2]. lia.
Qed.

(** The conversion of a positive [float] to [double] is exact and yields a
    53-digit mantissa. *)
Lemma double_of_float_exact (m : positive) (e : Z) :
  bounded 24 128 m e = true ->
  exists mz ez,
    Fp.double_of_float (S754_finite false m e) = S754_finite false mz ez
    /\ Zdigits2 (Zpos mz) = 53
    /\ Zpos mz = Zpos m * 2 ^ (53 - Zdigits2 (Zpos m))
    /\ ez = e - (53 - Zdigits2 (Zpos m)).
Proof.
  intros Hb. destruct (float_bounded m e Hb) as (He & Hd & _).
  pose proof (Zdigits2_bounds (Zpos m) eq_refl) as [Hlo Hhi].
  assert (HD : 0 < Zdigits2 (Zpos m)) by (cbn; lia).
  cbn [Fp.double_of_float]. unfold binary_round, shl_align, fexp, emin,
    Fp.prec64, Fp.emax64.
  change (Zpos (digits2_pos m)) with (Zdigits2 (Zpos m)).
  set (D := Zdigits2 (Zpos m)) in *.
  replace (Z.max (D + e - 53) (3 - 1024 - 53)) with (D + e - 53) by lia.
  destruct (D + e - 53 - e) as [ | p | p] eqn:Ep; try lia.
  assert (Hp : Zpos p = 53 - D) by lia.
  assert (Hmz : Zpos (Pos.iter xO m p) = Zpos m * 2 ^ (53 - D)).
  { rewrite iter_xO. now rewrite Hp. }
  assert (Hdz : Zdigits2 (Zpos (Pos.iter xO m p)) = 53).
  { apply Zdigits2_unique; [reflexivity | ]. rewrite Hmz.
    assert (Hpw : 0 < 2 ^ (53 - D)) by (apply Z.pow_pos_nonneg; lia).
    assert (E1 : 2 ^ (53 - 1) = 2 ^ (D - 1) * 2 ^ (53 - D)).
    { rewrite <- Z.pow_add_r by lia. f_equal. lia. }
    assert (E2 : 2 ^ 53 = 2 ^ D * 2 ^ (53 - D)).
    { rewrite <- Z.pow_add_r by lia. f_equal. lia. }
    rewrite E1, E2.
    split; [apply Z.mul_le_mono_nonneg_r | apply Z.mul_lt_mono_pos_r]; lia. }
  exists (Pos.iter xO m p), (D + e - 53).
  split; [apply binary_round_aux_exact; [exact Hdz | lia] | ].
  split; [exact Hdz | ]. split; [exact Hmz | lia].
Qed.

Lemma REF_VOLTAGE_eq :
  Fp.DAC8571_REF_VOLTAGE = S754_finite false 5629499534213120 (-51).
Proof. reflexivity. Qed.

Lemma double_65535_eq :
  Fp.double_of_int 65535 = S754_finite false 9007061815787520 (-37).
Proof. reflexivity. Qed.

Lemma REF_VOLTAGE_value :
  (Fp.SF2Q Fp.DAC8571_REF_VOLTAGE == Fp.REF_VOLTAGE_Q)%Q.
Proof. reflexivity. Qed.

Lemma double_65535_value : (Fp.SF2Q (Fp.double_of_int 65535) == 65535)%Q.
Proof. reflexivity. Qed.

(** The voltages of the self-test: -2.0f and 3.3f are rejected, 0.0f,
    1.25f and 2.0f give the codes 0, 32767 (32767.5 truncated) and 52428. *)
Example selftest_voltages :
  map Fp.voltage_out_of_range
      [S754_finite true 8388608 (-22); S754_zero false; volt_1_25;
       S754_finite false 8388608 (-22); S754_finite false 13841203 (-22)]
  = [true; false; false; false; true]
  /\ map Fp.voltage_code
         [S754_zero false; volt_1_25; S754_finite false 8388608 (-22)]
     = [0; 32767; 52428].
Proof. split; reflexivity. Qed.

(** The quotient mantissa the division by 2.5 hands to the rounding. *)
Lemma div_core_REF (mz : positive) (ez : Z) :
  Zdigits2 (Zpos mz) = 53 -> -1072 <= ez ->
  exists q l,
    SFdiv_core_binary 53 1024 (Zpos mz) ez 5629499534213120 (-51)
    = (q, ez - 2, l)
    /\ 5 * q <= 8 * Zpos mz < 5 * (q + 1).
Proof.
  intros Hd He. unfold SFdiv_core_binary, fexp, emin. rewrite Hd.
  change (Zdigits2 5629499534213120) with 53.
  replace (Z.min (Z.max (53 + ez - (53 + -51) - 53) (3 - 1024 - 53)) (ez - -51))
    with (ez - 2) by lia.
  replace (ez - -51 - (ez - 2)) with 53 by lia.
  rewrite Z.shiftl_mul_pow2 by lia.
  pose proof (Z.div_eucl_eq (Zpos mz * 2 ^ 53) 5629499534213120) as Hq.
  pose proof (Z.mod_pos_bound (Zpos mz * 2 ^ 53) 5629499534213120) as Hr.
  unfold Z.modulo in Hr.
  destruct (Z.div_eucl (Zpos mz * 2 ^ 53) 5629499534213120) as [q r].
  exists q, (new_location 5629499534213120 r). split; [reflexivity | ].
  change (2 ^ 53) with 9007199254740992 in Hq. lia.
Qed.

Lemma F2Q_pos (m : positive) (e : Z) : (0 < Fp.F2Q (Zpos m) e)%Q.
Proof.
  unfold Fp.F2Q. apply Qmult_lt_0_compat; [reflexivity | apply pow2_pos].
Qed.

(** A binary32 datum that is at most 2.5 has an exponent of at most -22. *)
Lemma float_small_exp (m : positive) (e : Z) :
  bounded 24 128 m e = true ->
  (Fp.F2Q (Zpos m) e <= 5 # 2)%Q ->
  e <= -22.
Proof.
  intros Hb Hv. destruct (float_bounded m e Hb) as (He & Hd & [HD | ->]);
    [ | lia].
  pose proof (Zdigits2_bounds (Zpos m) eq_refl) as [Hlo _].
  rewrite HD in Hlo.
  assert (H1 : (Fp.F2Q (1 * 2 ^ 23) e <= 5 # 2)%Q).
  { apply Qle_trans with (Fp.F2Q (Zpos m) e); [ | exact Hv].
    apply F2Q_le. exact Hlo. }
  rewrite F2Q_scale in H1 by lia. unfold Fp.F2Q in H1.
  assert (H2 : ((2 # 1) ^ (e + 23) < (2 # 1) ^ 2)%Q).
  { change ((2 # 1) ^ 2)%Q with (4 # 1)%Q. change (inject_Z 1) with 1%Q in H1.
    lra. }
  apply Qpower_lt_compat_l_inv in H2; [lia | reflexivity].
Qed.

(** The two roundings of [voltage_code] on a positive [float] of at most
    2.5: the product is a finite positive [double] within three units of
    relative error of the exact value. *)
Lemma voltage_product (m : positive) (e : Z) :
  bounded 24 128 m e = true ->
  (Fp.F2Q (Zpos m) e <= 5 # 2)%Q ->
  exists mp ep,
    SFmul Fp.prec64 Fp.emax64
          (SFdiv Fp.prec64 Fp.emax64
                 (Fp.double_of_float (S754_finite false m e))
                 Fp.DAC8571_REF_VOLTAGE)
          (Fp.double_of_int 65535)
    = S754_finite false mp ep
    /\ (Fp.F2Q (Zpos m) e / (5 # 2) * 65535 * (1 - 3 * Fp.eps)
        <= Fp.F2Q (Zpos mp) ep)%Q
    /\ (Fp.F2Q (Zpos mp) ep
        <= Fp.F2Q (Zpos m) e / (5 # 2) * 65535 * (1 + 3 * Fp.eps))%Q.
Proof.
  intros Hb Hv.
  destruct (float_bounded m e Hb) as (He & Hd & _).
  assert (HD : 0 < Zdigits2 (Zpos m)) by (cbn; lia).
  destruct (double_of_float_exact m e Hb) as (mz & ez & Ez & Hdz & Hmz & Hez).
  rewrite Ez, REF_VOLTAGE_eq, double_65535_eq.
  unfold Fp.prec64, Fp.emax64. cbn [SFdiv xorb].
  pose proof (Zdigits2_bounds (Zpos mz) eq_refl) as Hbz. rewrite Hdz in Hbz.
  change (2 ^ (53 - 1)) with 4503599627370496 in Hbz.
  change (2 ^ 53) with 9007199254740992 in Hbz.
  destruct (div_core_REF mz ez Hdz) as (q & l & Ecore & Hq); [lia | ].
  rewrite Ecore.
  assert (Hq0 : 0 < q) by lia.
  assert (Hq1 : 53 <= Zdigits2 q).
  { apply Zdigits2_ge; [exact Hq0 | ].
    change (2 ^ (53 - 1)) with 4503599627370496. lia. }
  assert (Hq2 : Zdigits2 q <= 54).
  { apply Zdigits2_le; [exact Hq0 | lia | ].
    change (2 ^ 54) with 18014398509481984. lia. }
  (* the exact quotient *)
  set (xd := (Fp.F2Q (Zpos mz) ez / (5 # 2))%Q).
  assert (Hxd : (xd == Fp.F2Q (Zpos m) e / (5 # 2))%Q).
  { unfold xd. rewrite Hmz, Hez, F2Q_scale by lia.
    replace (e - (53 - Zdigits2 (Zpos m)) + (53 - Zdigits2 (Zpos m))) with e
      by lia. reflexivity. }
  pose proof (pow2_pos ez) as HU.
  assert (Epow : ((2 # 1) ^ (ez - 2) == (2 # 1) ^ ez * (1 # 4))%Q).
  { replace (ez - 2) with (ez + -2) by lia. rewrite pow2_add. reflexivity. }
  assert (Hlo : (Fp.F2Q q (ez - 2) <= xd)%Q).
  { unfold xd, Fp.F2Q. rewrite Epow.
    assert (H5 : (5 * inject_Z q <= 8 * inject_Z (Zpos mz))%Q).
    { change 5%Q with (inject_Z 5). change 8%Q with (inject_Z 8).
      rewrite <- !inject_Z_mult, <- Zle_Qle. lia. }
    set (U := ((2 # 1) ^ ez)%Q) in *. unfold Qdiv.
    change (/ (5 # 2))%Q with (2 # 5)%Q. nra. }
  assert (Hhi : (xd <= Fp.F2Q (q + 1) (ez - 2))%Q).
  { unfold xd, Fp.F2Q. rewrite Epow.
    assert (H5 : (8 * inject_Z (Zpos mz) <= 5 * inject_Z (q + 1))%Q).
    { change 5%Q with (inject_Z 5). change 8%Q with (inject_Z 8).
      rewrite <- !inject_Z_mult, <- Zle_Qle. lia. }
    set (U := ((2 # 1) ^ ez)%Q) in *. unfold Qdiv.
    change (/ (5 # 2))%Q with (2 # 5)%Q. nra. }
  destruct (binary_round_aux_rel q (ez - 2) l xd Hq0 Hq1)
    as (md & ed & Ed & Hmd & Hed & Hd1 & Hd2); try lia; try assumption.
  rewrite Ed. cbn [SFmul xorb].
  (* the product *)
  change (2 ^ 52) with 4503599627370496 in Hmd.
  change (2 ^ 53) with 9007199254740992 in Hmd.
  set (m2 := Zpos (md * 9007061815787520)).
  assert (Em2 : m2 = Zpos md * 9007061815787520) by reflexivity.
  assert (Hm2 : 0 < m2) by reflexivity.
  assert (Hm2lo : 105 <= Zdigits2 m2).
  { apply Zdigits2_ge; [exact Hm2 | ].
    change (2 ^ (105 - 1)) with 20282409603651670423947251286016. lia. }
  assert (Hm2hi : Zdigits2 m2 <= 106).
  { apply Zdigits2_le; [exact Hm2 | lia | ].
    change (2 ^ 106) with 81129638414606681695789005144064. lia. }
  set (y := Fp.F2Q m2 (ed + -37)).
  assert (Hy : (y == Fp.F2Q (Zpos md) ed * 65535)%Q).
  { unfold y. rewrite Em2.
    change 9007061815787520 with (65535 * 2 ^ 37).
    rewrite Z.mul_assoc, F2Q_scale by lia.
    replace (ed + -37 + 37) with ed by lia.
    unfold Fp.F2Q. rewrite inject_Z_mult. change (inject_Z 65535) with 65535%Q.
    ring. }
  destruct (binary_round_aux_rel m2 (ed + -37) loc_Exact y Hm2)
    as (mp & ep & Ep & Hmp & Hep & Hp1 & Hp2); try lia.
  { apply Qle_refl. }
  { apply F2Q_le. lia. }
  exists mp, ep. split; [exact Ep | ].
  pose proof (F2Q_pos m e) as Hvpos.
  assert (Hxd0 : (0 < xd)%Q).
  { rewrite Hxd. unfold Qdiv. change (/ (5 # 2))%Q with (2 # 5)%Q. lra. }
  assert (EX : (Fp.F2Q (Zpos m) e / (5 # 2) * 65535 == xd * 65535)%Q)
    by (now rewrite Hxd).
  rewrite EX. unfold Fp.eps in *. split; lra.
Qed.

(** Truncation is the integer part. *)
Lemma trunc_unique (mp : positive) (ep K : Z) :
  (inject_Z K <= Fp.F2Q (Zpos mp) ep)%Q ->
  (Fp.F2Q (Zpos mp) ep < inject_Z K + 1)%Q ->
  Fp.trunc (S754_finite false mp ep) = K.
Proof.
  intros H1 H2. change 1%Q with (inject_Z 1) in H2.
  rewrite <- inject_Z_plus in H2.
  assert (Hcase : 0 <= ep \/ ep < 0) by lia.
  destruct Hcase as [Hpos | Hneg].
  - assert (E : Fp.trunc (S754_finite false mp ep) = Zpos mp * 2 ^ ep).
    { cbn [Fp.trunc]. destruct ep as [ | p | p]; try lia;
        now rewrite Z.shiftl_mul_pow2. }
    rewrite E.
    assert (EQ : (Fp.F2Q (Zpos mp) ep == inject_Z (Zpos mp * 2 ^ ep))%Q).
    { rewrite <- (Z.add_0_l ep) at 1. rewrite <- F2Q_scale by lia.
      unfold Fp.F2Q. change ((2 # 1) ^ 0)%Q with 1%Q. ring. }
    rewrite EQ in H1, H2. rewrite <- Zle_Qle in H1. rewrite <- Zlt_Qlt in H2.
    lia.
  - destruct ep as [ | p | p]; try lia. cbn [Fp.trunc].
    rewrite Z.shiftr_div_pow2 by lia.
    assert (Hp : 0 < 2 ^ Zpos p) by (apply Z.pow_pos_nonneg; lia).
    assert (EQ : (Fp.F2Q (Zpos mp) (Zneg p) * inject_Z (2 ^ Zpos p)
                  == inject_Z (Zpos mp))%Q).
    { unfold Fp.F2Q. rewrite <- pow2_inject by lia.
      rewrite <- Qmult_assoc, <- pow2_add.
      change (Zneg p + Zpos p) with (- Zpos p + Zpos p).
      rewrite Z.add_opp_diag_l. change ((2 # 1) ^ 0)%Q with 1%Q. ring. }
    assert (HT : (0 < inject_Z (2 ^ Zpos p))%Q).
    { change 0%Q with (inject_Z 0). now rewrite <- Zlt_Qlt. }
    assert (H1' : K * 2 ^ Zpos p <= Zpos mp).
    { rewrite Zle_Qle, inject_Z_mult, <- EQ.
      apply Qmult_le_compat_r; [exact H1 | now apply Qlt_le_weak]. }
    assert (H2' : Zpos mp < (K + 1) * 2 ^ Zpos p).
    { rewrite Zlt_Qlt, inject_Z_mult, <- EQ.
      apply Qmult_lt_compat_r; [exact HT | exact H2]. }
    symmetry. apply Z.div_unique with (Zpos mp - K * 2 ^ Zpos p); lia.
Qed.

Lemma coprime_pow2_13107 (t : Z) : 0 <= t -> Z.gcd (2 ^ t) 13107 = 1.
Proof. intros Ht. apply Z.coprime_pow_l; [exact Ht | reflexivity]. Qed.

(** The positive binary32 data of at most 2.5 whose exact code is an
    integer: 0.5, 1, 1.5, 2 and 2.5. *)
Lemma exact_code_floats (m : positive) (e : Z) :
  bounded 24 128 m e = true ->
  (Fp.F2Q (Zpos m) e <= 5 # 2)%Q ->
  e <= -22 ->
  (13107 * Zpos m) mod 2 ^ (- (e + 1)) = 0 ->
  (m = 8388608%positive /\ e = -24)
  \/ (m = 8388608%positive /\ e = -23)
  \/ (m = 12582912%positive /\ e = -23)
  \/ (m = 8388608%positive /\ e = -22)
  \/ (m = 10485760%positive /\ e = -22).
Proof.
  intros Hb Hv He Hmod.
  destruct (float_bounded m e Hb) as (He' & Hd & Hcanon).
  set (t := - (e + 1)) in *.
  assert (Ht : 21 <= t) by (unfold t; lia).
  assert (HT : 0 < 2 ^ t) by (apply Z.pow_pos_nonneg; lia).
  apply Z.mod_divide in Hmod; [ | lia].
  apply Z.gauss in Hmod; [ | apply coprime_pow2_13107; lia].
  pose proof (Zdigits2_bounds (Zpos m) eq_refl) as [Hlo Hhi].
  assert (Hm24 : Zpos m < 2 ^ 24).
  { apply Z.lt_le_trans with (2 ^ Zdigits2 (Zpos m)); [exact Hhi | ].
    apply Z.pow_le_mono_r; lia. }
  assert (Ht' : t < 24).
  { apply (Z.pow_lt_mono_r_iff 2); [lia | lia | ].
    apply Z.le_lt_trans with (Zpos m); [ | exact Hm24].
    apply Z.divide_pos_le; [reflexivity | exact Hmod]. }
  assert (HD : Zdigits2 (Zpos m) = 24) by (unfold t in *; lia).
  rewrite HD in Hlo. change (2 ^ (24 - 1)) with 8388608 in Hlo.
  change (2 ^ 24) with 16777216 in Hm24.
  destruct Hmod as [z Hz].
  assert (Hcases : t = 21 \/ t = 22 \/ t = 23) by lia.
  destruct Hcases as [Et | [Et | Et]]; rewrite Et in Hz.
  - change (2 ^ 21) with 2097152 in Hz.
    assert (Ee : e = -22) by (unfold t in Et; lia).
    assert (Hle : Zpos m <= 10485760).
    { rewrite Ee in Hv. unfold Fp.F2Q in Hv.
      change ((2 # 1) ^ (-22))%Q with (1 # 4194304)%Q in Hv.
      rewrite Zle_Qle. change (inject_Z 10485760) with 10485760%Q. lra. }
    assert (Hz' : z = 4 \/ z = 5) by lia.
    destruct Hz' as [-> | ->]; [right; right; right; left | do 4 right];
      split; lia.
  - change (2 ^ 22) with 4194304 in Hz.
    assert (Ee : e = -23) by (unfold t in Et; lia).
    assert (Hz' : z = 2 \/ z = 3) by lia.
    destruct Hz' as [-> | ->]; [right; left | right; right; left];
      split; lia.
  - change (2 ^ 23) with 8388608 in Hz.
    assert (Ee : e = -24) by (unfold t in Et; lia).
    assert (Hz' : z = 1) by lia. subst z. left. split; lia.
Qed.

(** On a positive [float] of at most 2.5 the computed code is the integer
    part of the exact quotient. *)
Lemma voltage_code_floor_pos (m : positive) (e : Z) :
  bounded 24 128 m e = true ->
  (Fp.F2Q (Zpos m) e <= 5 # 2)%Q ->
  Fp.voltage_code (S754_finite false m e)
  = Qfloor (Fp.F2Q (Zpos m) e / (5 # 2) * 65535).
Proof.
  intros Hb Hv.
  pose proof (float_small_exp m e Hb Hv) as He.
  destruct (Z.eq_dec ((13107 * Zpos m) mod 2 ^ (- (e + 1))) 0) as [Hint | Hfrac].
  - destruct (exact_code_floats m e Hb Hv He Hint)
      as [[-> ->] | [[-> ->] | [[-> ->] | [[-> ->] | [-> ->]]]]];
      vm_compute; reflexivity.
  - destruct (float_bounded m e Hb) as (He' & Hd & _).
    set (t := - (e + 1)) in *.
    assert (HT : 0 < 2 ^ t) by (apply Z.pow_pos_nonneg; lia).
    set (X := (Fp.F2Q (Zpos m) e / (5 # 2) * 65535)%Q).
    set (N := 13107 * Zpos m) in *.
    assert (HTq : (0 < inject_Z (2 ^ t))%Q).
    { change 0%Q with (inject_Z 0). now rewrite <- Zlt_Qlt. }
    assert (EXN : (X * inject_Z (2 ^ t) == inject_Z N)%Q).
    { unfold X, N, Fp.F2Q. rewrite <- pow2_inject by lia.
      rewrite inject_Z_mult. change (inject_Z 13107) with 13107%Q.
      assert (Epow : ((2 # 1) ^ e * (2 # 1) ^ t == 1 # 2)%Q).
      { rewrite <- pow2_add. replace (e + t) with (-1) by (unfold t; lia).
        reflexivity. }
      unfold Qdiv. change (/ (5 # 2))%Q with (2 # 5)%Q.
      transitivity (inject_Z (Zpos m) * ((2 # 1) ^ e * (2 # 1) ^ t)
                    * (2 # 5) * 65535)%Q; [ring | ].
      rewrite Epow. ring. }
    pose proof (Qfloor_le X) as HK1. pose proof (Qlt_floor X) as HK2.
    set (K := Qfloor X) in *.
    assert (HK1' : K * 2 ^ t <= N).
    { rewrite Zle_Qle, inject_Z_mult, <- EXN.
      apply Qmult_le_compat_r; [exact HK1 | now apply Qlt_le_weak]. }
    assert (HK2' : N < (K + 1) * 2 ^ t).
    { rewrite Zlt_Qlt, inject_Z_mult, <- EXN.
      apply Qmult_lt_compat_r; [exact HTq | exact HK2]. }
    assert (Hne : N <> K * 2 ^ t).
    { intros EN. apply Hfrac. rewrite EN. apply Z.mod_mul. lia. }
    pose proof (Zdigits2_bounds (Zpos m) eq_refl) as [_ Hhi].
    assert (Hm24 : Zpos m < 2 ^ 24).
    { apply Z.lt_le_trans with (2 ^ Zdigits2 (Zpos m)); [exact Hhi | ].
      apply Z.pow_le_mono_r; lia. }
    change (2 ^ 24) with 16777216 in Hm24.
    assert (HN : (0 < inject_Z N < 219902325555)%Q).
    { split.
      - change 0%Q with (inject_Z 0). rewrite <- Zlt_Qlt. unfold N. lia.
      - change 219902325555%Q with (inject_Z 219902325555).
        rewrite <- Zlt_Qlt. unfold N. lia. }
    assert (HKN1 : (inject_Z K * inject_Z (2 ^ t) + 1 <= inject_Z N)%Q).
    { rewrite <- inject_Z_mult. change 1%Q with (inject_Z 1).
      rewrite <- inject_Z_plus, <- Zle_Qle. lia. }
    assert (HKN2 : (inject_Z N + 1 <= (inject_Z K + 1) * inject_Z (2 ^ t))%Q).
    { change 1%Q with (inject_Z 1).
      rewrite <- !inject_Z_plus, <- inject_Z_mult, <- Zle_Qle. lia. }
    destruct (voltage_product m e Hb Hv) as (mp & ep & Ep & Hp1 & Hp2).
    fold X in Hp1, Hp2.
    unfold Fp.voltage_code, Fp.uint16_of_double. rewrite Ep.
    set (P := Fp.F2Q (Zpos mp) ep) in *.
    assert (HP1 : (X * (1 - 3 * Fp.eps) * inject_Z (2 ^ t)
                   <= P * inject_Z (2 ^ t))%Q).
    { apply Qmult_le_compat_r; [exact Hp1 | now apply Qlt_le_weak]. }
    assert (HP2 : (P * inject_Z (2 ^ t)
                   <= X * (1 + 3 * Fp.eps) * inject_Z (2 ^ t))%Q).
    { apply Qmult_le_compat_r; [exact Hp2 | now apply Qlt_le_weak]. }
    set (Tq := inject_Z (2 ^ t)) in *. set (Nq := inject_Z N) in *.
    assert (EX1 : (X * (1 - 3 * Fp.eps) * Tq == Nq * (1 - 3 * Fp.eps))%Q).
    { rewrite <- EXN. ring. }
    assert (EX2 : (X * (1 + 3 * Fp.eps) * Tq == Nq * (1 + 3 * Fp.eps))%Q).
    { rewrite <- EXN. ring. }
    rewrite EX1 in HP1. rewrite EX2 in HP2. unfold Fp.eps in HP1, HP2.
    assert (HPK1 : (inject_Z K * Tq < P * Tq)%Q) by lra.
    assert (HPK2 : (P * Tq < (inject_Z K + 1) * Tq)%Q) by lra.
    apply Qmult_lt_r in HPK1; [ | exact HTq].
    apply Qmult_lt_r in HPK2; [ | exact HTq].
    rewrite (trunc_unique mp ep K); [ | now apply Qlt_le_weak | exact HPK2].
    apply uint16_small.
    assert (HK0 : 0 <= K * 2 ^ t + 2 ^ t) by lia.
    assert (HX : (X <= 65535)%Q).
    { unfold X, Qdiv. change (/ (5 # 2))%Q with (2 # 5)%Q. lra. }
    assert (HKX : K <= 65535).
    { rewrite Zle_Qle. change (inject_Z 65535) with 65535%Q. lra. }
    split; [nia | lia].
Qed.

(** A [float] in [0, 2.5] passes the range check of [DAC8571_SetVoltage]. *)
Lemma voltage_in_range (v : spec_float) :
  Fp.is_float v = true -> Fp.is_finite v = true ->
  (0 <= Fp.SF2Q v)%Q -> (Fp.SF2Q v <= Fp.REF_VOLTAGE_Q)%Q ->
  Fp.voltage_out_of_range v = false.
Proof.
  intros Hf Hfin H0 H1. destruct v as [s | s | | s m e]; try discriminate.
  - now destruct s.
  - cbn [Fp.SF2Q] in H0, H1. pose proof (F2Q_pos m e) as Hpos.
    destruct s; [lra | ].
    unfold Fp.is_float, valid_binary, Fp.prec32, Fp.emax32 in Hf.
    unfold Fp.REF_VOLTAGE_Q in H1.
    unfold Fp.voltage_out_of_range. apply orb_false_iff. split; [reflexivity | ].
    destruct (double_of_float_exact m e Hf) as (mz & ez & Ez & Hdz & Hmz & Hez).
    destruct (float_bounded m e Hf) as (He & Hd & _).
    assert (HD : 0 < Zdigits2 (Zpos m)) by (cbn; lia).
    rewrite Ez, REF_VOLTAGE_eq.
    assert (EQ : (Fp.F2Q (Zpos mz) ez == Fp.F2Q (Zpos m) e)%Q).
    { rewrite Hmz, Hez, F2Q_scale by lia.
      replace (e - (53 - Zdigits2 (Zpos m)) + (53 - Zdigits2 (Zpos m))) with e
        by lia. reflexivity. }
    pose proof (Zdigits2_bounds (Zpos mz) eq_refl) as [Hlo _].
    rewrite Hdz in Hlo. change (53 - 1) with 52 in Hlo.
    assert (Hez' : ez <= -51).
    { assert (H2 : (Fp.F2Q (1 * 2 ^ 52) ez <= 5 # 2)%Q).
      { apply Qle_trans with (Fp.F2Q (Zpos mz) ez); [ | rewrite EQ; exact H1].
        apply F2Q_le. lia. }
      rewrite F2Q_scale in H2 by lia. unfold Fp.F2Q in H2.
      change (inject_Z 1) with 1%Q in H2.
      assert (H3 : ((2 # 1) ^ (ez + 52) < (2 # 1) ^ 2)%Q).
      { change ((2 # 1) ^ 2)%Q with (4 # 1)%Q. lra. }
      apply Qpower_lt_compat_l_inv in H3; [lia | reflexivity]. }
    unfold SFltb, SFcompare.
    destruct (Z.compare_spec (-51) ez) as [Eez | Hlt | Hgt];
      [ | lia | reflexivity].
    change (Pos.compare_cont Eq 5629499534213120 mz)
      with (5629499534213120 ?= mz)%positive.
    assert (Hmle : Zpos mz <= 5629499534213120).
    { rewrite <- Eez in EQ. unfold Fp.F2Q in EQ.
      change ((2 # 1) ^ (-51))%Q with (1 # 2251799813685248)%Q in EQ.
      fold (Fp.F2Q (Zpos m) e) in EQ.
      rewrite Zle_Qle.
      change (inject_Z 5629499534213120) with 5629499534213120%Q. lra. }
    destruct (Pos.compare_spec 5629499534213120 mz); try reflexivity. lia.
Qed.

(** C2: for every [float] voltage v with 0 <= v <= 2.5 [DAC8571_SetVoltage]
    writes the integer part of (v / 2.5) * 65535, a value between 0 and
    65535; this is 0 for v = 0 and 65535 for v = 2.5. *)
Theorem SetVoltage_code {Bus : Type} `{I2C_HAL Bus}
        (h : DAC8571_HandleTypeDef) (voltage : spec_float) (w : World Bus) :
  Fp.is_float voltage = true -> Fp.is_finite voltage = true ->
  (0 <= Fp.SF2Q voltage)%Q -> (Fp.SF2Q voltage <= Fp.REF_VOLTAGE_Q)%Q ->
  let code := Qfloor (Fp.SF2Q voltage / Fp.REF_VOLTAGE_Q * 65535) in
  DAC8571_SetVoltage (Some h) voltage w = DAC8571_Write (Some h) code w
  /\ 0 <= code <= 65535
  /\ ((Fp.SF2Q voltage == 0)%Q -> code = 0)
  /\ ((Fp.SF2Q voltage == Fp.REF_VOLTAGE_Q)%Q -> code = 65535).
Proof.
  intros Hf Hfin H0 H1 code.
  assert (Hcode : Fp.voltage_code voltage = code).
  { destruct voltage as [s | s | | s m e]; try discriminate.
    - now destruct s.
    - cbn [Fp.SF2Q] in H0, H1. pose proof (F2Q_pos m e) as Hpos.
      destruct s; [lra | ]. now apply voltage_code_floor_pos. }
  split.
  - unfold DAC8571_SetVoltage.
    rewrite (voltage_in_range voltage Hf Hfin H0 H1). now rewrite Hcode.
  - unfold Fp.REF_VOLTAGE_Q in *.
    assert (Hx0 : (0 <= Fp.SF2Q voltage / (5 # 2) * 65535)%Q).
    { unfold Qdiv. change (/ (5 # 2))%Q with (2 # 5)%Q. lra. }
    assert (Hx1 : (Fp.SF2Q voltage / (5 # 2) * 65535 <= 65535)%Q).
    { unfold Qdiv. change (/ (5 # 2))%Q with (2 # 5)%Q. lra. }
    split; [ | split].
    + split.
      * apply (Qfloor_resp_le 0) in Hx0. exact Hx0.
      * apply Qfloor_resp_le in Hx1. exact Hx1.
    + intros E. unfold code. now rewrite E.
    + intros E. unfold code. now rewrite E.
Qed.

(** * Concrete runs on the loopback transport *)

Lemma loop_faithful : @faithful_loopback LoopBus LoopHAL.
Proof.
  intros b p dev c hi lo t b' Etx p' dev' size t'.
  cbn in Etx. unfold loop_transmit in Etx.
  destruct (nack b); [ | discriminate].
  injection Etx as <-. exists [0], (mkLoop 0 hi lo). reflexivity.
Qed.

Lemma SetWriteMode_spec_witness :
  0 <= 0x20 < 256
  /\ DAC8571_SetWriteMode (Some ready_handle) 0x20 quiet_world
     = (HAL_OK,
        Some (mkHandle (Some (I2C_Peripheral 1)) 0x4C 0 0x20 DAC8571_OK),
        quiet_world).
Proof.
  assert (Hm : 0 <= 0x20 < 256) by lia.
  split; [exact Hm | ].
  apply (proj1 (SetWriteMode_spec ready_handle 0x20 quiet_world Hm)).
  simpl. tauto.
Defined.

Lemma PowerMode_spec_witness :
  0 <= 3 <= 4
  /\ exists v st h' w',
      DAC8571_PowerMode (Some ready_handle) 3 quiet_world = (st, Some h', w')
      /\ 0 <= v < 65536
      /\ Z.shiftr v 13 = pd_field 3
      /\ Z.land v (Z.ones 13) = 0
      /\ (exists st_tx,
             trace w' = trace quiet_world
                        ++ [(Transmit (hi2c ready_handle)
                                      (uint16 (Z.shiftl (address ready_handle) 1))
                                      [0x01; v / 256; v mod 256] 100, st_tx)])
      /\ writeMode h' = 0x01.
Proof.
  split; [lia | apply (PowerMode_spec ready_handle 3 quiet_world); lia].
Defined.

Lemma WriteArray_spec_witness :
  0 <= 3 < 256
  /\ DAC8571_WriteArray (Some ready_handle) (Some testArray) 3 quiet_world
     = write_each (Some ready_handle) testArray quiet_world.
Proof.
  split; [lia | ].
  assert (Hlen : 0 <= 3 < 256) by lia.
  destruct (WriteArray_spec (Some ready_handle) (Some testArray) 3 quiet_world
                            Hlen) as (_ & _ & Hloop).
  destruct (Hloop ready_handle testArray eq_refl eq_refl) as [E _].
  - lia.
  - simpl. lia.
  - repeat constructor; lia.
  - exact E.
Defined.


Lemma Write_Read_roundtrip_witness :
  @faithful_loopback LoopBus LoopHAL
  /\ 0 <= 0xBEEF < 65536
  /\ fst (fst (DAC8571_Read
                 (snd (fst (DAC8571_Write (Some ready_handle) 0xBEEF quiet_world)))
                 (snd (DAC8571_Write (Some ready_handle) 0xBEEF quiet_world))))
     = 0xBEEF.
Proof.
  split; [exact loop_faithful | ]. split; [lia | ].
  apply (Write_Read_roundtrip ready_handle 0xBEEF quiet_world _ _ loop_faithful).
  - lia.
  - reflexivity.
Defined.

Lemma SetVoltage_code_witness :
  Fp.is_float volt_1_25 = true
  /\ Fp.is_finite volt_1_25 = true
  /\ (0 <= Fp.SF2Q volt_1_25)%Q
  /\ (Fp.SF2Q volt_1_25 <= Fp.REF_VOLTAGE_Q)%Q
  /\ DAC8571_SetVoltage (Some ready_handle) volt_1_25 quiet_world
     = DAC8571_Write (Some ready_handle) 32767 quiet_world.
Proof.
  assert (H0 : (0 <= Fp.SF2Q volt_1_25)%Q) by (vm_compute; discriminate).
  assert (H1 : (Fp.SF2Q volt_1_25 <= Fp.REF_VOLTAGE_Q)%Q)
    by (vm_compute; discriminate).
  split; [reflexivity | ]. split; [reflexivity | ].
  split; [exact H0 | ]. split; [exact H1 | ].
  exact (proj1 (SetVoltage_code ready_handle volt_1_25 quiet_world
                                eq_refl eq_refl H0 H1)).
Defined.

(** C3, as first stated, fails: a null sequence with a length above 14 is
    rejected by the first check, and lastError is not set to BUFFER_ERROR. *)
Lemma WriteArray_null_oversized :
  DAC8571_WriteArray (Some ready_handle) None 15 quiet_world
  = (HAL_ERROR, Some ready_handle, quiet_world)
  /\ 14 < 15
  /\ lastError ready_handle <> DAC8571_BUFFER_ERROR.
Proof. split; [reflexivity | ]. split; [lia | discriminate]. Qed.


(** C6: [DAC8571_PowerMode] with the invalid mode 0xFF returns HAL_ERROR
    and issues no bus transaction, but the handle is not as it was:
    writeMode went from 0x10 to 0x01. *)
Theorem PowerMode_invalid_overwrites_writeMode :
  DAC8571_PowerMode (Some ready_handle) 0xFF quiet_world
  = (HAL_ERROR,
     Some (mkHandle (Some (I2C_Peripheral 1)) 0x4C 0 0x01 DAC8571_OK),
     quiet_world)
  /\ writeMode ready_handle = 0x10
  /\ DAC8571_PowerMode (Some ready_handle) 0xFF quiet_world
     <> (HAL_ERROR, Some ready_handle, quiet_world).
Proof. split; [reflexivity | ]. split; [reflexivity | discriminate]. Qed.

(** * Further properties of the driver *)

(** * Further properties of the driver *)


Lemma uint16_range (v : Z) : 0 <= uint16 v < 65536.
Proof. unfold uint16. apply Z.mod_pos_bound. lia. Qed.

Lemma split_bytes (v : Z) : v / 256 * 256 + v mod 256 = v.
Proof. pose proof (Z.div_mod v 256). lia. Qed.

Lemma last_ok_value_app (evs1 evs2 : list BusEvent) (d : Z) :
  last_ok_value (evs1 ++ evs2) d = last_ok_value evs2 (last_ok_value evs1 d).
Proof. unfold last_ok_value. apply fold_left_app. Qed.

Lemma tracked_nil (h : DAC8571_HandleTypeDef) (n : nat) : tracked h [] h n.
Proof.
  split; [apply same_config_refl | ]. split; [reflexivity | ].
  split; [constructor | cbn; lia].
Qed.

Lemma tracked_app (h h1 h2 : DAC8571_HandleTypeDef)
      (evs1 evs2 : list BusEvent) (n1 n2 : nat) :
  tracked h evs1 h1 n1 -> tracked h1 evs2 h2 n2 ->
  tracked h (evs1 ++ evs2) h2 (n1 + n2).
Proof.
  intros (Hc1 & Hv1 & Hf1 & Hl1) (Hc2 & Hv2 & Hf2 & Hl2).
  split; [eapply same_config_trans; eassumption | ].
  split; [now rewrite last_ok_value_app, <- Hv1 | ].
  split.
  - apply Forall_app. split; [exact Hf1 | ].
    destruct Hc1 as (E1 & E2 & E3). now rewrite <- E1, <- E2, <- E3.
  - rewrite length_app. lia.
Qed.

Lemma tracked_weaken (h h' : DAC8571_HandleTypeDef) (evs : list BusEvent)
      (n m : nat) :
  (n <= m)%nat -> tracked h evs h' n -> tracked h evs h' m.
Proof. intros Hnm (Hc & Hv & Hf & Hl). repeat split; try assumption; try apply Hc. lia. Qed.

Section Tracking.

Context {Bus : Type} `{I2C_HAL Bus}.

(** [DAC8571_Write] spelled out for any argument: the value is first
    converted to [uint16_t]. *)
Lemma Write_event (h : DAC8571_HandleTypeDef) (value : Z) (w : World Bus) :
  exists st b,
    HAL_I2C_Master_Transmit (bus w) (hi2c h) (uint16 (Z.shiftl (address h) 1))
                            (frame (writeMode h) (uint16 value)) 100 = (st, b)
    /\ DAC8571_Write (Some h) value w
       = (if status_is_ok st then HAL_OK else st,
          Some (if status_is_ok st
                then set_lastError (set_lastValue h (uint16 value)) DAC8571_OK
                else set_lastError h DAC8571_I2C_ERROR),
          mkWorld b (trace w ++ [(transmit_of h (uint16 value), st)])).
Proof.
  pose proof (uint16_range value) as Hv.
  assert (E : DAC8571_Write (Some h) value w
              = DAC8571_Write (Some h) (uint16 value) w).
  { unfold DAC8571_Write. now rewrite (uint16_small (uint16 value) Hv). }
  rewrite E, (Write_unfold h (uint16 value) w Hv).
  destruct (HAL_I2C_Master_Transmit _ _ _ _ _) as [st b].
  exists st, b. split; [reflexivity | ]. now destruct (status_is_ok st).
Qed.

Lemma Write_tracked (h : DAC8571_HandleTypeDef) (value : Z) (w : World Bus) :
  exists st h' w' st_tx,
    DAC8571_Write (Some h) value w = (st, Some h', w')
    /\ trace w' = trace w ++ [(transmit_of h (uint16 value), st_tx)]
    /\ tracked h [(transmit_of h (uint16 value), st_tx)] h' 1
    /\ (st = HAL_OK <-> st_tx = HAL_OK)
    /\ (st_tx <> HAL_OK -> st = st_tx).
Proof.
  destruct (Write_event h value w) as (st & b & _ & E). rewrite E.
  pose proof (uint16_range value) as Hv.
  eexists _, _, _, st. split; [reflexivity | ]. split; [reflexivity | ].
  split.
  - split; [destruct (status_is_ok st); repeat split | ].
    split.
    + unfold last_ok_value, transmit_of, frame. cbn [fold_left].
      destruct st; cbn [status_is_ok set_lastError set_lastValue lastValue];
        try reflexivity.
      symmetry. apply split_bytes.
    + split; [ | cbn; lia]. constructor; [ | constructor].
      unfold event_on, transmit_of. cbn [fst].
      repeat split. exists (writeMode h), (uint16 value). auto.
  - destruct st; cbn [status_is_ok]; split; try split;
      try congruence; try discriminate.
Qed.

Lemma IsConnected_tracked (h : DAC8571_HandleTypeDef) (w : World Bus) :
  exists st h' w',
    DAC8571_IsConnected (Some h) w = (st, Some h', w')
    /\ trace w' = trace w
                  ++ [(DeviceReady (hi2c h) (uint16 (Z.shiftl (address h) 1))
                                   1 10, st)]
    /\ tracked h [(DeviceReady (hi2c h) (uint16 (Z.shiftl (address h) 1))
                               1 10, st)] h' 1
    /\ lastError h' = (if status_is_ok st then lastError h
                       else DAC8571_I2C_ERROR).
Proof.
  unfold DAC8571_IsConnected, i2c_is_device_ready.
  destruct (HAL_I2C_IsDeviceReady _ _ _ _ _) as [st b].
  exists st. destruct (status_is_ok st);
    eexists _, _; (split; [reflexivity | ]); (split; [reflexivity | ]);
    (split; [ | reflexivity]);
    (split; [repeat split | ]); (split; [reflexivity | ]);
    (split; [ | cbn; lia]); (constructor; [ | constructor]);
    unfold event_on; cbn [fst]; auto.
Qed.

Lemma Read_tracked (h : DAC8571_HandleTypeDef) (w : World Bus) :
  exists v h' w' st,
    DAC8571_Read (Some h) w = (v, Some h', w')
    /\ trace w' = trace w
                  ++ [(Receive (hi2c h)
                               (uint16 (Z.lor (Z.shiftl (address h) 1) 1))
                               3 HAL_MAX_DELAY, st)]
    /\ tracked h [(Receive (hi2c h)
                           (uint16 (Z.lor (Z.shiftl (address h) 1) 1))
                           3 HAL_MAX_DELAY, st)] h' 1.
Proof.
  unfold DAC8571_Read, i2c_receive.
  destruct (HAL_I2C_Master_Receive _ _ _ _ _) as [[st data] b].
  destruct (status_is_ok st);
    eexists _, _, _, st; (split; [reflexivity | ]); (split; [reflexivity | ]);
    (split; [repeat split | ]); (split; [reflexivity | ]);
    (split; [ | cbn; lia]); (constructor; [ | constructor]);
    unfold event_on; cbn [fst]; auto.
Qed.

Lemma WriteArray_loop_tracked (n i : nat) (a : list Z)
      (h : DAC8571_HandleTypeDef) (w : World Bus) :
  exists st h' w' evs,
    WriteArray_loop n i (Some h) a w = (st, Some h', w')
    /\ trace w' = trace w ++ evs
    /\ tracked h evs h' n.
Proof.
  revert i h w. induction n as [ | n IH]; intros i h w.
  - exists HAL_OK, h, w, []. cbn [WriteArray_loop]. rewrite app_nil_r.
    split; [reflexivity | ]. split; [reflexivity | apply tracked_nil].
  - cbn [WriteArray_loop].
    destruct (Write_tracked h (nth i a 0) w)
      as (st & h1 & w1 & st_tx & E & Htr & Ht & _).
    rewrite E. destruct (status_is_ok st).
    + destruct (IH (S i) h1 w1) as (st' & h' & w' & evs & E' & Htr' & Ht').
      eexists st', h', w', (_ :: evs). split; [exact E' | ].
      split; [rewrite Htr', Htr, <- app_assoc; reflexivity | ].
      apply (tracked_app h h1 h' [_] evs 1 n Ht Ht').
    + eexists st, h1, w1, [_]. split; [reflexivity | ].
      split; [exact Htr | ]. apply (tracked_weaken _ _ _ 1); [lia | exact Ht].
Qed.

Lemma Init_probe_tracked (n : nat) (h : DAC8571_HandleTypeDef) (w : World Bus) :
  exists r h' w' evs,
    Init_probe n (Some h) w = (r, Some h', w')
    /\ trace w' = trace w ++ evs
    /\ tracked h evs h' n.
Proof.
  revert h w. induction n as [ | n IH]; intros h w.
  - exists false, h, w, []. cbn [Init_probe]. rewrite app_nil_r.
    split; [reflexivity | ]. split; [reflexivity | apply tracked_nil].
  - cbn [Init_probe].
    destruct (IsConnected_tracked h w) as (st & h1 & w1 & E & Htr & Ht & _).
    rewrite E. destruct (status_is_ok st).
    + eexists true, h1, w1, [_]. split; [reflexivity | ].
      split; [exact Htr | ]. apply (tracked_weaken _ _ _ 1); [lia | exact Ht].
    + destruct (IH h1 (hal_delay w1 25)) as (r & h' & w' & evs & E' & Htr' & Ht').
      eexists r, h', w', (_ :: evs). split; [exact E' | ].
      split.
      { rewrite Htr'. cbn [hal_delay trace]. rewrite Htr, <- app_assoc.
        reflexivity. }
      apply (tracked_app h h1 h' [_] evs 1 n Ht Ht').
Qed.

End Tracking.

Lemma event_on_weaken (p : I2C_ptr) (a : Z) (P Q : Z -> Prop) (e : BusEvent) :
  (forall c, P c -> Q c) -> event_on p a P e -> event_on p a Q e.
Proof.
  intros HPQ. unfold event_on. destruct (fst e); try tauto.
  intros (E1 & E2 & E3 & c & v & E4 & Hc & Hv).
  repeat split; try assumption. exists c, v. auto.
Qed.

Lemma status_is_ok_true (st : HAL_StatusTypeDef) :
  status_is_ok st = true -> st = HAL_OK.
Proof. now destruct st. Qed.

Lemma status_is_ok_false (st : HAL_StatusTypeDef) :
  status_is_ok st = false -> st <> HAL_OK.
Proof. now destruct st. Qed.

Section Calls.

Context {Bus : Type} `{I2C_HAL Bus}.

(** The probe loop of the initialization, with the statuses it met. *)
Lemma Init_probe_trace (n : nat) (h : DAC8571_HandleTypeDef) (w : World Bus) :
  exists r h' w' fails,
    Init_probe n (Some h) w = (r, Some h', w')
    /\ Forall failed fails
    /\ same_config h h'
    /\ lastValue h' = lastValue h
    /\ lastError h' = match fails with
                      | [] => lastError h
                      | _ => DAC8571_I2C_ERROR
                      end
    /\ ((r = true /\ (length fails < n)%nat
         /\ trace w' = trace w ++ map (probe_of h) (fails ++ [HAL_OK]))
        \/ (r = false /\ length fails = n
            /\ trace w' = trace w ++ map (probe_of h) fails)).
Proof.
  revert h w. induction n as [ | n IH]; intros h w.
  - exists false, h, w, []. cbn [Init_probe map length].
    rewrite app_nil_r. split; [reflexivity | ]. split; [constructor | ].
    split; [apply same_config_refl | ]. split; [reflexivity | ].
    split; [reflexivity | ]. right. auto.
  - cbn [Init_probe]. unfold DAC8571_IsConnected, i2c_is_device_ready.
    destruct (HAL_I2C_IsDeviceReady _ _ _ _ _) as [st b].
    destruct (status_is_ok st) eqn:Est.
    + apply status_is_ok_true in Est. subst st.
      eexists true, h, _, []. cbn [status_is_ok].
      split; [reflexivity | ].
      split; [constructor | ]. split; [apply same_config_refl | ].
      split; [reflexivity | ]. split; [reflexivity | ].
      left. split; [reflexivity | ]. split; [cbn; lia | reflexivity].
    + rewrite Est. apply status_is_ok_false in Est.
      set (h1 := set_lastError h DAC8571_I2C_ERROR).
      set (w1 := hal_delay _ 25).
      destruct (IH h1 w1)
        as (r & h' & w' & fails & E & Hf & Hc & Hv & He & Htr).
      exists r, h', w', (st :: fails). split; [exact E | ].
      split; [now constructor | ].
      split; [eapply same_config_trans; [ | exact Hc]; repeat split | ].
      split; [exact Hv | ].
      split; [rewrite He; now destruct fails | ].
      assert (Ep : probe_of h1 = probe_of h) by reflexivity.
      rewrite Ep in Htr. subst w1. cbn [hal_delay trace] in Htr.
      rewrite <- !app_assoc in Htr. cbn [app] in Htr.
      destruct Htr as [(-> & Hl & ->) | (-> & Hl & ->)]; [left | right];
        (split; [reflexivity | ]); (split; [cbn; lia | reflexivity]).
Qed.

Lemma Init_valid (h : DAC8571_HandleTypeDef) (p : I2C_HandleTypeDef) (a : Z)
      (w : World Bus) :
  valid_address a ->
  exists h' w' evs,
    DAC8571_Init (Some h) (Some p) a w = (tt, Some h', w')
    /\ trace w' = trace w ++ evs
    /\ tracked (mkHandle (Some p) a 0 DAC8571_CMD_WRITE_AND_UPDATE_DAC
                         DAC8571_OK) evs h' 5.
Proof.
  intros Ha.
  assert (Hu : uint8 a = a) by (destruct Ha as [-> | ->]; reflexivity).
  assert (Hu16 : uint16 a = a) by (destruct Ha as [-> | ->]; reflexivity).
  unfold DAC8571_Init. cbv zeta. rewrite Hu, Hu16.
  replace (negb (a =? 76) && negb (a =? 78)) with false
    by (destruct Ha as [-> | ->]; reflexivity).
  set (h0 := mkHandle _ _ _ _ _).
  set (w1 := if HAL_I2C_GET_FLAG_BUSY _ _ then _ else _).
  assert (Hw1 : trace w1 = trace w)
    by (subst w1; now destruct HAL_I2C_GET_FLAG_BUSY).
  destruct (Init_probe_tracked 5 h0 w1) as (r & h' & w' & evs & E & Htr & Ht).
  rewrite E. exists h', w', evs. split; [reflexivity | ].
  split; [now rewrite Htr, Hw1 | exact Ht].
Qed.

(** What one call on a non-null handle does to the trace and to the
    fields that only the initialization may bind. *)
Lemma run_op_tracked (op : Op) (h : DAC8571_HandleTypeDef) (w : World Bus) :
  exists o h' w' evs,
    run_op op (Some h, w) = (o, (Some h', w'))
    /\ trace w' = trace w ++ evs
    /\ (length evs <= budget op)%nat
    /\ (is_init op = false ->
        hi2c h' = hi2c h /\ address h' = address h
        /\ lastValue h' = last_ok_value evs (lastValue h)
        /\ Forall (event_on (hi2c h) (address h)
                            (fun c => c = writeMode h \/ c = writeMode h'))
                  evs).
Proof.
  assert (Hnone : forall (o : Outcome) (n : nat), exists o' h' w' evs,
             (o, (Some h, w)) = (o', (Some h', w'))
             /\ trace w' = trace w ++ evs
             /\ (length evs <= n)%nat
             /\ (is_init op = false ->
                 hi2c h' = hi2c h /\ address h' = address h
                 /\ lastValue h' = last_ok_value evs (lastValue h)
                 /\ Forall (event_on (hi2c h) (address h)
                              (fun c => c = writeMode h \/ c = writeMode h'))
                           evs)).
  { intros o n. exists o, h, w, []. rewrite app_nil_r.
    split; [reflexivity | ]. split; [reflexivity | ]. split; [cbn; lia | ].
    intros _. repeat split. constructor. }
  assert (Htracked : forall (o : Outcome) h' (w' : World Bus) evs (n : nat),
             trace w' = trace w ++ evs -> tracked h evs h' n ->
             (n <= budget op)%nat ->
             exists o' h'' w'' evs',
               (o, (Some h', w')) = (o', (Some h'', w''))
               /\ trace w'' = trace w ++ evs'
               /\ (length evs' <= budget op)%nat
               /\ (is_init op = false ->
                   hi2c h'' = hi2c h /\ address h'' = address h
                   /\ lastValue h'' = last_ok_value evs' (lastValue h)
                   /\ Forall (event_on (hi2c h) (address h)
                                (fun c => c = writeMode h \/ c = writeMode h''))
                             evs')).
  { intros o h' w' evs n Htr ((E1 & E2 & E3) & Hv & Hf & Hl) Hn.
    exists o, h', w', evs. split; [reflexivity | ]. split; [exact Htr | ].
    split; [lia | ]. intros _. split; [exact E1 | ]. split; [exact E2 | ].
    split; [exact Hv | ].
    eapply Forall_impl; [ | exact Hf]. intros e.
    apply event_on_weaken. intros c <-. now left. }
  destruct op; cbn [run_op].
  - (* Init *)
    unfold DAC8571_Init. destruct hi2c_arg as [p | ]; [ | apply Hnone].
    cbv zeta. generalize (uint8 address_arg). intros a.
    destruct (negb (a =? 76) && negb (a =? 78)); [apply Hnone | ].
    set (h0 := mkHandle _ _ _ _ _).
    set (w1 := if HAL_I2C_GET_FLAG_BUSY _ _ then _ else _).
    assert (Hw1 : trace w1 = trace w)
      by (subst w1; now destruct HAL_I2C_GET_FLAG_BUSY).
    destruct (Init_probe_tracked 5 h0 w1)
      as (r & h' & w' & evs & E & Htr & (_ & _ & _ & Hl)).
    rewrite E. exists Nothing, h', w', evs. split; [reflexivity | ].
    split; [now rewrite Htr, Hw1 | ]. split; [exact Hl | discriminate].
  - (* Write *)
    destruct (Write_tracked h value w)
      as (st & h' & w' & st_tx & E & Htr & Ht & _).
    rewrite E. apply (Htracked _ h' w' [_] 1%nat Htr Ht). cbn. lia.
  - (* WriteArray *)
    unfold DAC8571_WriteArray.
    destruct arr as [a | ]; [ | apply Hnone].
    destruct (uint8 length =? 0); [apply Hnone | ].
    destruct (14 <? uint8 length) eqn:Elen.
    + apply (Htracked _ _ w [] 0%nat).
      * now rewrite app_nil_r.
      * split; [repeat split | ]. split; [reflexivity | ].
        split; [constructor | cbn; lia].
      * lia.
    + destruct (WriteArray_loop_tracked (Z.to_nat (uint8 length)) 0 a h w)
        as (st & h' & w' & evs & E & Htr & Ht).
      rewrite E. apply (Htracked _ h' w' evs _ Htr Ht).
      cbn [budget]. rewrite Elen. lia.
  - (* Read *)
    destruct (Read_tracked h w) as (v & h' & w' & st & E & Htr & Ht).
    rewrite E. apply (Htracked _ h' w' [_] 1%nat Htr Ht). cbn. lia.
  - (* IsConnected *)
    destruct (IsConnected_tracked h w) as (st & h' & w' & E & Htr & Ht & _).
    rewrite E. apply (Htracked _ h' w' [_] 1%nat Htr Ht). cbn. lia.
  - (* SetVoltage *)
    unfold DAC8571_SetVoltage.
    destruct (Fp.voltage_out_of_range voltage) eqn:Er; [apply Hnone | ].
    destruct (Write_tracked h (Fp.voltage_code voltage) w)
      as (st & h' & w' & st_tx & E & Htr & Ht & _).
    rewrite E. apply (Htracked _ h' w' [_] 1%nat Htr Ht).
    cbn [budget]. rewrite Er. lia.
  - (* SetWriteMode *)
    unfold DAC8571_SetWriteMode.
    destruct (is_write_mode (uint8 mode)); [ | apply Hnone].
    eexists _, _, w, []. rewrite app_nil_r.
    split; [reflexivity | ]. split; [reflexivity | ]. split; [cbn; lia | ].
    intros _. repeat split. constructor.
  - (* GetWriteMode *)
    apply Hnone.
  - (* PowerMode *)
    unfold DAC8571_PowerMode.
    set (h1 := set_writeMode h DAC8571_CMD_WRITE_TMP_PWDN).
    cbn [budget].
    destruct (pdValue_of (uint8 pdMode)) as [pdValue | ].
    + destruct (Write_tracked h1 pdValue w)
        as (st & h' & w' & st_tx & E & Htr & ((E1 & E2 & E3) & Hv & Hf & Hl) & _).
      rewrite E. eexists _, h', w', [_]. split; [reflexivity | ].
      split; [exact Htr | ]. split; [cbn; lia | ].
      intros _. split; [exact E1 | ]. split; [exact E2 | ].
      split; [exact Hv | ].
      eapply Forall_impl; [ | exact Hf]. intros e.
      apply event_on_weaken. intros c <-. right. now rewrite E3.
    + eexists _, h1, w, []. rewrite app_nil_r.
      split; [reflexivity | ]. split; [reflexivity | ]. split; [cbn; lia | ].
      intros _. repeat split. constructor.
  - (* WakeUp *)
    unfold DAC8571_WakeUp.
    destruct (Write_tracked h value w)
      as (st & h' & w' & st_tx & E & Htr & Ht & _).
    rewrite E. apply (Htracked _ h' w' [_] 1%nat Htr Ht). cbn. lia.
  - (* Reset *)
    unfold DAC8571_Reset.
    destruct (Write_tracked h 0 w)
      as (st & h' & w' & st_tx & E & Htr & Ht & _).
    rewrite E. apply (Htracked _ h' w' [_] 1%nat Htr Ht). cbn. lia.
  - (* GetLastError *)
    cbn [DAC8571_GetLastError].
    apply (Htracked _ _ w [] 0%nat).
    + now rewrite app_nil_r.
    + split; [repeat split | ]. split; [reflexivity | ].
      split; [constructor | cbn; lia].
    + cbn. lia.
  - (* GetAddress *)
    apply Hnone.
Qed.

End Calls.

Lemma event_on_wire (p : I2C_HandleTypeDef) (a : Z) (Q : Z -> Prop)
      (e : BusEvent) :
  valid_address a -> (forall c, Q c -> In c command_bytes) ->
  event_on (Some p) a Q e -> wire_ok p a e.
Proof.
  intros Ha HQ. unfold event_on, wire_ok.
  assert (E1 : uint16 (Z.shiftl a 1) = 2 * a)
    by (destruct Ha as [-> | ->]; reflexivity).
  assert (E2 : uint16 (Z.lor (Z.shiftl a 1) 1) = 2 * a + 1)
    by (destruct Ha as [-> | ->]; reflexivity).
  rewrite E1, E2. destruct (fst e); try tauto.
  intros (Hp & Hd & Ht & c & v & Hdata & Hc & Hv).
  repeat split; try assumption.
  exists c, (v / 256), (v mod 256). split; [exact Hdata | ].
  split; [auto | ]. split.
  - split; [apply Z.div_pos; lia | apply Z.div_lt_upper_bound; lia].
  - apply Z.mod_pos_bound. lia.
Qed.

Section Sequences.

Context {Bus : Type} `{I2C_HAL Bus}.

Lemma run_op_null (op : Op) (w : World Bus) :
  run_op op (None, w) = (null_result op, (None, w)).
Proof. destruct op; reflexivity. Qed.

Lemma Init_noop (hdac8571 : option DAC8571_HandleTypeDef)
      (p : I2C_ptr) (a : Z) (w : World Bus) :
  p = None \/ (uint8 a <> 0x4C /\ uint8 a <> 0x4E) ->
  DAC8571_Init hdac8571 p a w = (tt, hdac8571, w).
Proof.
  intros Hrej. unfold DAC8571_Init.
  destruct hdac8571 as [h | ]; [ | reflexivity].
  destruct p as [p | ]; [ | reflexivity].
  destruct Hrej as [Hp | [H1 H2]]; [discriminate | ].
  destruct (Z.eqb_spec (uint8 a) 0x4C); [contradiction | ].
  destruct (Z.eqb_spec (uint8 a) 0x4E); [contradiction | ].
  reflexivity.
Qed.

(** X1: called with a null handle, every function of the driver hands back
    its failure value (HAL_ERROR, 0, or ADDRESS_ERROR for GetLastError)
    and leaves the bus and the trace as they are; so does any sequence of
    calls. *)
Theorem null_handle_calls (w : World Bus) :
  (forall op, run_op op (None, w) = (null_result op, (None, w)))
  /\ (forall ops, run_ops ops (None, w) = (None, w)).
Proof.
  split; [intros op; apply run_op_null | ].
  intros ops. induction ops as [ | op ops IH]; [reflexivity | ].
  cbn [run_ops]. now rewrite run_op_null.
Qed.

(** X2: [DAC8571_Init] with a null transport, or with an address that is
    neither 0x4C nor 0x4E, changes neither the handle nor the bus: the
    handle stays unbound and no probe is sent. *)
Theorem Init_rejected_is_noop (hdac8571 : option DAC8571_HandleTypeDef)
        (p : I2C_ptr) (a : Z) (w : World Bus) :
  p = None \/ (uint8 a <> 0x4C /\ uint8 a <> 0x4E) ->
  DAC8571_Init hdac8571 p a w = (tt, hdac8571, w)
  /\ forall ops,
      run_ops (OpInit p a :: ops) (hdac8571, w) = run_ops ops (hdac8571, w).
Proof.
  intros Hrej. split; [now apply Init_noop | ].
  intros ops. cbn [run_ops run_op]. now rewrite (Init_noop _ _ _ _ Hrej).
Qed.

(** X3: [DAC8571_Init] with a transport and an address of the whitelist
    binds both, resets lastValue to 0 and writeMode to write-and-update, and
    probes the device until the first answer, five times at most: the trace
    grows by the failed probes followed by the successful one, or by five
    failed probes.  lastError is OK only when the very first probe was
    answered; a failed probe leaves I2C_ERROR behind even when a later one
    succeeds. *)
Theorem Init_probes (h0 : DAC8571_HandleTypeDef) (p : I2C_HandleTypeDef)
        (a : Z) (w : World Bus) :
  valid_address a ->
  exists h' w' fails,
    DAC8571_Init (Some h0) (Some p) a w = (tt, Some h', w')
    /\ h' = mkHandle (Some p) a 0 DAC8571_CMD_WRITE_AND_UPDATE_DAC
                     (match fails with
                      | [] => DAC8571_OK
                      | _ => DAC8571_I2C_ERROR
                      end)
    /\ Forall failed fails
    /\ let probe st := (DeviceReady (Some p) (2 * a) 1 10, st) in
       ((length fails < 5)%nat
        /\ trace w' = trace w ++ map probe (fails ++ [HAL_OK]))
       \/ (length fails = 5%nat /\ trace w' = trace w ++ map probe fails).
Proof.
  intros Ha.
  assert (Hu : uint8 a = a) by (destruct Ha as [-> | ->]; reflexivity).
  assert (Hu16 : uint16 a = a) by (destruct Ha as [-> | ->]; reflexivity).
  assert (E2a : uint16 (Z.shiftl a 1) = 2 * a)
    by (destruct Ha as [-> | ->]; reflexivity).
  unfold DAC8571_Init. cbv zeta. rewrite Hu, Hu16.
  replace (negb (a =? 76) && negb (a =? 78)) with false
    by (destruct Ha as [-> | ->]; reflexivity).
  set (h := mkHandle _ _ _ _ _).
  set (w1 := if HAL_I2C_GET_FLAG_BUSY _ _ then _ else _).
  assert (Hw1 : trace w1 = trace w)
    by (subst w1; now destruct HAL_I2C_GET_FLAG_BUSY).
  destruct (Init_probe_trace 5 h w1)
    as (r & h' & w' & fails & E & Hf & (E1 & E2 & E3) & Hv & He & Htr).
  rewrite E. exists h', w', fails. split; [reflexivity | ].
  split.
  { destruct h' as [p' a' v' m' e']. cbn in E1, E2, E3, Hv, He.
    subst p' a' v' m'. rewrite He. now destruct fails. }
  split; [exact Hf | ]. cbv zeta.
  assert (Ep : probe_of h = fun st => (DeviceReady (Some p) (2 * a) 1 10, st)).
  { unfold probe_of. cbn [hi2c address h]. now rewrite E2a. }
  rewrite Ep, Hw1 in Htr.
  destruct Htr as [(_ & Hl & Htr) | (_ & Hl & Htr)]; [left | right];
    split; assumption.
Qed.

(** The fields bound by the initialization, and a valid write mode. *)
Lemma run_op_bound (op : Op) (p : I2C_HandleTypeDef) (a : Z)
      (h : DAC8571_HandleTypeDef) (w : World Bus) :
  valid_address a -> is_init op = false ->
  hi2c h = Some p -> address h = a -> is_write_mode (writeMode h) = true ->
  exists o h' w' evs,
    run_op op (Some h, w) = (o, (Some h', w'))
    /\ trace w' = trace w ++ evs
    /\ Forall (wire_ok p a) evs
    /\ hi2c h' = Some p /\ address h' = a
    /\ is_write_mode (writeMode h') = true.
Proof.
  intros Ha Hop Hp Haddr Hm.
  destruct (run_op_tracked op h w) as (o & h' & w' & evs & E & Htr & _ & Hrest).
  destruct (Hrest Hop) as (E1 & E2 & _ & Hf).
  destruct (run_op_effect op h w)
    as (o2 & h2 & w2 & evs2 & E' & _ & _ & _ & _ & Hinv & _).
  rewrite E in E'. injection E' as <- <- <-.
  assert (Hinv' : handle_inv h').
  { apply Hinv. split; [now rewrite Haddr | exact Hm]. }
  destruct Hinv' as [_ Hm'].
  exists o, h', w', evs. split; [exact E | ]. split; [exact Htr | ].
  split.
  - eapply Forall_impl; [ | exact Hf]. intros e He.
    rewrite Hp, Haddr in He.
    refine (event_on_wire p a _ e Ha _ He).
    intros c [-> | ->]; now apply is_write_mode_iff.
  - split; [now rewrite E1 | ]. split; [now rewrite E2 | exact Hm'].
Qed.

Lemma run_ops_bound (ops : list Op) (p : I2C_HandleTypeDef) (a : Z)
      (h : DAC8571_HandleTypeDef) (w : World Bus) :
  valid_address a -> no_init ops = true ->
  hi2c h = Some p -> address h = a -> is_write_mode (writeMode h) = true ->
  exists h' w' evs,
    run_ops ops (Some h, w) = (Some h', w')
    /\ trace w' = trace w ++ evs
    /\ Forall (wire_ok p a) evs
    /\ hi2c h' = Some p /\ address h' = a.
Proof.
  intros Ha. revert h w.
  induction ops as [ | op ops IH]; intros h w Hops Hp Haddr Hm.
  - exists h, w, []. rewrite app_nil_r. repeat split; auto.
  - cbn [no_init forallb] in Hops. apply andb_true_iff in Hops.
    destruct Hops as [Hop Hops]. apply negb_true_iff in Hop.
    destruct (run_op_bound op p a h w Ha Hop Hp Haddr Hm)
      as (o & h1 & w1 & evs1 & E & Htr & Hf & Hp1 & Ha1 & Hm1).
    destruct (IH h1 w1 Hops Hp1 Ha1 Hm1)
      as (h' & w' & evs & E' & Htr' & Hf' & Hp' & Ha').
    exists h', w', (evs1 ++ evs). cbn [run_ops]. rewrite E. cbn [snd].
    split; [exact E' | ].
    split; [rewrite Htr', Htr; symmetry; apply app_assoc | ].
    split; [now apply Forall_app | auto].
Qed.

Lemma Init_bound (h0 : DAC8571_HandleTypeDef) (p : I2C_HandleTypeDef) (a : Z)
      (w0 : World Bus) :
  valid_address a ->
  exists h1 w1 evs,
    DAC8571_Init (Some h0) (Some p) a w0 = (tt, Some h1, w1)
    /\ trace w1 = trace w0 ++ evs
    /\ Forall (wire_ok p a) evs
    /\ hi2c h1 = Some p /\ address h1 = a
    /\ is_write_mode (writeMode h1) = true
    /\ lastValue h1 = last_ok_value evs 0.
Proof.
  intros Ha.
  destruct (Init_valid h0 p a w0 Ha)
    as (h1 & w1 & evs & E & Htr & (E1 & E2 & E3) & Hv & Hf & _).
  cbn [hi2c address writeMode lastValue] in E1, E2, E3, Hv, Hf.
  exists h1, w1, evs. split; [exact E | ]. split; [exact Htr | ].
  split.
  - eapply Forall_impl; [ | exact Hf]. intros e He.
    refine (event_on_wire p a _ e Ha _ He). intros c <-.
    now apply is_write_mode_iff.
  - split; [exact E1 | ]. split; [exact E2 | ].
    split; [now rewrite E3 | exact Hv].
Qed.

(** X4: after a successful binding by [DAC8571_Init], whatever calls other
    than Init follow, every transaction on the bus is one of three shapes:
    a transmit of three bytes to address 2a (a command byte of the
    documented set, then two data bytes) with timeout 100, a receive of
    three bytes from address 2a + 1, or a presence probe of address 2a with
    one trial and timeout 10, all on the transport given to Init. *)
Theorem wire_format (h0 : DAC8571_HandleTypeDef) (p : I2C_HandleTypeDef)
        (a : Z) (w0 : World Bus) (ops : list Op) :
  valid_address a -> no_init ops = true ->
  exists h w evs,
    run_ops (OpInit (Some p) a :: ops) (Some h0, w0) = (Some h, w)
    /\ trace w = trace w0 ++ evs
    /\ Forall (wire_ok p a) evs.
Proof.
  intros Ha Hops.
  destruct (Init_bound h0 p a w0 Ha)
    as (h1 & w1 & evs1 & E & Htr & Hf & Hp & Haddr & Hm & _).
  destruct (run_ops_bound ops p a h1 w1 Ha Hops Hp Haddr Hm)
    as (h & w & evs & E' & Htr' & Hf' & _).
  exists h, w, (evs1 ++ evs). cbn [run_ops run_op]. rewrite E. cbn [snd].
  split; [exact E' | ].
  split; [rewrite Htr', Htr; symmetry; apply app_assoc | now apply Forall_app].
Qed.

(** X5: the address given to a successful [DAC8571_Init] is what
    [DAC8571_GetAddress] returns after any sequence of calls other than
    Init, and the transport stays bound. *)
Theorem GetAddress_after_Init (h0 : DAC8571_HandleTypeDef)
        (p : I2C_HandleTypeDef) (a : Z) (w0 : World Bus) (ops : list Op) :
  valid_address a -> no_init ops = true ->
  exists h w,
    run_ops (OpInit (Some p) a :: ops) (Some h0, w0) = (Some h, w)
    /\ DAC8571_GetAddress (Some h) w = (a, Some h, w)
    /\ hi2c h = Some p.
Proof.
  intros Ha Hops.
  destruct (Init_bound h0 p a w0 Ha)
    as (h1 & w1 & evs1 & E & _ & _ & Hp & Haddr & Hm & _).
  destruct (run_ops_bound ops p a h1 w1 Ha Hops Hp Haddr Hm)
    as (h & w & evs & E' & _ & _ & Hp' & Ha').
  exists h, w. cbn [run_ops run_op]. rewrite E. cbn [snd].
  split; [exact E' | ]. split; [ | exact Hp'].
  cbn [DAC8571_GetAddress]. rewrite Ha'.
  now destruct Ha as [-> | ->].
Qed.

Lemma run_ops_lastValue (ops : list Op) (h : DAC8571_HandleTypeDef)
      (w : World Bus) :
  no_init ops = true ->
  exists h' w' evs,
    run_ops ops (Some h, w) = (Some h', w')
    /\ trace w' = trace w ++ evs
    /\ lastValue h' = last_ok_value evs (lastValue h).
Proof.
  revert h w. induction ops as [ | op ops IH]; intros h w Hops.
  - exists h, w, []. rewrite app_nil_r. repeat split.
  - cbn [no_init forallb] in Hops. apply andb_true_iff in Hops.
    destruct Hops as [Hop Hops]. apply negb_true_iff in Hop.
    destruct (run_op_tracked op h w)
      as (o & h1 & w1 & evs1 & E & Htr & _ & Hrest).
    destruct (Hrest Hop) as (_ & _ & Hv & _).
    destruct (IH h1 w1 Hops) as (h' & w' & evs & E' & Htr' & Hv').
    exists h', w', (evs1 ++ evs). cbn [run_ops]. rewrite E. cbn [snd].
    split; [exact E' | ].
    split; [rewrite Htr', Htr; symmetry; apply app_assoc | ].
    now rewrite last_ok_value_app, <- Hv.
Qed.

(** X6: lastValue mirrors the bus.  Over any sequence of calls other than
    Init, lastValue afterwards is the value of the last transmit that the
    HAL reported as successful, and is unchanged when there was none;
    right after a successful Init the same holds starting from 0. *)
Theorem lastValue_tracks (h : DAC8571_HandleTypeDef) (w : World Bus)
        (ops : list Op) :
  no_init ops = true ->
  (exists h' w' evs,
      run_ops ops (Some h, w) = (Some h', w')
      /\ trace w' = trace w ++ evs
      /\ lastValue h' = last_ok_value evs (lastValue h))
  /\ (forall p a,
         valid_address a ->
         exists h' w' evs,
           run_ops (OpInit (Some p) a :: ops) (Some h, w) = (Some h', w')
           /\ trace w' = trace w ++ evs
           /\ lastValue h' = last_ok_value evs 0).
Proof.
  intros Hops. split; [now apply run_ops_lastValue | ].
  intros p a Ha.
  destruct (Init_bound h p a w Ha)
    as (h1 & w1 & evs1 & E & Htr & _ & _ & _ & _ & Hv).
  destruct (run_ops_lastValue ops h1 w1 Hops) as (h' & w' & evs & E' & Htr' & Hv').
  exists h', w', (evs1 ++ evs). cbn [run_ops run_op]. rewrite E. cbn [snd].
  split; [exact E' | ].
  split; [rewrite Htr', Htr; symmetry; apply app_assoc | ].
  now rewrite last_ok_value_app, <- Hv.
Qed.

Lemma run_ops_budget (ops : list Op)
      (hdac8571 : option DAC8571_HandleTypeDef) (w : World Bus) :
  exists hdac8571' w' evs,
    run_ops ops (hdac8571, w) = (hdac8571', w')
    /\ trace w' = trace w ++ evs
    /\ (length evs <= list_sum (map budget ops))%nat.
Proof.
  revert hdac8571 w. induction ops as [ | op ops IH]; intros hdac8571 w.
  - exists hdac8571, w, []. rewrite app_nil_r. repeat split. cbn. lia.
  - cbn [run_ops map list_sum fold_right].
    destruct hdac8571 as [h | ].
    + destruct (run_op_tracked op h w)
        as (o & h1 & w1 & evs1 & E & Htr & Hl & _).
      rewrite E. cbn [snd].
      destruct (IH (Some h1) w1) as (h' & w' & evs & E' & Htr' & Hl').
      exists h', w', (evs1 ++ evs). split; [exact E' | ].
      split; [rewrite Htr', Htr; symmetry; apply app_assoc | ].
      rewrite length_app. unfold list_sum in Hl'. lia.
    + rewrite run_op_null. cbn [snd].
      destruct (IH None w) as (h' & w' & evs & E' & Htr' & Hl').
      exists h', w', evs. split; [exact E' | ]. split; [exact Htr' | ].
      unfold list_sum in Hl'. lia.
Qed.

(** X7: a bound on bus usage.  Init issues at most 5 transactions,
    WriteArray at most its length (14 at most) and none when the length is
    above 14, every other bus operation at most one, and the accessors,
    SetWriteMode, a SetVoltage out of range and a PowerMode with an invalid
    mode none; a sequence of calls issues at most the sum of these. *)
Theorem transaction_budget (ops : list Op)
        (hdac8571 : option DAC8571_HandleTypeDef) (w : World Bus) :
  (forall op, (budget op <= 14)%nat)
  /\ exists hdac8571' w' evs,
      run_ops ops (hdac8571, w) = (hdac8571', w')
      /\ trace w' = trace w ++ evs
      /\ (length evs <= list_sum (map budget ops))%nat.
Proof.
  split; [ | apply run_ops_budget].
  intros op. destruct op; cbn [budget]; try lia.
  - destruct (Z.ltb_spec 14 (uint8 length)); lia.
  - destruct (Fp.voltage_out_of_range voltage); lia.
  - destruct (pdValue_of (uint8 pdMode)); lia.
Qed.


End Sequences.

(** ** Single calls *)

Lemma received_data_nth (data : list Z) (i : nat) :
  (i < 3)%nat -> nth i (received_data data) 0 = uint8 (nth i data 0).
Proof.
  intros Hi. unfold received_data.
  destruct data as [ | b0 [ | b1 [ | b2 rest]]];
    destruct i as [ | [ | [ | i]]]; try lia; reflexivity.
Qed.

Lemma join_bytes (hi lo : Z) :
  uint16 (Z.lor (Z.shiftl (uint8 hi) 8) (uint8 lo))
  = uint8 hi * 256 + uint8 lo.
Proof.
  assert (Hhi : 0 <= uint8 hi < 256) by (apply Z.mod_pos_bound; lia).
  assert (Hlo : 0 <= uint8 lo < 256) by (apply Z.mod_pos_bound; lia).
  set (v := uint8 hi * 256 + uint8 lo).
  assert (Hv : 0 <= v < 65536) by (unfold v; lia).
  assert (E1 : v / 256 = uint8 hi).
  { unfold v. rewrite Z.div_add_l by lia. rewrite Z.div_small by lia. lia. }
  assert (E2 : v mod 256 = uint8 lo).
  { unfold v. rewrite Z.add_comm, Z.mod_add by lia. now apply Z.mod_small. }
  pose proof (bytes_join v Hv) as Hj. rewrite E1, E2 in Hj.
  rewrite (uint8_small (uint8 hi) Hhi), (uint8_small (uint8 lo) Hlo) in Hj.
  exact Hj.
Qed.

Section SingleCalls.

Context {Bus : Type} `{I2C_HAL Bus}.

(** X8: [DAC8571_Read] issues one receive of three bytes from the read
    address of the device, without timeout bound.  When the HAL reports
    success the result is 256 * first byte + second byte, a 16-bit value,
    whatever follows these two bytes, and lastError becomes OK; otherwise
    the result is 0 and lastError becomes I2C_ERROR.  Nothing else of the
    handle changes, lastValue included. *)
Theorem Read_spec (h : DAC8571_HandleTypeDef) (w : World Bus) :
  exists st data b,
    HAL_I2C_Master_Receive (bus w) (hi2c h)
                           (uint16 (Z.lor (Z.shiftl (address h) 1) 1))
                           3 0xFFFFFFFF = (st, data, b)
    /\ let w' :=
         mkWorld b (trace w
                    ++ [(Receive (hi2c h)
                                 (uint16 (Z.lor (Z.shiftl (address h) 1) 1))
                                 3 0xFFFFFFFF, st)]) in
       let value := uint8 (nth 0 data 0) * 256 + uint8 (nth 1 data 0) in
       0 <= value < 65536
       /\ (st = HAL_OK ->
           DAC8571_Read (Some h) w
           = (value,
              Some (mkHandle (hi2c h) (address h) (lastValue h) (writeMode h)
                             DAC8571_OK),
              w'))
       /\ (st <> HAL_OK ->
           DAC8571_Read (Some h) w
           = (0,
              Some (mkHandle (hi2c h) (address h) (lastValue h) (writeMode h)
                             DAC8571_I2C_ERROR),
              w')).
Proof.
  unfold DAC8571_Read, i2c_receive. change HAL_MAX_DELAY with 0xFFFFFFFF.
  destruct (HAL_I2C_Master_Receive _ _ _ _ _) as [[st data] b].
  exists st, data, b. split; [reflexivity | ]. cbv zeta.
  assert (H0 : 0 <= uint8 (nth 0 data 0) < 256) by (apply Z.mod_pos_bound; lia).
  assert (H1 : 0 <= uint8 (nth 1 data 0) < 256) by (apply Z.mod_pos_bound; lia).
  split; [lia | ]. split.
  - intros ->. cbn [status_is_ok].
    rewrite !received_data_nth by lia. rewrite join_bytes. reflexivity.
  - intros Hst. destruct st; try reflexivity. now elim Hst.
Qed.

(** X9: the power-down framing is sticky.  After [DAC8571_PowerMode],
    with a valid or an invalid mode, [DAC8571_WakeUp] still sends its value
    with the power-down command byte 0x01 and leaves writeMode at 0x01:
    waking up needs a SetWriteMode first. *)
Theorem WakeUp_after_PowerMode (h : DAC8571_HandleTypeDef) (pdMode value : Z)
        (w : World Bus) :
  0 <= value < 65536 ->
  exists st1 h1 w1 st2 h2 w2 st_tx,
    DAC8571_PowerMode (Some h) pdMode w = (st1, Some h1, w1)
    /\ DAC8571_WakeUp (Some h1) value w1 = (st2, Some h2, w2)
    /\ trace w2
       = trace w1
         ++ [(Transmit (hi2c h) (uint16 (Z.shiftl (address h) 1))
                       [0x01; value / 256; value mod 256] 100, st_tx)]
    /\ writeMode h2 = 0x01.
Proof.
  intros Hv.
  assert (HP : exists st1 h1 w1,
             DAC8571_PowerMode (Some h) pdMode w = (st1, Some h1, w1)
             /\ same_config (set_writeMode h DAC8571_CMD_WRITE_TMP_PWDN) h1).
  { unfold DAC8571_PowerMode.
    destruct (pdValue_of (uint8 pdMode)) as [pdValue | ].
    - destruct (Write_tracked (set_writeMode h DAC8571_CMD_WRITE_TMP_PWDN)
                              pdValue w)
        as (st & h1 & w1 & st_tx & E & _ & (Hc & _) & _).
      exists st, h1, w1. split; [exact E | exact Hc].
    - eexists _, _, _. split; [reflexivity | apply same_config_refl]. }
  destruct HP as (st1 & h1 & w1 & E1 & (Ep & Ea & Em)).
  cbn [hi2c address writeMode set_writeMode] in Ep, Ea, Em.
  destruct (Write_tracked h1 value w1)
    as (st2 & h2 & w2 & st_tx & E2 & Htr & ((_ & _ & Em2) & _) & _).
  exists st1, h1, w1, st2, h2, w2, st_tx.
  split; [exact E1 | ]. split; [exact E2 | ].
  split; [ | now rewrite Em2, Em].
  rewrite Htr. unfold transmit_of, frame.
  now rewrite (uint16_small value Hv), Ep, Ea, Em.
Qed.

(** X10: the write mode round trip.  After [DAC8571_SetWriteMode] accepts a
    command byte, [DAC8571_GetWriteMode] returns it and the next
    [DAC8571_Write] sends it as the first byte of the frame; after a
    rejected one both still use the previous mode. *)
Theorem SetWriteMode_then_use (h : DAC8571_HandleTypeDef) (mode value : Z)
        (w : World Bus) :
  0 <= mode < 256 -> 0 <= value < 65536 ->
  exists st h1,
    DAC8571_SetWriteMode (Some h) mode w = (st, Some h1, w)
    /\ (st = HAL_OK <-> In mode command_bytes)
    /\ let used := if status_is_ok st then mode else writeMode h in
       DAC8571_GetWriteMode (Some h1) w = (used, Some h1, w)
       /\ exists st2 h2 w2 st_tx,
           DAC8571_Write (Some h1) value w = (st2, Some h2, w2)
           /\ trace w2
              = trace w
                ++ [(Transmit (hi2c h) (uint16 (Z.shiftl (address h) 1))
                              [used; value / 256; value mod 256] 100, st_tx)].
Proof.
  intros Hm Hv. unfold DAC8571_SetWriteMode. rewrite (uint8_small mode Hm).
  destruct (is_write_mode mode) eqn:Em.
  - eexists HAL_OK, _. split; [reflexivity | ].
    split; [split; [intros _; now apply is_write_mode_iff | reflexivity] | ].
    cbn [status_is_ok]. split; [reflexivity | ].
    destruct (Write_tracked (set_writeMode h mode) value w)
      as (st2 & h2 & w2 & st_tx & E2 & Htr & _).
    exists st2, h2, w2, st_tx. split; [exact E2 | ].
    rewrite Htr. unfold transmit_of, frame.
    now rewrite (uint16_small value Hv).
  - eexists HAL_ERROR, _. split; [reflexivity | ].
    split.
    { split; [discriminate | ]. intros Hin.
      apply is_write_mode_iff in Hin. congruence. }
    cbn [status_is_ok]. split; [reflexivity | ].
    destruct (Write_tracked h value w)
      as (st2 & h2 & w2 & st_tx & E2 & Htr & _).
    exists st2, h2, w2, st_tx. split; [exact E2 | ].
    rewrite Htr. unfold transmit_of, frame.
    now rewrite (uint16_small value Hv).
Qed.

(** X11: nothing guards an unbound handle.  When [DAC8571_Init] rejected
    its arguments on a zero-initialized handle, a later [DAC8571_Write]
    still calls the HAL: with a null transport pointer, device address 0
    and command byte 0x00. *)
Theorem Write_on_unbound_handle (p : I2C_ptr) (a value : Z) (w : World Bus) :
  p = None \/ (uint8 a <> 0x4C /\ uint8 a <> 0x4E) ->
  0 <= value < 65536 ->
  exists st h2 w2 st_tx,
    run_ops [OpInit p a] (Some zero_handle, w) = (Some zero_handle, w)
    /\ DAC8571_Write (Some zero_handle) value w = (st, Some h2, w2)
    /\ trace w2
       = trace w ++ [(Transmit None 0 [0x00; value / 256; value mod 256] 100,
                      st_tx)].
Proof.
  intros Hrej Hv.
  destruct (Write_tracked zero_handle value w)
    as (st & h2 & w2 & st_tx & E & Htr & _).
  exists st, h2, w2, st_tx. split.
  - cbn [run_ops run_op].
    now rewrite (Init_noop (Some zero_handle) p a w Hrej).
  - split; [exact E | ]. rewrite Htr. unfold transmit_of, frame.
    now rewrite (uint16_small value Hv).
Qed.

End SingleCalls.


Section ArrayProgress.

Context {Bus : Type} `{I2C_HAL Bus}.



End ArrayProgress.

(** ** The range check of the voltage *)

Lemma F2Q_lt (m1 m2 e : Z) : m1 < m2 -> (Fp.F2Q m1 e < Fp.F2Q m2 e)%Q.
Proof.
  intros Hm. unfold Fp.F2Q. apply Qmult_lt_compat_r.
  - apply pow2_pos.
  - now rewrite <- Zlt_Qlt.
Qed.

(** A binary32 datum above 2.5 compares greater than the reference. *)
Lemma above_REF (m : positive) (e : Z) :
  bounded 24 128 m e = true ->
  (5 # 2 < Fp.F2Q (Zpos m) e)%Q ->
  SFltb Fp.DAC8571_REF_VOLTAGE (Fp.double_of_float (S754_finite false m e))
  = true.
Proof.
  intros Hb Hv.
  destruct (double_of_float_exact m e Hb) as (mz & ez & Ez & Hdz & Hmz & Hez).
  destruct (float_bounded m e Hb) as (He & Hd & _).
  assert (HD : 0 < Zdigits2 (Zpos m)) by (cbn; lia).
  rewrite Ez, REF_VOLTAGE_eq.
  assert (EQ : (Fp.F2Q (Zpos mz) ez == Fp.F2Q (Zpos m) e)%Q).
  { rewrite Hmz, Hez, F2Q_scale by lia.
    replace (e - (53 - Zdigits2 (Zpos m)) + (53 - Zdigits2 (Zpos m))) with e
      by lia. reflexivity. }
  pose proof (Zdigits2_bounds (Zpos mz) eq_refl) as [_ Hhi].
  rewrite Hdz in Hhi.
  assert (Hez' : -51 <= ez).
  { destruct (Z.le_gt_cases (-51) ez) as [ | Hlt]; [assumption | exfalso].
    assert (H2 : (Fp.F2Q (Zpos mz) ez < Fp.F2Q (1 * 2 ^ 53) ez)%Q).
    { apply F2Q_lt. lia. }
    rewrite F2Q_scale in H2 by lia. unfold Fp.F2Q at 2 in H2.
    change (inject_Z 1) with 1%Q in H2.
    assert (H3 : ((2 # 1) ^ (ez + 53) <= (2 # 1) ^ 1)%Q).
    { apply Qpower_le_compat_l; [lia | discriminate]. }
    change ((2 # 1) ^ 1)%Q with (2 # 1)%Q in H3. lra. }
  unfold SFltb, SFcompare.
  destruct (Z.compare_spec (-51) ez) as [Eez | Hlt | Hgt];
    [ | reflexivity | lia].
  change (Pos.compare_cont Eq 5629499534213120 mz)
    with (5629499534213120 ?= mz)%positive.
  assert (Hmgt : 5629499534213120 < Zpos mz).
  { rewrite <- Eez in EQ. unfold Fp.F2Q in EQ.
    change ((2 # 1) ^ (-51))%Q with (1 # 2251799813685248)%Q in EQ.
    fold (Fp.F2Q (Zpos m) e) in EQ.
    rewrite Zlt_Qlt.
    change (inject_Z 5629499534213120) with 5629499534213120%Q. lra. }
  destruct (Pos.compare_spec 5629499534213120 mz) as [Heq | Hlt' | Hgt'];
    [ | reflexivity | ]; exfalso.
  - clear - Hmgt Heq. subst mz. now apply Z.lt_irrefl in Hmgt.
  - clear - Hmgt Hgt'. apply Pos2Z.pos_lt_pos in Hgt'.
    exact (Z.lt_irrefl _ (Z.lt_trans _ _ _ Hgt' Hmgt)).
Qed.

(** The code written for a [float] in [0, 2.5], zero included. *)
Lemma voltage_code_floor (v : spec_float) :
  Fp.is_float v = true -> Fp.is_finite v = true ->
  (0 <= Fp.SF2Q v)%Q -> (Fp.SF2Q v <= Fp.REF_VOLTAGE_Q)%Q ->
  Fp.voltage_code v = Qfloor (Fp.SF2Q v / Fp.REF_VOLTAGE_Q * 65535).
Proof.
  intros Hf Hfin H0 H1. destruct v as [s | s | | s m e]; try discriminate.
  - now destruct s.
  - cbn [Fp.SF2Q] in H0, H1. pose proof (F2Q_pos m e) as Hpos.
    destruct s; [lra | ]. now apply voltage_code_floor_pos.
Qed.

Section VoltageCheck.

Context {Bus : Type} `{I2C_HAL Bus}.

(** X13: the range check of [DAC8571_SetVoltage] is exact.  A [float] that
    is an infinity, negative, or above 2.5 by however little is rejected
    with HAL_ERROR, nothing changes and no frame is sent; a finite float in
    [0, 2.5] (minus zero included) passes; a NaN passes too, since both
    comparisons are false for it. *)
Theorem SetVoltage_range_check (h : DAC8571_HandleTypeDef)
        (voltage : spec_float) (w : World Bus) :
  Fp.is_float voltage = true ->
  ((Fp.is_finite voltage = false /\ voltage <> S754_nan
    \/ (Fp.SF2Q voltage < 0)%Q \/ (Fp.REF_VOLTAGE_Q < Fp.SF2Q voltage)%Q) ->
   DAC8571_SetVoltage (Some h) voltage w = (HAL_ERROR, Some h, w))
  /\ ((Fp.is_finite voltage = true
       /\ (0 <= Fp.SF2Q voltage)%Q
       /\ (Fp.SF2Q voltage <= Fp.REF_VOLTAGE_Q)%Q) ->
      Fp.voltage_out_of_range voltage = false)
  /\ Fp.voltage_out_of_range S754_nan = false.
Proof.
  intros Hf. split; [ | split; [ | reflexivity]].
  - intros Hout. apply SetVoltage_rejects.
    unfold Fp.REF_VOLTAGE_Q in Hout.
    destruct voltage as [s | s | | s m e].
    + cbn in Hout. destruct Hout as [[Hc _] | [Hc | Hc]];
        [discriminate | lra | lra].
    + now destruct s.
    + destruct Hout as [[_ Hc] | [Hc | Hc]];
        [now elim Hc | cbn in Hc; lra | cbn in Hc; lra].
    + destruct s; [reflexivity | ].
      pose proof (F2Q_pos m e) as Hpos. cbn [Fp.SF2Q Fp.is_finite] in Hout.
      destruct Hout as [[Hc _] | [Hc | Hc]]; [discriminate | lra | ].
      unfold Fp.voltage_out_of_range. apply orb_true_iff. right.
      now apply above_REF.
  - intros (Hfin & H0 & H1). now apply voltage_in_range.
Qed.

(** X14: the code is monotone and at most one step below the voltage.  For
    floats 0 <= v1 <= v2 <= 2.5 the code written for v1 is at most the code
    written for v2, and the code k written for v satisfies
    k * 2.5 / 65535 <= v < (k + 1) * 2.5 / 65535 with 0 <= k <= 65535. *)
Theorem voltage_code_quantization (v1 v2 : spec_float) :
  Fp.is_float v1 = true -> Fp.is_finite v1 = true ->
  Fp.is_float v2 = true -> Fp.is_finite v2 = true ->
  (0 <= Fp.SF2Q v1)%Q -> (Fp.SF2Q v1 <= Fp.SF2Q v2)%Q ->
  (Fp.SF2Q v2 <= Fp.REF_VOLTAGE_Q)%Q ->
  Fp.voltage_code v1 <= Fp.voltage_code v2
  /\ 0 <= Fp.voltage_code v1 <= 65535
  /\ (inject_Z (Fp.voltage_code v1) * (5 # 2) / 65535 <= Fp.SF2Q v1)%Q
  /\ (Fp.SF2Q v1 < (inject_Z (Fp.voltage_code v1) + 1) * (5 # 2) / 65535)%Q.
Proof.
  intros Hf1 Hfin1 Hf2 Hfin2 H0 H12 H2.
  assert (H1 : (Fp.SF2Q v1 <= Fp.REF_VOLTAGE_Q)%Q) by (eapply Qle_trans; eassumption).
  assert (H0' : (0 <= Fp.SF2Q v2)%Q) by (eapply Qle_trans; eassumption).
  rewrite (voltage_code_floor v1 Hf1 Hfin1 H0 H1).
  rewrite (voltage_code_floor v2 Hf2 Hfin2 H0' H2).
  unfold Fp.REF_VOLTAGE_Q in *. unfold Qdiv.
  change (/ (5 # 2))%Q with (2 # 5)%Q. change (/ 65535)%Q with (1 # 65535)%Q.
  set (x1 := (Fp.SF2Q v1 * (2 # 5) * 65535)%Q).
  pose proof (Qfloor_le x1) as Hlo. pose proof (Qlt_floor x1) as Hhi.
  rewrite inject_Z_plus in Hhi. change (inject_Z 1) with 1%Q in Hhi.
  split.
  - apply Qfloor_resp_le. unfold x1. lra.
  - split.
    + split.
      * apply (Qfloor_resp_le 0). unfold x1. lra.
      * apply (Qfloor_resp_le x1 65535). unfold x1. lra.
    + set (k := inject_Z (Qfloor x1)) in *. unfold x1 in Hlo, Hhi.
      split; lra.
Qed.

End VoltageCheck.

(** ** The self-test *)

Lemma tally_total (b : bool) (c : Z * Z) : total (tally b c) = total c + 1.
Proof. unfold total, tally. destruct b; cbn [fst snd]; lia. Qed.

Section SelfTestProperties.

Context {Bus : Type} `{I2C_HAL Bus}.

Lemma fold_total (A : Type) (step : (@TestState Bus) -> A -> (@TestState Bus))
      (l : list A) (s : @TestState Bus) :
  (forall s x, total (counters (step s x)) = total (counters s) + 1) ->
  total (counters (fold_left step l s))
  = total (counters s) + Z.of_nat (length l).
Proof.
  intros Hstep. revert s. induction l as [ | x l IH]; intros s.
  - cbn. lia.
  - cbn [fold_left length]. rewrite IH, Hstep. lia.
Qed.

Lemma fold_state (A : Type) (step : (@TestState Bus) -> A -> (@TestState Bus))
      (mk : A -> Op) (l : list A) (s : @TestState Bus) :
  (forall s x, state_of (step s x) = snd (run_op (mk x) (state_of s))) ->
  state_of (fold_left step l s) = run_ops (map mk l) (state_of s).
Proof.
  intros Hstep. revert s. induction l as [ | x l IH]; intros s.
  - reflexivity.
  - cbn [fold_left map run_ops]. now rewrite IH, Hstep.
Qed.

Lemma run_ops_app (l1 l2 : list Op) (s : St) :
  run_ops (l1 ++ l2) s = run_ops l2 (run_ops l1 s).
Proof.
  revert s. induction l1 as [ | op l1 IH]; intros s; [reflexivity | ].
  cbn [app run_ops]. apply IH.
Qed.

Lemma voltage_step_total (s : @TestState Bus) (v : spec_float) :
  total (counters (voltage_step s v)) = total (counters s) + 1.
Proof.
  destruct s as [[c h] w]. unfold voltage_step.
  destruct (DAC8571_SetVoltage h v w) as [[st h'] w']. apply tally_total.
Qed.

Lemma mode_step_total (s : @TestState Bus) (m : Z) :
  total (counters (mode_step s m)) = total (counters s) + 1.
Proof.
  destruct s as [[c h] w]. unfold mode_step.
  destruct (DAC8571_SetWriteMode h m w) as [[st h'] w']. apply tally_total.
Qed.

Lemma power_step_total (s : @TestState Bus) (m : Z) :
  total (counters (power_step s m)) = total (counters s) + 1.
Proof.
  destruct s as [[c h] w]. unfold power_step.
  destruct (DAC8571_PowerMode h m w) as [[st h'] w']. apply tally_total.
Qed.

Lemma voltage_step_state (s : @TestState Bus) (v : spec_float) :
  state_of (voltage_step s v) = snd (run_op (OpSetVoltage v) (state_of s)).
Proof.
  destruct s as [[c h] w]. unfold voltage_step, state_of. cbn [run_op fst snd].
  now destruct (DAC8571_SetVoltage h v w) as [[st h'] w'].
Qed.

Lemma mode_step_state (s : @TestState Bus) (m : Z) :
  state_of (mode_step s m) = snd (run_op (OpSetWriteMode m) (state_of s)).
Proof.
  destruct s as [[c h] w]. unfold mode_step, state_of. cbn [run_op fst snd].
  now destruct (DAC8571_SetWriteMode h m w) as [[st h'] w'].
Qed.

Lemma power_step_state (s : @TestState Bus) (m : Z) :
  state_of (power_step s m) = snd (run_op (OpPowerMode m) (state_of s)).
Proof.
  destruct s as [[c h] w]. unfold power_step, state_of. cbn [run_op fst snd].
  now destruct (DAC8571_PowerMode h m w) as [[st h'] w'].
Qed.

Lemma SelfTest_tail_spec (s : @TestState Bus) :
  total (counters (SelfTest_tail s)) = total (counters s) + 5
  /\ state_of (SelfTest_tail s)
     = run_ops [OpWriteArray (Some testArray) 3;
                OpWriteArray (Some testArray) 20;
                OpWrite 0x8000; OpRead; OpReset; OpWakeUp 0x8000;
                OpGetAddress; OpGetWriteMode; OpGetLastError;
                OpSetVoltage Fp.float_zero] (state_of s).
Proof.
  destruct s as [[c h] w]. unfold SelfTest_tail, state_of.
  cbn [run_ops run_op fst snd].
  destruct (DAC8571_WriteArray h (Some testArray) 3 w) as [[st1 h1] w1].
  cbn [run_op snd].
  destruct (DAC8571_WriteArray h1 (Some testArray) 20 w1) as [[st2 h2] w2].
  cbn [run_op snd].
  destruct (DAC8571_Write h2 0x8000 w2) as [[st3 h3] w3]. cbn [run_op snd].
  destruct (DAC8571_Read h3 w3) as [[v4 h4] w4]. cbn [run_op snd].
  destruct (DAC8571_Reset h4 w4) as [[st5 h5] w5]. cbn [run_op snd].
  destruct (DAC8571_WakeUp h5 0x8000 w5) as [[st6 h6] w6]. cbn [run_op snd].
  destruct (DAC8571_GetAddress h6 w6) as [[v7 h7] w7]. cbn [run_op snd].
  destruct (DAC8571_GetWriteMode h7 w7) as [[v8 h8] w8]. cbn [run_op snd].
  destruct (DAC8571_GetLastError h8 w8) as [[v9 h9] w9]. cbn [run_op snd].
  destruct (DAC8571_SetVoltage h9 Fp.float_zero w9) as [[st10 h10] w10].
  cbn [snd fst counters]. split; [ | reflexivity].
  rewrite !tally_total. lia.
Qed.

Lemma SelfTest_total (hdac8571 : option DAC8571_HandleTypeDef)
      (w : World Bus) :
  total (counters (DAC8571_SelfTest hdac8571 w)) = 25.
Proof.
  unfold DAC8571_SelfTest. cbv zeta.
  destruct (SelfTest_tail_spec
              (fold_left power_step powerModes
                 (fold_left mode_step allWriteModes
                    (fold_left voltage_step voltages ((0, 0), hdac8571, w)))))
    as [Ht _].
  rewrite Ht.
  rewrite (fold_total _ power_step) by apply power_step_total.
  rewrite (fold_total _ mode_step) by apply mode_step_total.
  rewrite (fold_total _ voltage_step) by apply voltage_step_total.
  reflexivity.
Qed.

Lemma SelfTest_state (hdac8571 : option DAC8571_HandleTypeDef)
      (w : World Bus) :
  state_of (DAC8571_SelfTest hdac8571 w) = run_ops SelfTest_ops (hdac8571, w).
Proof.
  unfold DAC8571_SelfTest. cbv zeta.
  set (s0 := ((0, 0), hdac8571, w) : @TestState Bus).
  set (s1 := fold_left voltage_step voltages s0).
  set (s2 := fold_left mode_step allWriteModes s1).
  set (s3 := fold_left power_step powerModes s2).
  destruct (SelfTest_tail_spec s3) as [_ Hs].
  rewrite Hs. unfold SelfTest_ops. rewrite !run_ops_app. f_equal.
  unfold s3. rewrite (fold_state _ power_step OpPowerMode)
    by apply power_step_state. f_equal.
  unfold s2. rewrite (fold_state _ mode_step OpSetWriteMode)
    by apply mode_step_state. f_equal.
  unfold s1. rewrite (fold_state _ voltage_step OpSetVoltage)
    by apply voltage_step_state. reflexivity.
Qed.

(** X15: the self-test always counts 25 tests, whatever the transport and
    the handle do; what it does to the handle and to the bus is what its 30
    driver calls do in sequence, and it issues at most 16 bus
    transactions. *)
Theorem SelfTest_counts (hdac8571 : option DAC8571_HandleTypeDef)
        (w : World Bus) :
  total (counters (DAC8571_SelfTest hdac8571 w)) = 25
  /\ state_of (DAC8571_SelfTest hdac8571 w)
     = run_ops SelfTest_ops (hdac8571, w)
  /\ length SelfTest_ops = 30%nat
  /\ exists evs,
      trace (snd (DAC8571_SelfTest hdac8571 w)) = trace w ++ evs
      /\ (length evs <= 16)%nat.
Proof.
  split; [apply SelfTest_total | ]. split; [apply SelfTest_state | ].
  split; [reflexivity | ].
  destruct (run_ops_budget SelfTest_ops hdac8571 w)
    as (h' & w' & evs & E & Htr & Hl).
  exists evs. pose proof (SelfTest_state hdac8571 w) as Hs.
  rewrite E in Hs. destruct (DAC8571_SelfTest hdac8571 w) as [[c hx] wx].
  unfold state_of in Hs. cbn [fst snd] in Hs. injection Hs as _ ->.
  split; [exact Htr | exact Hl].
Qed.






Lemma Write_status (h : DAC8571_HandleTypeDef) (value : Z) (w : World Bus) :
  exists st h' w',
    DAC8571_Write (Some h) value w = (st, Some h', w')
    /\ (always_acks -> st = HAL_OK).
Proof.
  destruct (Write_event h value w) as (st & b & Etx & E). rewrite E.
  eexists _, _, _. split; [reflexivity | ]. intros Hacks.
  specialize (Hacks (bus w) (hi2c h) (uint16 (Z.shiftl (address h) 1))
                    (frame (writeMode h) (uint16 value)) 100).
  rewrite Etx in Hacks. cbn [fst] in Hacks. now subst st.
Qed.

Lemma WriteArray_loop_status (n i : nat) (a : list Z)
      (h : DAC8571_HandleTypeDef) (w : World Bus) :
  exists st h' w',
    WriteArray_loop n i (Some h) a w = (st, Some h', w')
    /\ (always_acks -> st = HAL_OK).
Proof.
  revert i h w. induction n as [ | n IH]; intros i h w.
  - exists HAL_OK, h, w. split; reflexivity.
  - cbn [WriteArray_loop].
    destruct (Write_status h (nth i a 0) w) as (st & h1 & w1 & E & Hok).
    rewrite E. destruct (status_is_ok st) eqn:Est.
    + apply IH.
    + exists st, h1, w1. split; [reflexivity | exact Hok].
Qed.

Lemma fold_verdict (A : Type) (step : (@TestState Bus) -> A -> (@TestState Bus))
      (sure : A -> bool) (l : list A) :
  (forall x, In x l -> forall c h (w : World Bus), exists b h' w',
       step (c, Some h, w) x = (tally b c, Some h', w')
       /\ (sure x = true -> b = true) /\ (always_acks -> b = true)) ->
  forall c h (w : World Bus), exists c' h' w',
    fold_left step l (c, Some h, w) = (c', Some h', w')
    /\ fst c + Z.of_nat (length (filter sure l)) <= fst c'
    /\ (always_acks -> c' = (fst c + Z.of_nat (length l), snd c)).
Proof.
  induction l as [ | x l IH]; intros Hstep c h w.
  - exists c, h, w. split; [reflexivity | ]. split; [cbn; lia | ].
    intros _. destruct c. cbn. f_equal. lia.
  - destruct (Hstep x (or_introl eq_refl) c h w)
      as (b & h1 & w1 & E & Hs & Ha).
    cbn [fold_left]. rewrite E.
    destruct (IH (fun y Hy => Hstep y (or_intror Hy)) (tally b c) h1 w1)
      as (c' & h' & w' & E' & Hlow & Hall).
    exists c', h', w'. split; [exact E' | ]. split.
    + cbn [filter]. destruct (sure x) eqn:Es.
      * rewrite (Hs eq_refl) in Hlow. cbn [tally fst length] in *. lia.
      * destruct b; cbn [tally fst] in Hlow; lia.
    + intros Hacks. rewrite (Hall Hacks), (Ha Hacks).
      cbn [tally fst snd length]. f_equal. lia.
Qed.

Lemma voltage_step_verdict (v : spec_float) :
  In v voltages ->
  forall c h (w : World Bus), exists b h' w',
    voltage_step (c, Some h, w) v = (tally b c, Some h', w')
    /\ (Fp.voltage_out_of_range v = true -> b = true)
    /\ (always_acks -> b = true).
Proof.
  intros Hin c h w. unfold voltage_step.
  destruct (Fp.voltage_out_of_range v) eqn:Er.
  - rewrite (SetVoltage_rejects h v w Er).
    eexists _, h, w. split; [reflexivity | ].
    assert (Hb : (SFleb Fp.float_zero v
                  && SFleb (Fp.double_of_float v) Fp.DAC8571_REF_VOLTAGE
                  && status_is_ok HAL_ERROR
                  || (SFltb v Fp.float_zero
                      || SFltb Fp.DAC8571_REF_VOLTAGE (Fp.double_of_float v))
                     && negb (status_is_ok HAL_ERROR)) = true).
    { unfold Fp.voltage_out_of_range in Er. rewrite Er. cbn.
      now rewrite andb_false_r. }
    split; intros _; exact Hb.
  - unfold DAC8571_SetVoltage. rewrite Er.
    destruct (Write_status h (Fp.voltage_code v) w)
      as (st & h' & w' & E & Hok).
    rewrite E. eexists _, h', w'. split; [reflexivity | ].
    split; [discriminate | ]. intros Hacks. rewrite (Hok Hacks).
    cbn [voltages In] in Hin.
    destruct Hin as [<- | [<- | [<- | [<- | [<- | []]]]]];
      solve [discriminate Er | vm_compute; reflexivity].
Qed.

Lemma mode_step_verdict (m : Z) :
  In m allWriteModes ->
  forall c h (w : World Bus), exists b h' w',
    mode_step (c, Some h, w) m = (tally b c, Some h', w')
    /\ (true = true -> b = true) /\ (always_acks -> b = true).
Proof.
  intros Hin c h w. unfold mode_step, DAC8571_SetWriteMode.
  cbn [allWriteModes In] in Hin.
  destruct Hin as [<- | [<- | [<- | [<- | [<- | [<- | [<- | [<- | [<- | []]]]]]]]]];
    eexists _, _, w; (split; [reflexivity | split; reflexivity]).
Qed.

Lemma power_step_verdict (m : Z) :
  In m powerModes ->
  forall c h (w : World Bus), exists b h' w',
    power_step (c, Some h, w) m = (tally b c, Some h', w')
    /\ ((DAC8571_PD_HI_Z <? m) = true -> b = true)
    /\ (always_acks -> b = true).
Proof.
  intros Hin c h w. unfold power_step.
  cbn [powerModes In] in Hin.
  destruct Hin as [<- | [<- | [<- | [<- | [<- | [<- | []]]]]]].
  6: { rewrite PowerMode_rejects by (cbn; lia).
       eexists _, _, w. split; [reflexivity | split; reflexivity]. }
  all: unfold DAC8571_PowerMode;
    match goal with
    | |- context [pdValue_of (uint8 ?x)] =>
        let r := eval vm_compute in (pdValue_of (uint8 x)) in
        change (pdValue_of (uint8 x)) with r
    end; cbv beta iota zeta;
    match goal with
    | |- context [DAC8571_Write (Some ?h1) ?v ?w0] =>
        destruct (Write_status h1 v w0) as (st & h' & w' & E & Hok); rewrite E
    end;
    eexists _, h', w'; (split; [reflexivity | ]);
    (split; [discriminate | ]); intros Hacks; rewrite (Hok Hacks); reflexivity.
Qed.

Lemma SelfTest_tail_verdict (c : Z * Z) (h : DAC8571_HandleTypeDef)
      (w : World Bus) :
  exists c' h' w',
    SelfTest_tail (c, Some h, w) = (c', Some h', w')
    /\ fst c + 1 <= fst c'
    /\ (always_acks -> c' = (fst c + 5, snd c)).
Proof.
  unfold SelfTest_tail.
  change (DAC8571_WriteArray (Some h) (Some testArray) 3 w)
    with (WriteArray_loop 3 0 (Some h) testArray w).
  destruct (WriteArray_loop_status 3 0 testArray h w)
    as (s1 & h1 & w1 & E1 & Hok1).
  rewrite E1.
  change (DAC8571_WriteArray (Some h1) (Some testArray) 20 w1)
    with (HAL_ERROR, Some (set_lastError h1 DAC8571_BUFFER_ERROR), w1).
  cbv beta iota zeta.
  destruct (Write_status (set_lastError h1 DAC8571_BUFFER_ERROR) 0x8000 w1)
    as (s3 & h3 & w3 & E3 & Hok3).
  rewrite E3.
  destruct (Read_some h3 w3) as (v4 & h4 & w4 & E4 & _).
  rewrite E4. unfold DAC8571_Reset.
  destruct (Write_status h4 0 w4) as (s5 & h5 & w5 & E5 & Hok5).
  rewrite E5. unfold DAC8571_WakeUp.
  destruct (Write_status h5 0x8000 w5) as (s6 & h6 & w6 & E6 & Hok6).
  rewrite E6.
  cbn [DAC8571_GetAddress DAC8571_GetWriteMode DAC8571_GetLastError].
  unfold DAC8571_SetVoltage.
  change (Fp.voltage_out_of_range Fp.float_zero) with false.
  cbv beta iota.
  destruct (Write_status (set_lastError h6 DAC8571_OK)
                         (Fp.voltage_code Fp.float_zero) w6)
    as (s10 & h10 & w10 & E10 & _).
  rewrite E10. eexists _, h10, w10. split; [reflexivity | ]. split.
  - cbn [status_is_ok negb].
    destruct (status_is_ok s1), (status_is_ok s3), (status_is_ok s5),
      (status_is_ok s6); cbn [tally fst snd]; lia.
  - intros Hacks.
    rewrite (Hok1 Hacks), (Hok3 Hacks), (Hok5 Hacks), (Hok6 Hacks).
    cbn [status_is_ok negb tally fst snd]. f_equal. lia.
Qed.

Lemma SelfTest_run (h : DAC8571_HandleTypeDef) (w : World Bus) :
  exists c' h' w',
    DAC8571_SelfTest (Some h) w = (c', Some h', w')
    /\ 13 <= fst c'
    /\ (always_acks -> c' = (25, 0)).
Proof.
  unfold DAC8571_SelfTest. cbv zeta.
  destruct (fold_verdict _ voltage_step Fp.voltage_out_of_range voltages
              voltage_step_verdict (0, 0) h w)
    as (c1 & h1 & w1 & E1 & L1 & A1).
  rewrite E1.
  destruct (fold_verdict _ mode_step (fun _ => true) allWriteModes
              mode_step_verdict c1 h1 w1)
    as (c2 & h2 & w2 & E2 & L2 & A2).
  rewrite E2.
  destruct (fold_verdict _ power_step (fun m => DAC8571_PD_HI_Z <? m)
              powerModes power_step_verdict c2 h2 w2)
    as (c3 & h3 & w3 & E3 & L3 & A3).
  rewrite E3.
  destruct (SelfTest_tail_verdict c3 h3 w3) as (c4 & h4 & w4 & E4 & L4 & A4).
  rewrite E4. exists c4, h4, w4. split; [reflexivity | ]. split.
  - change (Z.of_nat (length (filter Fp.voltage_out_of_range voltages)))
      with 2 in L1.
    change (Z.of_nat (length (filter (fun _ : Z => true) allWriteModes)))
      with 9 in L2.
    change (Z.of_nat (length (filter (fun m => DAC8571_PD_HI_Z <? m)
                                     powerModes)))
      with 1 in L3.
    cbn [fst] in L1. lia.
  - intros Hacks.
    rewrite (A4 Hacks), (A3 Hacks), (A2 Hacks), (A1 Hacks). reflexivity.
Qed.

(** X17: on a transport that acknowledges every transmit, the self-test
    of a non-null handle passes all 25 tests. *)
Theorem SelfTest_all_pass (h : DAC8571_HandleTypeDef) (w : World Bus) :
  always_acks ->
  counters (DAC8571_SelfTest (Some h) w) = (25, 0).
Proof.
  intros Hacks.
  destruct (SelfTest_run h w) as (c' & h' & w' & E & _ & Hall).
  rewrite E. exact (Hall Hacks).
Qed.

(** X18: what the self-test reports without a working bus.  13 of its 25
    tests do not depend on the transport (the two rejected voltages, the
    nine write-mode tests, the invalid power mode and the oversized array),
    so a non-null handle always scores at least 13 passes; a null handle
    scores exactly 5 passes and 20 failures and leaves the bus alone. *)
Theorem SelfTest_bus_independent (w : World Bus) :
  (forall h, 13 <= fst (counters (DAC8571_SelfTest (Some h) w))
             /\ snd (counters (DAC8571_SelfTest (Some h) w)) <= 12)
  /\ DAC8571_SelfTest None w = ((5, 20), None, w).
Proof.
  split; [ | reflexivity]. intros h.
  pose proof (SelfTest_total (Some h) w) as Ht.
  destruct (SelfTest_run h w) as (c' & h' & w' & E & Hlow & _).
  rewrite E in *. unfold total, counters in *. cbn [fst snd] in *. lia.
Qed.

End SelfTestProperties.

(** ** The properties at concrete inputs *)

Lemma Init_rejected_is_noop_witness :
  (Some (I2C_Peripheral 1) = None \/ (uint8 0x4D <> 0x4C /\ uint8 0x4D <> 0x4E))
  /\ DAC8571_Init (Some ready_handle) (Some (I2C_Peripheral 1)) 0x4D
                  quiet_world
     = (tt, Some ready_handle, quiet_world).
Proof.
  assert (Hbad : Some (I2C_Peripheral 1) = None
                 \/ (uint8 0x4D <> 0x4C /\ uint8 0x4D <> 0x4E)).
  { right. split; vm_compute; discriminate. }
  split; [exact Hbad | ].
  exact (proj1 (Init_rejected_is_noop (Some ready_handle)
                  (Some (I2C_Peripheral 1)) 0x4D quiet_world Hbad)).
Defined.

Lemma Init_probes_witness :
  valid_address 0x4C
  /\ exists h' w' fails,
      DAC8571_Init (Some zero_handle) (Some (I2C_Peripheral 1)) 0x4C
                   (flaky_world 2) = (tt, Some h', w')
      /\ Forall failed fails
      /\ lastError h' = match fails with
                        | [] => DAC8571_OK
                        | _ => DAC8571_I2C_ERROR
                        end.
Proof.
  assert (Ha : valid_address 0x4C) by (left; reflexivity).
  split; [exact Ha | ].
  destruct (Init_probes zero_handle (I2C_Peripheral 1) 0x4C (flaky_world 2) Ha)
    as (h' & w' & fails & E & Eh & Hf & _).
  exists h', w', fails. split; [exact E | ]. split; [exact Hf | ].
  rewrite Eh. reflexivity.
Defined.

Lemma wire_format_witness :
  valid_address 0x4E /\ no_init session = true
  /\ exists h w evs,
      run_ops (OpInit (Some (I2C_Peripheral 1)) 0x4E :: session)
              (Some zero_handle, quiet_world) = (Some h, w)
      /\ trace w = trace quiet_world ++ evs
      /\ Forall (wire_ok (I2C_Peripheral 1) 0x4E) evs.
Proof.
  assert (Ha : valid_address 0x4E) by (right; reflexivity).
  split; [exact Ha | ]. split; [reflexivity | ].
  exact (wire_format zero_handle (I2C_Peripheral 1) 0x4E quiet_world session
                     Ha eq_refl).
Defined.

Lemma GetAddress_after_Init_witness :
  valid_address 0x4E /\ no_init session = true
  /\ exists h w,
      run_ops (OpInit (Some (I2C_Peripheral 1)) 0x4E :: session)
              (Some zero_handle, flaky_world 1) = (Some h, w)
      /\ DAC8571_GetAddress (Some h) w = (0x4E, Some h, w)
      /\ hi2c h = Some (I2C_Peripheral 1).
Proof.
  assert (Ha : valid_address 0x4E) by (right; reflexivity).
  split; [exact Ha | ]. split; [reflexivity | ].
  exact (GetAddress_after_Init zero_handle (I2C_Peripheral 1) 0x4E
                               (flaky_world 1) session Ha eq_refl).
Defined.

Lemma lastValue_tracks_witness :
  no_init session = true
  /\ exists h' w' evs,
      run_ops session (Some ready_handle, flaky_world 1) = (Some h', w')
      /\ trace w' = trace (flaky_world 1) ++ evs
      /\ lastValue h' = last_ok_value evs (lastValue ready_handle).
Proof.
  split; [reflexivity | ].
  exact (proj1 (lastValue_tracks ready_handle (flaky_world 1) session
                                 eq_refl)).
Defined.

Lemma WakeUp_after_PowerMode_witness :
  0 <= 0x8000 < 65536
  /\ exists st1 h1 w1 st2 h2 w2,
      DAC8571_PowerMode (Some ready_handle) DAC8571_PD_HI_Z quiet_world
      = (st1, Some h1, w1)
      /\ DAC8571_WakeUp (Some h1) 0x8000 w1 = (st2, Some h2, w2)
      /\ writeMode h2 = 0x01.
Proof.
  assert (Hv : 0 <= 0x8000 < 65536) by lia.
  split; [exact Hv | ].
  destruct (WakeUp_after_PowerMode ready_handle DAC8571_PD_HI_Z 0x8000
                                   quiet_world Hv)
    as (st1 & h1 & w1 & st2 & h2 & w2 & st_tx & E1 & E2 & _ & Em).
  exists st1, h1, w1, st2, h2, w2. repeat split; assumption.
Defined.

Lemma SetWriteMode_then_use_witness :
  0 <= 0x20 < 256 /\ 0 <= 0x1234 < 65536
  /\ exists st h1,
      DAC8571_SetWriteMode (Some ready_handle) 0x20 quiet_world
      = (st, Some h1, quiet_world)
      /\ (st = HAL_OK <-> In 0x20 command_bytes).
Proof.
  assert (Hm : 0 <= 0x20 < 256) by lia.
  assert (Hv : 0 <= 0x1234 < 65536) by lia.
  split; [exact Hm | ]. split; [exact Hv | ].
  destruct (SetWriteMode_then_use ready_handle 0x20 0x1234 quiet_world Hm Hv)
    as (st & h1 & E & Hiff & _).
  exists st, h1. split; assumption.
Defined.

Lemma Write_on_unbound_handle_witness :
  (@None I2C_HandleTypeDef = None \/ (uint8 0x4C <> 0x4C /\ uint8 0x4C <> 0x4E))
  /\ 0 <= 5 < 65536
  /\ exists st h2 w2 st_tx,
      DAC8571_Write (Some zero_handle) 5 quiet_world = (st, Some h2, w2)
      /\ trace w2
         = trace quiet_world
           ++ [(Transmit None 0 [0x00; 5 / 256; 5 mod 256] 100, st_tx)].
Proof.
  assert (Hp : @None I2C_HandleTypeDef = None
               \/ (uint8 0x4C <> 0x4C /\ uint8 0x4C <> 0x4E))
    by (left; reflexivity).
  assert (Hv : 0 <= 5 < 65536) by lia.
  split; [exact Hp | ]. split; [exact Hv | ].
  destruct (Write_on_unbound_handle None 0x4C 5 quiet_world Hp Hv)
    as (st & h2 & w2 & st_tx & _ & E & Htr).
  exists st, h2, w2, st_tx. split; assumption.
Defined.


Lemma SetVoltage_range_check_witness :
  Fp.is_float volt_3_3 = true
  /\ (Fp.REF_VOLTAGE_Q < Fp.SF2Q volt_3_3)%Q
  /\ DAC8571_SetVoltage (Some ready_handle) volt_3_3 quiet_world
     = (HAL_ERROR, Some ready_handle, quiet_world).
Proof.
  assert (Hout : (Fp.REF_VOLTAGE_Q < Fp.SF2Q volt_3_3)%Q)
    by (vm_compute; reflexivity).
  split; [reflexivity | ]. split; [exact Hout | ].
  exact (proj1 (SetVoltage_range_check ready_handle volt_3_3 quiet_world
                                       eq_refl)
               (or_intror (or_intror Hout))).
Defined.

Lemma voltage_code_quantization_witness :
  Fp.is_float volt_1_25 = true /\ Fp.is_finite volt_1_25 = true
  /\ Fp.is_float volt_2_0 = true /\ Fp.is_finite volt_2_0 = true
  /\ (0 <= Fp.SF2Q volt_1_25)%Q
  /\ (Fp.SF2Q volt_1_25 <= Fp.SF2Q volt_2_0)%Q
  /\ (Fp.SF2Q volt_2_0 <= Fp.REF_VOLTAGE_Q)%Q
  /\ Fp.voltage_code volt_1_25 <= Fp.voltage_code volt_2_0.
Proof.
  assert (H0 : (0 <= Fp.SF2Q volt_1_25)%Q) by (vm_compute; discriminate).
  assert (H12 : (Fp.SF2Q volt_1_25 <= Fp.SF2Q volt_2_0)%Q)
    by (vm_compute; discriminate).
  assert (H2 : (Fp.SF2Q volt_2_0 <= Fp.REF_VOLTAGE_Q)%Q)
    by (vm_compute; discriminate).
  repeat (split; [first [reflexivity | assumption] | ]).
  exact (proj1 (voltage_code_quantization volt_1_25 volt_2_0
                  eq_refl eq_refl eq_refl eq_refl H0 H12 H2)).
Defined.

Lemma SelfTest_all_pass_witness :
  @always_acks unit SteadyHAL
  /\ counters (DAC8571_SelfTest (Some ready_handle) steady_world) = (25, 0).
Proof.
  assert (Ha : @always_acks unit SteadyHAL)
    by (intros b p dev data t; reflexivity).
  split; [exact Ha | ].
  exact (SelfTest_all_pass ready_handle steady_world Ha).
Defined.
